(** * hosted-providers-e2e: the EKS helper layer and its convergence checks

    A shallow embedding of [hosted/eks/helper/helper_cluster.go] and of the
    checks of [hosted/eks/p1] that drive it.  Go values are modelled as they
    are written: pointer fields are [option]s (dereferencing [None] aborts the
    running spec), slices are lists, [time.Duration] is a [Z] of nanoseconds,
    the process environment is a finite map, and the management API, the
    provider CLI and the package-level helpers that live outside this package
    are parameters of the functions that call them. *)

From Stdlib Require Import ZArith String Ascii List Bool Lia.
From stdpp Require Import base option list gmap strings.

Local Open Scope string_scope.
Local Open Scope list_scope.
Local Open Scope Z_scope.

(** ** Go's [strings] package (the functions the helpers use) *)
Module strings.

(** [strings.HasPrefix(s, prefix)] *)
Fixpoint HasPrefix (s prefix : string) : bool :=
  match prefix, s with
  | EmptyString, _ => true
  | String a p, String b r => Ascii.eqb a b && HasPrefix r p
  | String _ _, EmptyString => false
  end.

(** [strings.Contains(s, substr)] *)
Fixpoint Contains (s substr : string) : bool :=
  HasPrefix s substr ||
  match s with
  | EmptyString => false
  | String _ r => Contains r substr
  end.

(** A string from the values of its bytes. *)
Definition bytes (values : list nat) : string :=
  string_of_list_ascii (map ascii_of_nat values).

(** What [unicode.IsSpace] accepts, as it stands in a Go string: the UTF-8
    encodings of tab, newline, vertical tab, form feed, carriage return and
    space, of U+0085 and U+00A0, and of the other code points with the
    White_Space property: U+1680, U+2000 to U+200A, U+2028, U+2029, U+202F,
    U+205F and U+3000. *)
Definition whiteSpace : list string :=
  map bytes
    ([[9]; [10]; [11]; [12]; [13]; [32]; [194; 133]; [194; 160]; [225; 154; 128]]
     ++ map (fun last => [226; 128; last]) (seq 128 11)
     ++ [[226; 128; 168]; [226; 128; 169]; [226; 128; 175]; [226; 129; 159];
         [227; 128; 128]])%nat.

(** What is left of [s] behind [prefix], when [s] begins with it. *)
Fixpoint stripPrefix (s prefix : string) : option string :=
  match prefix, s with
  | EmptyString, _ => Some s
  | String a p, String b r => if Ascii.eqb a b then stripPrefix r p else None
  | String _ _, EmptyString => None
  end.

(** What is left of [s] behind the first of [prefixes] it begins with. *)
Fixpoint stripAny (s : string) (prefixes : list string) : option string :=
  match prefixes with
  | [] => None
  | p :: ps =>
      match stripPrefix s p with
      | Some r => Some r
      | None => stripAny s ps
      end
  end.

(** Strip leading [prefixes] for as long as there is one; every round takes
    at least one byte, so the length of the string is fuel enough. *)
Fixpoint trimPrefixes (fuel : nat) (prefixes : list string) (s : string) : string :=
  match fuel with
  | O => s
  | S fuel' =>
      match stripAny s prefixes with
      | Some r => trimPrefixes fuel' prefixes r
      | None => s
      end
  end.

Definition trimAll (prefixes : list string) (s : string) : string :=
  trimPrefixes (String.length s) prefixes s.

Fixpoint reverseOnto (s acc : string) : string :=
  match s with
  | EmptyString => acc
  | String c r => reverseOnto r (String c acc)
  end.

(** The bytes of [s] in reverse order. *)
Definition reverse (s : string) : string := reverseOnto s EmptyString.

(** [strings.TrimLeftFunc(s, unicode.IsSpace)]: decode the rune [s] begins
    with and drop it while it is white space; a byte that begins no valid
    encoding decodes to U+FFFD, which is not white space. *)
Definition TrimLeft (s : string) : string := trimAll whiteSpace s.

(** [strings.TrimRightFunc(s, unicode.IsSpace)]: the same from the end.  The
    last rune is found by stepping back to the nearest byte that can begin
    an encoding, so [s] ends with a white-space rune exactly when it ends
    with one of the encodings. *)
Definition TrimRight (s : string) : string :=
  reverse (trimAll (map reverse whiteSpace) (reverse s)).

(** [strings.TrimSpace(s)] *)
Definition TrimSpace (s : string) : string := TrimRight (TrimLeft s).

(** [strings.Join(elems, sep)] *)
Fixpoint Join (elems : list string) (sep : string) : string :=
  match elems with
  | [] => EmptyString
  | [e] => e
  | e :: rest => e +:+ sep +:+ Join rest sep
  end.

(** [strings.Split(s, "\n")]: the separator the helpers split on is the
    single newline character. *)
Fixpoint SplitLines (s : string) : list string :=
  match s with
  | EmptyString => [EmptyString]
  | String c r =>
      if Ascii.eqb c "010"%char then EmptyString :: SplitLines r
      else match SplitLines r with
           | l :: ls => String c l :: ls
           | [] => [String c EmptyString]
           end
  end.

End strings.

(** ** Errors: [error] values and [github.com/pkg/errors.Wrap] *)
Module errors.

(** An error is either a leaf with its own message (an [*exec.ExitError],
    an API error) or a cause wrapped with a message. *)
Inductive error : Type :=
| New (msg : string)
| withMessage (cause : error) (msg : string).

(** [err.Error()] *)
Fixpoint Error (e : error) : string :=
  match e with
  | New m => m
  | withMessage c m => m +:+ ": " +:+ Error c
  end.

(** [errors.Wrap(err, message)]: [nil] stays [nil]. *)
Definition Wrap (err : option error) (message : string) : option error :=
  match err with
  | None => None
  | Some e => Some (withMessage e message)
  end.

End errors.
Export errors.

(** ** [time.Duration]: nanoseconds *)
Module time.
Definition Duration : Type := Z.
Definition Second : Duration := 1000000000.
Definition Minute : Duration := 60 * Second.
End time.

(** ** Data model

    The fields of the management API types that the helpers read or write.
    Go pointers are [option]s. *)

(** [management.NodeGroup] *)
Record NodeGroup : Type := mkNodeGroup {
  NodegroupName : option string;
  Version : option string;
  DesiredSize : option Z;
  MaxSize : option Z;
  MinSize : option Z;
  DiskSize : option Z;
  InstanceType : option string;
}.

(** [management.EKSClusterConfigSpec] *)
Record EKSClusterConfigSpec : Type := mkEKSClusterConfigSpec {
  KubernetesVersion : option string;
  NodeGroups : list NodeGroup;
  PublicAccess : option bool;
  PrivateAccess : option bool;
}.

(** [management.EKSClusterConfigStatus] *)
Record EKSClusterConfigStatus : Type := mkEKSClusterConfigStatus {
  UpstreamSpec : option EKSClusterConfigSpec;
}.

(** [management.Cluster] *)
Record Cluster : Type := mkCluster {
  ID : string;
  Name : string;
  EKSConfig : option EKSClusterConfigSpec;
  EKSStatus : option EKSClusterConfigStatus;
  Transitioning : string;
  TransitioningMessage : string;
}.

Module eks.

(** [eks.NodeGroupConfig] (shepherd) *)
Record NodeGroupConfig : Type := mkNodeGroupConfig {
  NodegroupName : option string;
  Version : option string;
  DesiredSize : option Z;
  MaxSize : option Z;
  MinSize : option Z;
  InstanceType : option string;
}.

(** [eks.ClusterConfig] (shepherd) *)
Record ClusterConfig : Type := mkClusterConfig {
  KubernetesVersion : option string;
  NodeGroupsConfig : option (list NodeGroupConfig);
  Region : string;
  SecurityGroups : list string;
  Subnets : list string;
  Tags : option (gmap string string);
}.

End eks.

(** ** Running a spec: state passing with aborts

    A failed [Expect], a poll that times out and a nil dereference all unwind
    the running spec; nothing after them runs. *)
Inductive Failure : Type :=
| AssertionFailed (message : string)
| ConvergenceTimeout
| NilDereference
| IndexOutOfRange
| PollerStalled.

Inductive Outcome (A : Type) : Type :=
| Pass (a : A)
| Abort (f : Failure).
Arguments Pass {A} a.
Arguments Abort {A} f.

Definition Spec (W A : Type) : Type := W -> Outcome A * W.

Definition ret {W A} (a : A) : Spec W A := fun w => (Pass a, w).

Definition fail {W A} (f : Failure) : Spec W A := fun w => (Abort f, w).

Definition bind {W A B} (m : Spec W A) (k : A -> Spec W B) : Spec W B :=
  fun w =>
    match m w with
    | (Pass a, w') => k a w'
    | (Abort f, w') => (Abort f, w')
    end.

Notation "'let*' x ':=' e 'in' k" := (bind e (fun x => k))
  (at level 10, x pattern, e at level 100, k at level 200).

(** A step that cannot touch the world. *)
Definition liftOutcome {W A} (o : Outcome A) : Spec W A := fun w => (o, w).

(** Running a computation that has no world to touch. *)
Definition runPure {A} (m : Spec unit A) : Outcome A := fst (m tt).

(** [*p] *)
Definition deref {W A} (p : option A) : Spec W A :=
  match p with
  | Some a => ret a
  | None => fail NilDereference
  end.

(** [Expect(err).To(BeNil())] *)
Definition ExpectNil {W} (err : option error) : Spec W unit :=
  match err with
  | None => ret tt
  | Some e => fail (AssertionFailed (Error e))
  end.

(** [Expect(actual).To(matcher)], the matcher already applied. *)
Definition Expect {W} (matched : bool) (description : string) : Spec W unit :=
  if matched then ret tt else fail (AssertionFailed description).

(** [for _, x := range xs { body }] *)
Fixpoint forRange {W A} (xs : list A) (body : A -> Spec W unit) : Spec W unit :=
  match xs with
  | [] => ret tt
  | x :: rest => let* _ := body x in forRange rest body
  end.

(** ** The world a spec runs in: the management API's state, and how many
    times a convergence probe was sampled so far. *)
Record World (Api : Type) : Type := mkWorld {
  api : Api;
  sampled : nat;
}.
Arguments mkWorld {Api} api sampled.
Arguments api {Api} w.
Arguments sampled {Api} w.

(** The management client ([rancher.Client] and the shepherd extensions the
    helpers call), over the API's state.  The generated [Update] and [ByID]
    always hand back a cluster value together with the error. *)
Record Client (Api : Type) : Type := mkClient {
  Cluster_Update : Cluster -> Cluster -> Api -> (Cluster * option error) * Api;
  Cluster_ByID : string -> Api -> (Cluster * option error) * Api;
  WaitClusterToBeUpgraded : string -> Api -> option error * Api;
  eks_CreateEKSHostedCluster :
    string -> string -> eks.ClusterConfig -> Api -> (option Cluster * option error) * Api;
}.
Arguments Cluster_Update {Api} c existing updates s.
Arguments Cluster_ByID {Api} c id s.
Arguments WaitClusterToBeUpgraded {Api} c id s.
Arguments eks_CreateEKSHostedCluster {Api} c displayName cloudCredentialID config s.

(** An API call made from a spec: it moves the API state and samples nothing. *)
Definition call {Api A} (op : Api -> A * Api) : Spec (World Api) A :=
  fun w => let (a, s') := op (api w) in (Pass a, mkWorld s' (sampled w)).

(** ** The convergence poller *)

(** A (timeout, pollInterval) pair. *)
Record ConvergenceWindow : Type := mkWindow {
  timeout : time.Duration;
  pollInterval : time.Duration;
}.

Inductive PollResult (A : Type) : Type :=
| Converged (v : A)
| TimeoutExceeded (last : A)
| ProbeAborted (f : Failure)
| Stalled.
Arguments Converged {A} v.
Arguments TimeoutExceeded {A} last.
Arguments ProbeAborted {A} f.
Arguments Stalled {A}.

Section Poller.
Context {Api L A : Type}.

(** A probe is the zero-argument closure handed to the poller: it reads and
    reassigns the variables it captured ([L]) and talks to the API ([Api]). *)
Definition Probe : Type := L -> Api -> Outcome (L * A) * Api.

(** Modelled from the spec: the polling loop behind [Eventually], which lives
    in the assertion library and not in this repository.  It invokes the
    probe at fixed intervals on a logical clock that starts at zero; it
    returns the first time the probe output satisfies the predicate; when the
    next sample would fall after the deadline it fails with the last observed
    value.  Every invocation of the probe is counted in [sampled].  The loop
    is given [fuel] iterations; [Stalled] is the loop that never reaches its
    deadline. *)
Fixpoint pollLoop (fuel : nat) (win : ConvergenceWindow) (probe : Probe)
    (satisfied : A -> bool) (elapsed : time.Duration) (l : L) (w : World Api)
    : (PollResult A * L) * World Api :=
  match fuel with
  | O => ((Stalled, l), w)
  | S fuel' =>
      match probe l (api w) with
      | (Abort f, s') =>
          ((ProbeAborted f, l), mkWorld s' (S (sampled w)))
      | (Pass (l', v), s') =>
          let w' := mkWorld s' (S (sampled w)) in
          if satisfied v then ((Converged v, l'), w')
          else if elapsed + pollInterval win <=? timeout win
               then pollLoop fuel' win probe satisfied
                      (elapsed + pollInterval win) l' w'
               else ((TimeoutExceeded v, l'), w')
      end
  end.

(** The samples that fit the window: one at time zero and one per whole
    interval up to the deadline. *)
Definition pollFuel (win : ConvergenceWindow) : nat :=
  S (Z.to_nat (timeout win / pollInterval win)).

(** Modelled from the spec: [Eventually(probe, timeout, pollInterval)], the
    poller of the assertion library, before its matcher's verdict is turned
    into a pass or an abort. *)
Definition Eventually (win : ConvergenceWindow) (probe : Probe)
    (satisfied : A -> bool) (l : L) (w : World Api)
    : (PollResult A * L) * World Api :=
  pollLoop (pollFuel win) win probe satisfied 0 l w.

(** Modelled from the spec: [Eventually(...).Should(matcher)]; the spec goes
    on with the variables the probe left behind when the matcher was
    satisfied, and is aborted otherwise. *)
Definition Should (win : ConvergenceWindow) (probe : Probe)
    (satisfied : A -> bool) (l : L) : Spec (World Api) L :=
  fun w =>
    match Eventually win probe satisfied l w with
    | ((Converged _, l'), w') => (Pass l', w')
    | ((TimeoutExceeded _, _), w') => (Abort ConvergenceTimeout, w')
    | ((ProbeAborted f, _), w') => (Abort f, w')
    | ((Stalled, _), w') => (Abort PollerStalled, w')
    end.

End Poller.

(** [⌈a / b⌉] for a positive [b]. *)
Definition ceilDiv (a b : Z) : Z := (a + b - 1) / b.

(** ** Matchers of the assertion library, as the helpers apply them *)
Module gomega.

(** [Equal(expected)] on strings *)
Definition Equal (expected actual : string) : bool := String.eqb actual expected.

(** [Equal(expected)] on [*string]: both nil, or both set to equal strings *)
Definition EqualPtr (expected actual : option string) : bool :=
  match actual, expected with
  | Some a, Some e => String.eqb a e
  | None, None => true
  | _, _ => false
  end.

(** [BeTrue()] *)
Definition BeTrue (actual : bool) : bool := actual.

(** [BeNumerically("==", expected)] *)
Definition BeNumericallyEq (expected actual : Z) : bool := actual =? expected.

(** [HaveOccurred()] *)
Definition HaveOccurred (err : option error) : bool :=
  match err with
  | Some _ => true
  | None => false
  end.

(** [MatchError(ContainSubstring(substr))]: a nil error does not match. *)
Definition MatchErrorContainSubstring (substr : string) (err : option error) : bool :=
  match err with
  | Some e => strings.Contains (Error e) substr
  | None => false
  end.

End gomega.

(** ** Field updates *)
Definition setKubernetesVersion (v : option string) (cfg : EKSClusterConfigSpec)
    : EKSClusterConfigSpec :=
  mkEKSClusterConfigSpec v (NodeGroups cfg) (PublicAccess cfg) (PrivateAccess cfg).

Definition setNodeGroups (ngs : list NodeGroup) (cfg : EKSClusterConfigSpec)
    : EKSClusterConfigSpec :=
  mkEKSClusterConfigSpec (KubernetesVersion cfg) ngs (PublicAccess cfg) (PrivateAccess cfg).

Definition setPublicAccess (b : option bool) (cfg : EKSClusterConfigSpec)
    : EKSClusterConfigSpec :=
  mkEKSClusterConfigSpec (KubernetesVersion cfg) (NodeGroups cfg) b (PrivateAccess cfg).

Definition setPrivateAccess (b : option bool) (cfg : EKSClusterConfigSpec)
    : EKSClusterConfigSpec :=
  mkEKSClusterConfigSpec (KubernetesVersion cfg) (NodeGroups cfg) (PublicAccess cfg) b.

Definition setEKSConfig (cfg : EKSClusterConfigSpec) (c : Cluster) : Cluster :=
  mkCluster (ID c) (Name c) (Some cfg) (EKSStatus c)
            (Transitioning c) (TransitioningMessage c).

Definition setDesiredSize (n : option Z) (ng : NodeGroup) : NodeGroup :=
  mkNodeGroup (NodegroupName ng) (Version ng) n (MaxSize ng) (MinSize ng)
              (DiskSize ng) (InstanceType ng).

Definition setMaxSize (n : option Z) (ng : NodeGroup) : NodeGroup :=
  mkNodeGroup (NodegroupName ng) (Version ng) (DesiredSize ng) n (MinSize ng)
              (DiskSize ng) (InstanceType ng).

Definition setConfigNodegroupName (n : option string) (ng : eks.NodeGroupConfig)
    : eks.NodeGroupConfig :=
  eks.mkNodeGroupConfig n (eks.Version ng) (eks.DesiredSize ng) (eks.MaxSize ng)
                        (eks.MinSize ng) (eks.InstanceType ng).

Definition setNodeGroupsConfig (ngs : option (list eks.NodeGroupConfig))
    (cfg : eks.ClusterConfig) : eks.ClusterConfig :=
  eks.mkClusterConfig (eks.KubernetesVersion cfg) ngs (eks.Region cfg)
                      (eks.SecurityGroups cfg) (eks.Subnets cfg) (eks.Tags cfg).

Definition setRegion (r : string) (cfg : eks.ClusterConfig) : eks.ClusterConfig :=
  eks.mkClusterConfig (eks.KubernetesVersion cfg) (eks.NodeGroupsConfig cfg) r
                      (eks.SecurityGroups cfg) (eks.Subnets cfg) (eks.Tags cfg).

Definition setTags (t : option (gmap string string)) (cfg : eks.ClusterConfig)
    : eks.ClusterConfig :=
  eks.mkClusterConfig (eks.KubernetesVersion cfg) (eks.NodeGroupsConfig cfg)
                      (eks.Region cfg) (eks.SecurityGroups cfg) (eks.Subnets cfg) t.

Definition setConfigKubernetesVersion (v : option string) (cfg : eks.ClusterConfig)
    : eks.ClusterConfig :=
  eks.mkClusterConfig v (eks.NodeGroupsConfig cfg) (eks.Region cfg)
                      (eks.SecurityGroups cfg) (eks.Subnets cfg) (eks.Tags cfg).

Definition setSecurityGroups (sg : list string) (cfg : eks.ClusterConfig)
    : eks.ClusterConfig :=
  eks.mkClusterConfig (eks.KubernetesVersion cfg) (eks.NodeGroupsConfig cfg)
                      (eks.Region cfg) sg (eks.Subnets cfg) (eks.Tags cfg).

(** ** [hosted/eks/helper]: the helpers that go through the management API *)
Module helper.
Section Management.
Context {Api : Type}.

(** [tools.SetTimeout], which scales a timeout by the suite's setting, the
    configuration read by [config.LoadConfig] and
    [helpers.GetCommonMetadataLabels] are not part of this package. *)
Variable SetTimeout : time.Duration -> time.Duration.
Variable LoadConfig : eks.ClusterConfig.
Variable GetCommonMetadataLabels : option (gmap string string).

(** [cluster.EKSStatus.UpstreamSpec], through both pointers *)
Definition upstreamSpec {W} (cluster : Cluster) : Spec W EKSClusterConfigSpec :=
  let* status := deref (EKSStatus cluster) in
  deref (UpstreamSpec status).

(** [cluster, err = client.Management.Cluster.ByID(cluster.ID)]
    followed by [Expect(err).To(BeNil())], inside a probe. *)
Definition refetch (client : Client Api) (cluster : Cluster) : Spec Api Cluster :=
  fun s =>
    let '((cluster', err), s') := Cluster_ByID client (ID cluster) s in
    match err with
    | None => (Pass cluster', s')
    | Some e => (Abort (AssertionFailed (Error e)), s')
    end.

(** The configuration [CreateEKSHostedCluster] builds before it calls the
    API: the loaded template with the region, the common tags and the
    version set, then edited in place by [updateFunc], which may fail an
    [Expect]. *)
Definition requestedConfig (kubernetesVersion region : string)
    (updateFunc : option (eks.ClusterConfig -> Outcome eks.ClusterConfig))
    : Outcome eks.ClusterConfig :=
  let eksClusterConfig := LoadConfig in
  let eksClusterConfig := setRegion region eksClusterConfig in
  let eksClusterConfig := setTags GetCommonMetadataLabels eksClusterConfig in
  let eksClusterConfig :=
    setConfigKubernetesVersion (Some kubernetesVersion) eksClusterConfig in
  match updateFunc with
  | Some f => f eksClusterConfig
  | None => Pass eksClusterConfig
  end.

(** [CreateEKSHostedCluster]; the trailing arguments of the shepherd call
    are the constants [false, false, false, false, nil]. *)
Definition CreateEKSHostedCluster (client : Client Api)
    (displayName cloudCredentialID kubernetesVersion region : string)
    (updateFunc : option (eks.ClusterConfig -> Outcome eks.ClusterConfig))
    : Spec (World Api) (option Cluster * option error) :=
  let* eksClusterConfig :=
    liftOutcome (requestedConfig kubernetesVersion region updateFunc) in
  call (eks_CreateEKSHostedCluster client displayName cloudCredentialID
          eksClusterConfig).

(** The probe of [UpgradeClusterKubernetesVersion]: the upstream version. *)
Definition upstreamVersionProbe (client : Client Api) : @Probe Api Cluster string :=
  fun cluster =>
    let* cluster := refetch client cluster in
    let* upstream := upstreamSpec cluster in
    let* version := deref (KubernetesVersion upstream) in
    ret (cluster, version).

(** [for _, ng := range ngs { Expect( *ng.Version ).To(Equal(version)) }] *)
Definition expectNodeGroupVersions {W} (ngs : list NodeGroup) (version : string)
    : Spec W unit :=
  forRange ngs (fun ng =>
    let* v := deref (Version ng) in
    Expect (gomega.Equal version v) "nodegroup version").

(** [UpgradeClusterKubernetesVersion] *)
Definition UpgradeClusterKubernetesVersion (cluster : Cluster)
    (upgradeToVersion : string) (client : Client Api) (checkClusterConfig : bool)
    : Spec (World Api) (Cluster * option error) :=
  let* config := deref (EKSConfig cluster) in
  let* currentVersion := deref (KubernetesVersion config) in
  let upgradedCluster :=
    setEKSConfig (setKubernetesVersion (Some upgradeToVersion) config) cluster in
  let* (cluster, err) := call (Cluster_Update client upgradedCluster upgradedCluster) in
  let* _ := ExpectNil err in
  if checkClusterConfig then
    let* config := deref (EKSConfig cluster) in
    let* version := deref (KubernetesVersion config) in
    let* _ := Expect (gomega.Equal upgradeToVersion version) "desired version" in
    let* _ := expectNodeGroupVersions (NodeGroups config) currentVersion in
    let* cluster :=
      Should (mkWindow (SetTimeout (15 * time.Minute)) (30 * time.Second))
             (upstreamVersionProbe client) (gomega.Equal upgradeToVersion)
             cluster in
    let* upstream := upstreamSpec cluster in
    let* _ := expectNodeGroupVersions (NodeGroups upstream) currentVersion in
    ret (cluster, None)
  else ret (cluster, None).

(** [for i, ng := range ngs { Expect(ng.NodegroupName).To(Equal(expected[i].NodegroupName)) }] *)
Fixpoint expectNodegroupNames {W} (i : nat) (ngs expected : list NodeGroup)
    : Spec W unit :=
  match ngs with
  | [] => ret tt
  | ng :: rest =>
      match expected !! i with
      | None => fail IndexOutOfRange
      | Some e =>
          let* _ := Expect (gomega.EqualPtr (NodegroupName e) (NodegroupName ng))
                           "nodegroup name" in
          expectNodegroupNames (S i) rest expected
      end
  end.

(** [err = clusters.WaitClusterToBeUpgraded(client, cluster.ID)] followed by
    [Expect(err).To(BeNil())], when [wait] is set. *)
Definition waitUpgraded (client : Client Api) (wait : bool) (cluster : Cluster)
    : Spec (World Api) unit :=
  if wait then
    let* err := call (WaitClusterToBeUpgraded client (ID cluster)) in
    ExpectNil err
  else ret tt.

(** The probe of [DeleteNodeGroup]: how many node groups the upstream has. *)
Definition upstreamNodeGroupCountProbe (client : Client Api) : @Probe Api Cluster Z :=
  fun cluster =>
    let* cluster := refetch client cluster in
    let* upstream := upstreamSpec cluster in
    ret (cluster, Z.of_nat (length (NodeGroups upstream))).

(** A Go slice has a capacity next to its length, and the list that models
    [config.NodeGroups] has none: [behindLen config] stands for the elements
    of its backing array behind its length, [config.NodeGroups[len:cap]].
    They are whatever the decoder that built the cluster, or an earlier
    reslice, left there. *)
Variable behindLen : EKSClusterConfigSpec -> list NodeGroup.

(** [s[:1]]: the bound is checked against the capacity, not the length, so
    on an empty slice with room behind it the first element of the backing
    array comes into view; only a slice of capacity zero panics. *)
Definition sliceTo1 {W A} (s behind : list A) : Spec W (list A) :=
  match s, behind with
  | x :: _, _ => ret [x]
  | [], y :: _ => ret [y]
  | [], [] => fail IndexOutOfRange
  end.

(** The desired configuration [DeleteNodeGroup] submits. *)
Definition DeleteNodeGroup_desired {W} (cluster : Cluster)
    : Spec W (Cluster * list NodeGroup) :=
  let* config := deref (EKSConfig cluster) in
  let* updateNodeGroupsList := sliceTo1 (NodeGroups config) (behindLen config) in
  ret (setEKSConfig (setNodeGroups updateNodeGroupsList config) cluster,
       updateNodeGroupsList).

(** [DeleteNodeGroup] *)
Definition DeleteNodeGroup (cluster : Cluster) (client : Client Api)
    (wait checkClusterConfig : bool) : Spec (World Api) (Cluster * option error) :=
  let* config := deref (EKSConfig cluster) in
  let currentNodeGroupNumber := Z.of_nat (length (NodeGroups config)) in
  let* (upgradedCluster, updateNodeGroupsList) := DeleteNodeGroup_desired cluster in
  let* (cluster, err) := call (Cluster_Update client upgradedCluster upgradedCluster) in
  let* _ := ExpectNil err in
  let* _ :=
    if checkClusterConfig then
      let* config := deref (EKSConfig cluster) in
      let* _ := Expect (gomega.BeNumericallyEq (currentNodeGroupNumber - 1)
                          (Z.of_nat (length (NodeGroups config))))
                       "desired nodegroup count" in
      expectNodegroupNames 0 (NodeGroups config) updateNodeGroupsList
    else ret tt in
  let* _ := waitUpgraded client wait cluster in
  if checkClusterConfig then
    let* cluster :=
      Should (mkWindow (SetTimeout (15 * time.Minute)) (10 * time.Second))
             (upstreamNodeGroupCountProbe client)
             (gomega.BeNumericallyEq (currentNodeGroupNumber - 1)) cluster in
    let* upstream := upstreamSpec cluster in
    let* _ := expectNodegroupNames 0 (NodeGroups upstream) updateNodeGroupsList in
    ret (cluster, None)
  else ret (cluster, None).

(** The loop of [ScaleNodeGroup]:
    [for i := range ngs { ngs[i].DesiredSize = &nodeCount; ngs[i].MaxSize = &nodeCount }] *)
Definition scaleAt (nodeCount : Z) (ngs : list NodeGroup) (i : nat) : list NodeGroup :=
  alter (setMaxSize (Some nodeCount))
        i (alter (setDesiredSize (Some nodeCount)) i ngs).

(** What the two assignments of the loop body make of one node group. *)
Definition scaled (nodeCount : Z) (ng : NodeGroup) : NodeGroup :=
  setMaxSize (Some nodeCount) (setDesiredSize (Some nodeCount) ng).

Definition scaleNodeGroups (nodeCount : Z) (ngs : list NodeGroup) : list NodeGroup :=
  foldl (scaleAt nodeCount) ngs (seq 0 (length ngs)).

(** The desired configuration [ScaleNodeGroup] submits. *)
Definition ScaleNodeGroup_desired {W} (cluster : Cluster) (nodeCount : Z)
    : Spec W Cluster :=
  let* config := deref (EKSConfig cluster) in
  ret (setEKSConfig (setNodeGroups (scaleNodeGroups nodeCount (NodeGroups config))
                                   config) cluster).

(** The body of the probe of [ScaleNodeGroup]: stop at the first node group
    whose desired size differs. *)
Fixpoint allDesiredSize {W} (nodeCount : Z) (ngs : list NodeGroup) : Spec W bool :=
  match ngs with
  | [] => ret true
  | ng :: rest =>
      let* size := deref (DesiredSize ng) in
      if negb (size =? nodeCount) then ret false
      else allDesiredSize nodeCount rest
  end.

Definition upstreamDesiredSizeProbe (client : Client Api) (nodeCount : Z)
    : @Probe Api Cluster bool :=
  fun cluster =>
    let* cluster := refetch client cluster in
    let* upstream := upstreamSpec cluster in
    let* ok := allDesiredSize nodeCount (NodeGroups upstream) in
    ret (cluster, ok).

(** [for i := range ngs { Expect( *ngs[i].DesiredSize ).To(BeNumerically("==", nodeCount)) }] *)
Definition expectDesiredSizes {W} (ngs : list NodeGroup) (nodeCount : Z) : Spec W unit :=
  forRange ngs (fun ng =>
    let* size := deref (DesiredSize ng) in
    Expect (gomega.BeNumericallyEq nodeCount size) "desired size").

(** [ScaleNodeGroup] *)
Definition ScaleNodeGroup (cluster : Cluster) (client : Client Api) (nodeCount : Z)
    (wait checkClusterConfig : bool) : Spec (World Api) (Cluster * option error) :=
  let* upgradedCluster := ScaleNodeGroup_desired cluster nodeCount in
  let* (cluster, err) := call (Cluster_Update client upgradedCluster upgradedCluster) in
  let* _ := ExpectNil err in
  let* _ :=
    if checkClusterConfig then
      let* config := deref (EKSConfig cluster) in
      expectDesiredSizes (NodeGroups config) nodeCount
    else ret tt in
  let* _ := waitUpgraded client wait cluster in
  if checkClusterConfig then
    let* cluster :=
      Should (mkWindow (SetTimeout (15 * time.Minute)) (10 * time.Second))
             (upstreamDesiredSizeProbe client nodeCount) gomega.BeTrue cluster in
    ret (cluster, None)
  else ret (cluster, None).

(** [*p = v]: writing through a nil pointer aborts. *)
Definition assignThrough {W A} (p : option A) (v : A) : Spec W (option A) :=
  match p with
  | Some _ => ret (Some v)
  | None => fail NilDereference
  end.

(** The desired configuration [UpdateAccess] submits. *)
Definition UpdateAccess_desired {W} (cluster : Cluster) (publicAccess privateAccess : bool)
    : Spec W Cluster :=
  let* config := deref (EKSConfig cluster) in
  let* pub := assignThrough (PublicAccess config) publicAccess in
  let config := setPublicAccess pub config in
  let* priv := assignThrough (PrivateAccess config) privateAccess in
  let config := setPrivateAccess priv config in
  ret (setEKSConfig config cluster).

(** The probe of [UpdateAccess].  It captures [upgradedCluster], and reads and
    reassigns [cluster] and [err]. *)
Definition upstreamAccessProbe (client : Client Api) (upgradedCluster : Cluster)
    (publicAccess privateAccess : bool) : @Probe Api (Cluster * option error) bool :=
  fun '(cluster, err) =>
    let* config := deref (EKSConfig upgradedCluster) in
    let* pub := deref (PublicAccess config) in
    let* _ := Expect (Bool.eqb pub publicAccess) "desired public access" in
    let* priv := deref (PrivateAccess config) in
    let* _ := Expect (Bool.eqb priv privateAccess) "desired private access" in
    let* cluster := refetch client cluster in
    let* upstream := upstreamSpec cluster in
    let* upPub := deref (PublicAccess upstream) in
    if Bool.eqb upPub publicAccess then
      let* upPriv := deref (PrivateAccess upstream) in
      ret ((cluster, None), Bool.eqb upPriv privateAccess)
    else ret ((cluster, None), false).

(** [UpdateAccess] *)
Definition UpdateAccess (cluster : Cluster) (client : Client Api)
    (publicAccess privateAccess checkClusterConfig : bool)
    : Spec (World Api) (Cluster * option error) :=
  let* upgradedCluster := UpdateAccess_desired cluster publicAccess privateAccess in
  let* (cluster, err) := call (Cluster_Update client upgradedCluster upgradedCluster) in
  if checkClusterConfig then
    Should (mkWindow (SetTimeout (10 * time.Minute)) (15 * time.Second))
           (upstreamAccessProbe client upgradedCluster publicAccess privateAccess)
           gomega.BeTrue (cluster, err)
  else ret (cluster, err).

(** [namegen.AppendRandomString] draws its suffix at random;
    [AppendRandomString i s] is what it hands back at the [i]-th iteration. *)
Variable AppendRandomString : nat -> string -> string.

(** The loop of [AddNodeGroupToConfig], counting [i] from 1 to [ngCount]. *)
Fixpoint addNodeGroups (template : eks.NodeGroupConfig) (name : string)
    (i remaining : nat) (acc : list eks.NodeGroupConfig)
    : list eks.NodeGroupConfig :=
  match remaining with
  | O => acc
  | S remaining' =>
      let newNodeGroup :=
        setConfigNodegroupName (Some (AppendRandomString i name)) template in
      addNodeGroups template name (S i) remaining' (newNodeGroup :: acc)
  end.

(** [AddNodeGroupToConfig] *)
Definition AddNodeGroupToConfig {W} (eksClusterConfig : eks.ClusterConfig)
    (ngCount : Z) : Spec W (eks.ClusterConfig * option error) :=
  let* ngTemplate := deref (eks.NodeGroupsConfig eksClusterConfig) in
  let* updateNodeGroupsList :=
    if ngCount <? 1 then ret []
    else
      match ngTemplate with
      | [] => fail IndexOutOfRange
      | first :: _ =>
          let* name := deref (eks.NodegroupName first) in
          ret (addNodeGroups first name 1 (Z.to_nat ngCount) [])
      end in
  ret (setNodeGroupsConfig (Some updateNodeGroupsList) eksClusterConfig, None).

(** [ngs[i].Version = &version] *)
Definition setVersion (v : option string) (ng : NodeGroup) : NodeGroup :=
  mkNodeGroup (NodegroupName ng) v (DesiredSize ng) (MaxSize ng) (MinSize ng)
              (DiskSize ng) (InstanceType ng).

(** The loop of [UpgradeNodeKubernetesVersion]:
    [for i := range ngs { ngs[i].Version = &upgradeToVersion }] *)
Definition upgradeNodeGroups (upgradeToVersion : string) (ngs : list NodeGroup)
    : list NodeGroup :=
  foldl (fun ngs i => alter (setVersion (Some upgradeToVersion)) i ngs)
        ngs (seq 0 (length ngs)).

(** The desired configuration [UpgradeNodeKubernetesVersion] submits. *)
Definition UpgradeNodeKubernetesVersion_desired {W} (cluster : Cluster)
    (upgradeToVersion : string) : Spec W Cluster :=
  let* config := deref (EKSConfig cluster) in
  ret (setEKSConfig
         (setNodeGroups (upgradeNodeGroups upgradeToVersion (NodeGroups config)) config)
         cluster).

(** The loop the node-group upgrade probes share: stop at the first node
    group whose version is nil or differs. *)
Fixpoint allVersions (upgradeToVersion : string) (ngs : list NodeGroup) : bool :=
  match ngs with
  | [] => true
  | ng :: rest =>
      match Version ng with
      | None => false
      | Some v =>
          if negb (String.eqb v upgradeToVersion) then false
          else allVersions upgradeToVersion rest
      end
  end.

Definition upstreamNodeVersionsProbe (client : Client Api) (upgradeToVersion : string)
    : @Probe Api Cluster bool :=
  fun cluster =>
    let* cluster := refetch client cluster in
    let* upstream := upstreamSpec cluster in
    ret (cluster, allVersions upgradeToVersion (NodeGroups upstream)).

(** [UpgradeNodeKubernetesVersion] *)
Definition UpgradeNodeKubernetesVersion (cluster : Cluster) (upgradeToVersion : string)
    (client : Client Api) (wait checkClusterConfig : bool)
    : Spec (World Api) (Cluster * option error) :=
  let* upgradedCluster := UpgradeNodeKubernetesVersion_desired cluster upgradeToVersion in
  let* (cluster, err) := call (Cluster_Update client upgradedCluster upgradedCluster) in
  let* _ := ExpectNil err in
  let* config := deref (EKSConfig cluster) in
  let* _ := expectNodeGroupVersions (NodeGroups config) upgradeToVersion in
  let* _ := waitUpgraded client wait cluster in
  if checkClusterConfig then
    let* cluster :=
      Should (mkWindow (SetTimeout (15 * time.Minute)) (30 * time.Second))
             (upstreamNodeVersionsProbe client upgradeToVersion) gomega.BeTrue
             cluster in
    ret (cluster, None)
  else ret (cluster, None).

(** The node group template [AddNodeGroup] reads with [config.LoadConfig]
    into a [management.EKSClusterConfigSpec]. *)
Variable LoadSpecConfig : EKSClusterConfigSpec.

(** The loop of [AddNodeGroup], counting [i] from 1 to [increaseBy]: each new
    node group takes its sizes, disk size and instance type from the
    template, draws its name, and is put in front of the list. *)
Fixpoint prependNodeGroups (ngTemplate : NodeGroup) (i remaining : nat)
    (updateNodeGroupsList : list NodeGroup) : list NodeGroup :=
  match remaining with
  | O => updateNodeGroupsList
  | S remaining' =>
      let newNodeGroup :=
        mkNodeGroup (Some (AppendRandomString i "ng")) None
                    (DesiredSize ngTemplate) (MaxSize ngTemplate)
                    (MinSize ngTemplate) (DiskSize ngTemplate)
                    (InstanceType ngTemplate) in
      prependNodeGroups ngTemplate (S i) remaining'
                        (newNodeGroup :: updateNodeGroupsList)
  end.

(** The desired configuration [AddNodeGroup] submits, with the list it is
    later compared against. *)
Definition AddNodeGroup_desired {W} (cluster : Cluster) (increaseBy : Z)
    : Spec W (Cluster * list NodeGroup) :=
  let* config := deref (EKSConfig cluster) in
  let* ngTemplate :=
    match NodeGroups LoadSpecConfig with
    | [] => fail IndexOutOfRange
    | first :: _ => ret first
    end in
  let updateNodeGroupsList :=
    prependNodeGroups ngTemplate 1 (Z.to_nat increaseBy) (NodeGroups config) in
  ret (setEKSConfig (setNodeGroups updateNodeGroupsList config) cluster,
       updateNodeGroupsList).

(** [AddNodeGroup] *)
Definition AddNodeGroup (cluster : Cluster) (increaseBy : Z) (client : Client Api)
    (wait checkClusterConfig : bool) : Spec (World Api) (Cluster * option error) :=
  let* config := deref (EKSConfig cluster) in
  let currentNodeGroupNumber := Z.of_nat (length (NodeGroups config)) in
  let* (upgradedCluster, updateNodeGroupsList) := AddNodeGroup_desired cluster increaseBy in
  let* (cluster, err) := call (Cluster_Update client upgradedCluster upgradedCluster) in
  let* _ := ExpectNil err in
  let* _ :=
    if checkClusterConfig then
      let* config := deref (EKSConfig cluster) in
      let* _ := Expect (gomega.BeNumericallyEq (currentNodeGroupNumber + increaseBy)
                          (Z.of_nat (length (NodeGroups config))))
                       "desired nodegroup count" in
      expectNodegroupNames 0 (NodeGroups config) updateNodeGroupsList
    else ret tt in
  let* _ := waitUpgraded client wait cluster in
  if checkClusterConfig then
    let* cluster :=
      Should (mkWindow (SetTimeout (15 * time.Minute)) (10 * time.Second))
             (upstreamNodeGroupCountProbe client)
             (gomega.BeNumericallyEq (currentNodeGroupNumber + increaseBy)) cluster in
    let* upstream := upstreamSpec cluster in
    let* _ := expectNodegroupNames 0 (NodeGroups upstream) updateNodeGroupsList in
    ret (cluster, None)
  else ret (cluster, None).

(** [UpdateCluster]: [updateFunc] edits the cluster in place and may abort. *)
Definition UpdateCluster (cluster : Cluster) (client : Client Api)
    (updateFunc : Cluster -> Outcome Cluster)
    : Spec (World Api) (Cluster * option error) :=
  let* upgradedCluster := liftOutcome (updateFunc cluster) in
  call (Cluster_Update client upgradedCluster upgradedCluster).

End Management.
End helper.

(** ** [hosted/eks/helper]: the helpers that drive the provider CLI *)

(** The process the helpers run in: its environment, the paths it removed,
    and the state of whatever the subprocesses talk to. *)
Record Host (P : Type) : Type := mkHost {
  env : gmap string string;
  removed : list string;
  proc : P;
}.
Arguments mkHost {P} env removed proc.
Arguments env {P} h.
Arguments removed {P} h.
Arguments proc {P} h.

Module os.
Section Os.
Context {P : Type}.

(** [os.Getenv(key)]: an unset variable reads as the empty string. *)
Definition Getenv (key : string) (h : Host P) : string :=
  default EmptyString (env h !! key).

(** [os.Setenv(key, value)] *)
Definition Setenv (key value : string) (h : Host P) : Host P :=
  mkHost (<[key := value]> (env h)) (removed h) (proc h).

(** [os.Remove(name)] *)
Definition Remove (name : string) (h : Host P) : Host P :=
  mkHost (env h) (name :: removed h) (proc h).

End Os.
End os.

(** [defer f()]: [f] runs when the body returns and when it unwinds. *)
Definition withDefer {W A} (deferred : W -> W) (body : Spec W A) : Spec W A :=
  fun w => let (r, w') := body w in (r, deferred w').

Module cli.
Section CLI.
Context {P : Type}.

(** [proc.RunW(cmd, args...)]: the subprocess inherits the environment,
    moves the provider's state and hands back its captured output together
    with a non-nil error when it exits non-zero. *)
Variable RunW : string -> list string -> gmap string string -> P -> (string * option error) * P.

(** [helpers.SetTempKubeConfig], [helpers.DownstreamKubeconfig] and
    [k8slabels.SelectorFromSet(tags).String()] are not part of this package. *)
Variable SetTempKubeConfig : string -> Spec (Host P) unit.
Variable DownstreamKubeconfig : string -> string.
Variable SelectorFromSet : gmap string string -> string.

Definition run (cmd : string) (args : list string) : Spec (Host P) (string * option error) :=
  fun h =>
    let (r, p') := RunW cmd args (env h) (proc h) in
    (Pass r, mkHost (env h) (removed h) p').

(** [if len(extraArgs) != 0 { args = append(args, extraArgs...) }] *)
Definition appendExtra (args extraArgs : list string) : list string :=
  if negb (length extraArgs =? 0)%nat then args ++ extraArgs else args.

(** [if err != nil { return errors.Wrap(err, message+out) }; return nil] *)
Definition wrapFailure (message : string) (r : string * option error) : option error :=
  match snd r with
  | Some _ => Wrap (snd r) (message +:+ fst r)
  | None => None
  end.

Definition createClusterArgs (region clusterName k8sVersion nodes : string)
    (tags : gmap string string) (extraArgs : list string) : list string :=
  let formattedTags := SelectorFromSet tags in
  appendExtra
    ["create"; "cluster"; "--region=" +:+ region; "--name=" +:+ clusterName;
     "--version=" +:+ k8sVersion; "--nodegroup-name"; "ranchernodes";
     "--nodes"; nodes; "--tags"; formattedTags]
    extraArgs.

(** [CreateEKSClusterOnAWS] *)
Definition CreateEKSClusterOnAWS (region clusterName k8sVersion nodes : string)
    (tags : gmap string string) (extraArgs : list string)
    : Spec (Host P) (option error) :=
  fun h =>
    let currentKubeconfig := os.Getenv "KUBECONFIG" h in
    withDefer (os.Setenv "KUBECONFIG" currentKubeconfig)
      (let* _ := SetTempKubeConfig clusterName in
       let args := createClusterArgs region clusterName k8sVersion nodes tags extraArgs in
       let* r := run "eksctl" args in
       ret (wrapFailure "Failed to create cluster: " r))
      h.

Definition upgradeClusterArgs (region clusterName upgradeToVersion : string)
    : list string :=
  ["upgrade"; "cluster"; "--region=" +:+ region; "--name=" +:+ clusterName;
   "--version=" +:+ upgradeToVersion; "--approve"].

(** [UpgradeEKSClusterOnAWS] *)
Definition UpgradeEKSClusterOnAWS (region clusterName upgradeToVersion : string)
    : Spec (Host P) (option error) :=
  let* r := run "eksctl" (upgradeClusterArgs region clusterName upgradeToVersion) in
  ret (wrapFailure "Failed to upgrade cluster: " r).

Definition addNodeGroupArgs (nodeName clusterName region : string)
    (extraArgs : list string) : list string :=
  appendExtra
    ["create"; "nodegroup"; "--region=" +:+ region; "--cluster"; clusterName;
     "--name"; nodeName]
    extraArgs.

(** [AddNodeGroupOnAWS] *)
Definition AddNodeGroupOnAWS (nodeName clusterName region : string)
    (extraArgs : list string) : Spec (Host P) (option error) :=
  let* r := run "eksctl" (addNodeGroupArgs nodeName clusterName region extraArgs) in
  ret (wrapFailure "Failed to add nodegroup: " r).

Definition upgradeNodegroupArgs (region clusterName ngName upgradeToVersion : string)
    : list string :=
  ["upgrade"; "nodegroup"; "--region=" +:+ region; "--name=" +:+ ngName;
   "--cluster=" +:+ clusterName; "--kubernetes-version=" +:+ upgradeToVersion].

(** [UpgradeEKSNodegroupOnAWS] *)
Definition UpgradeEKSNodegroupOnAWS (region clusterName ngName upgradeToVersion : string)
    : Spec (Host P) (option error) :=
  let* r := run "eksctl"
                (upgradeNodegroupArgs region clusterName ngName upgradeToVersion) in
  ret (wrapFailure "Failed to upgrade nodegroup: " r).

(** The command line [GetFromEKS] hands to [bash -c]. *)
Definition getFromEKSCommand (region clusterName cmd query : string)
    (extraArgs : list string) : string :=
  let clusterArgs :=
    ["eksctl"; "get"; "cluster"; "--region=" +:+ region;
     "--name=" +:+ clusterName; "-ojson"] in
  let ngArgs :=
    ["eksctl"; "get"; "nodegroup"; "--region=" +:+ region;
     "--cluster=" +:+ clusterName; "-ojson"] in
  let queryArgs := ["|"; "jq"; "-r"; query] in
  if String.eqb cmd "cluster"
  then strings.Join (appendExtra clusterArgs extraArgs ++ queryArgs) " "
  else strings.Join (appendExtra ngArgs extraArgs ++ queryArgs) " ".

(** [GetFromEKS] *)
Definition GetFromEKS (region clusterName cmd query : string)
    (extraArgs : list string) : Spec (Host P) (string * option error) :=
  let cmd := getFromEKSCommand region clusterName cmd query extraArgs in
  let* (out, err) := run "bash" ["-c"; cmd] in
  ret (strings.TrimSpace out, err).

Definition modifyNodegroupArgs (region clusterName ngName operation : string)
    (extraArgs : list string) : list string :=
  let args :=
    [operation; "nodegroup"; "--region=" +:+ region; "--name=" +:+ ngName;
     "--cluster=" +:+ clusterName] in
  let args :=
    if String.eqb operation "delete" then args ++ ["--disable-eviction"] else args in
  args ++ extraArgs.

(** [ModifyEKSNodegroupOnAWS] *)
Definition ModifyEKSNodegroupOnAWS (region clusterName ngName operation : string)
    (extraArgs : list string) : Spec (Host P) (option error) :=
  let* r := run "eksctl"
                (modifyNodegroupArgs region clusterName ngName operation extraArgs) in
  ret (wrapFailure "Failed to modify nodegroup: " r).

(** The loop of [DeleteEKSClusterOnAWS] over the node group names: it
    returns at the first deletion that fails. *)
Fixpoint deleteNodegroups (region clusterName : string) (ngNames : list string)
    : Spec (Host P) (option error) :=
  match ngNames with
  | [] => ret None
  | ngName :: rest =>
      let* err := ModifyEKSNodegroupOnAWS region clusterName ngName "delete" ["--wait"] in
      match err with
      | Some _ => ret (Wrap err "Failed to delete nodegroup")
      | None => deleteNodegroups region clusterName rest
      end
  end.

Definition deleteClusterArgs (region clusterName : string) : list string :=
  ["delete"; "cluster"; "--region=" +:+ region; "--name=" +:+ clusterName].

(** [DeleteEKSClusterOnAWS] *)
Definition DeleteEKSClusterOnAWS (region clusterName : string)
    : Spec (Host P) (option error) :=
  fun h =>
    let currentKubeconfig := os.Getenv "KUBECONFIG" h in
    let downstreamKubeconfig := os.Getenv (DownstreamKubeconfig clusterName) h in
    withDefer
      (fun h' => os.Remove downstreamKubeconfig
                   (os.Setenv "KUBECONFIG" currentKubeconfig h'))
      (fun h0 =>
         (let* (ngNames, err) :=
            GetFromEKS region clusterName "nodegroup" ".[].Name" [] in
          match err with
          | Some _ => ret (Wrap err "Failed to list nodegroup for deletion")
          | None =>
              let* err :=
                if negb (String.eqb ngNames "")
                then deleteNodegroups region clusterName (strings.SplitLines ngNames)
                else ret None in
              match err with
              | Some _ => ret err
              | None =>
                  let* r := run "eksctl" (deleteClusterArgs region clusterName) in
                  ret (wrapFailure "Failed to delete cluster: " r)
              end
          end)
           (os.Setenv "KUBECONFIG" downstreamKubeconfig h0))
      h.

(** What a subprocess was run with: the command, its arguments and the
    KUBECONFIG it inherited. *)
Definition Invocation : Type := (string * list string * string)%type.

(** The same CLI, keeping a record of every invocation next to the
    provider's state. *)
Definition traced (cmd : string) (args : list string)
    (environment : gmap string string) (st : P * list Invocation)
    : (string * option error) * (P * list Invocation) :=
  let (r, p') := RunW cmd args environment (fst st) in
  (r, (p', snd st ++ [(cmd, args, default EmptyString (environment !! "KUBECONFIG"))])).

(** The invocations [DeleteEKSClusterOnAWS] makes, as they are recorded. *)
Definition listingInvocation (region clusterName kubeconfig : string) : Invocation :=
  ("bash",
   ["-c"; getFromEKSCommand region clusterName "nodegroup" ".[].Name" []],
   kubeconfig).

Definition deletionInvocation (region clusterName kubeconfig ngName : string)
    : Invocation :=
  ("eksctl",
   ["delete"; "nodegroup"; "--region=" +:+ region; "--name=" +:+ ngName;
    "--cluster=" +:+ clusterName; "--disable-eviction"; "--wait"],
   kubeconfig).

Definition clusterDeletionInvocation (region clusterName kubeconfig : string)
    : Invocation :=
  ("eksctl", deleteClusterArgs region clusterName, kubeconfig).

(** A computation that leaves the environment and the removed paths alone. *)
Definition quiet {A} (m : Spec (Host P) A) : Prop :=
  forall h, env (snd (m h)) = env h /\ removed (snd (m h)) = removed h.

End CLI.
End cli.

(** ** [hosted/helpers]: version ordering *)
Module helpers.

Definition digit (c : ascii) : option Z :=
  let n := nat_of_ascii c in
  if ((48 <=? n)%nat && (n <=? 57)%nat)%bool then Some (Z.of_nat (n - 48)) else None.

(** A decimal number; anything else counts as zero. *)
Fixpoint number (acc : Z) (s : string) : Z :=
  match s with
  | EmptyString => acc
  | String c r =>
      match digit c with
      | Some d => number (10 * acc + d) r
      | None => 0
      end
  end.

(** The dot-separated components of a version. *)
Fixpoint components (s : string) : list string :=
  match s with
  | EmptyString => [EmptyString]
  | String c r =>
      if Ascii.eqb c "."%char then EmptyString :: components r
      else match components r with
           | l :: ls => String c l :: ls
           | [] => [String c EmptyString]
           end
  end.

(** Missing trailing components count as zero. *)
Fixpoint compareNumbers (a b : list Z) : Z :=
  match a, b with
  | [], _ => if existsb (fun y => 0 <? y) b then -1 else 0
  | _ :: _, [] => if existsb (fun x => 0 <? x) a then 1 else 0
  | x :: a', y :: b' =>
      if x <? y then -1 else if y <? x then 1 else compareNumbers a' b'
  end.

(** Modelled from the spec: [helpers.VersionCompare], which lives in
    [hosted/helpers] and is not among the sources; the numeric ordering of
    versions, component by component: 1 when [v] is the greater version,
    0 when they are equal, -1 when [v] is the lesser. *)
Definition VersionCompare (v w : string) : Z :=
  compareNumbers (map (number 0) (components v)) (map (number 0) (components w)).

(** Modelled from the spec: an upgrade is satisfied, in numeric ordering,
    when the observed version is at least the desired one. *)
Definition upgradeSatisfied (desired observed : string) : bool :=
  0 <=? VersionCompare observed desired.

End helpers.

(** ** [hosted/eks/p1]: the checks that drive the helpers *)
Module p1.
Section P1.
Context {Api : Type}.
Variable SetTimeout : time.Duration -> time.Duration.
Variable LoadConfig : eks.ClusterConfig.
Variable GetCommonMetadataLabels : option (gmap string string).
Variable AppendRandomString : nat -> string -> string.

(** [invalidAccessValuesCheck] *)
Definition invalidAccessValuesCheck (cluster : Cluster) (client : Client Api)
    : Spec (World Api) unit :=
  let* (_, err) := helper.UpdateAccess SetTimeout cluster client false false false in
  Expect (gomega.MatchErrorContainSubstring
            "public access, private access, or both must be enabled" err)
         "MatchError".

(** The control-plane poll of [syncK8sVersionUpgradeCheck], which follows the
    upgrade made through the provider CLI. *)
Definition syncK8sVersionUpgradeCheck_poll (cluster : Cluster) (client : Client Api)
    (upgradeToVersion : string) : Spec (World Api) Cluster :=
  Should (mkWindow (SetTimeout (5 * time.Minute)) (10 * time.Second))
         (helper.upstreamVersionProbe client) (gomega.Equal upgradeToVersion)
         cluster.

(** "Fail to create cluster with only Security groups" *)
Definition onlySecurityGroupsUpdateFunc (clusterConfig : eks.ClusterConfig)
    : Outcome eks.ClusterConfig :=
  let sg := [AppendRandomString 0 "sg-"; AppendRandomString 1 "sg-"] in
  Pass (setSecurityGroups sg clusterConfig).

Definition failToCreateWithOnlySecurityGroups (client : Client Api)
    (clusterName cloudCredID k8sVersion region : string)
    : Spec (World Api) (option Cluster) :=
  let* (cluster, err) :=
    helper.CreateEKSHostedCluster LoadConfig GetCommonMetadataLabels client
      clusterName cloudCredID k8sVersion region
      (Some onlySecurityGroupsUpdateFunc) in
  let* _ := Expect (gomega.HaveOccurred err) "HaveOccurred" in
  let* _ := Expect (gomega.MatchErrorContainSubstring
                      "subnets must be provided if security groups are provided" err)
                   "MatchError" in
  ret cluster.

(** "should fail to provision a cluster with duplicate nodegroup names":
    every node group is renamed and prepended to the new list. *)
Definition renameToDuplicate (ngs : list eks.NodeGroupConfig)
    : list eks.NodeGroupConfig :=
  foldl (fun updatedNodeGroupsList ng =>
           setConfigNodegroupName (Some "duplicate") ng :: updatedNodeGroupsList)
        [] ngs.

Definition duplicateNamesUpdateFunc (clusterConfig : eks.ClusterConfig)
    : Outcome eks.ClusterConfig :=
  runPure
    (let* (clusterConfig, err) :=
       helper.AddNodeGroupToConfig AppendRandomString clusterConfig 2 in
     let* _ := ExpectNil err in
     let* ngs := deref (eks.NodeGroupsConfig clusterConfig) in
     let* updated :=
       helper.assignThrough (eks.NodeGroupsConfig clusterConfig)
                            (renameToDuplicate ngs) in
     ret (setNodeGroupsConfig updated clusterConfig)).

(** What the probe of the duplicate-name spec returns for a fetched cluster. *)
Definition duplicateNameRejected (cluster : Cluster) : bool :=
  String.eqb (Transitioning cluster) "error" &&
  (strings.Contains (TransitioningMessage cluster) "is not unique within the cluster"
   || strings.Contains (TransitioningMessage cluster) "NodePool names must be unique").

(** The probe declares its own [cluster] and [err]: the captured variable is
    read and left as it is. *)
Definition duplicateNameProbe (client : Client Api) : @Probe Api (option Cluster) bool :=
  fun captured =>
    let* cluster := deref captured in
    let* fetched := helper.refetch client cluster in
    ret (captured, duplicateNameRejected fetched).

Definition failToProvisionDuplicateNodegroupNames (client : Client Api)
    (clusterName cloudCredID k8sVersion region : string)
    : Spec (World Api) (option Cluster) :=
  let* (cluster, err) :=
    helper.CreateEKSHostedCluster LoadConfig GetCommonMetadataLabels client
      clusterName cloudCredID k8sVersion region
      (Some duplicateNamesUpdateFunc) in
  let* _ := ExpectNil err in
  Should (mkWindow (1 * time.Minute) (3 * time.Second))
         (duplicateNameProbe client) gomega.BeTrue cluster.

(** [upgradeNodeKubernetesVersionGTCPCheck]: what its probe returns for a
    fetched cluster. *)
Definition notCompatibleReported (cluster : Cluster) : bool :=
  String.eqb (Transitioning cluster) "error" &&
  strings.Contains (TransitioningMessage cluster) "not compatible".

Definition notCompatibleProbe (client : Client Api) : @Probe Api Cluster bool :=
  fun cluster =>
    let* cluster := helper.refetch client cluster in
    ret (cluster, notCompatibleReported cluster).

Definition upgradeNodeKubernetesVersionGTCPCheck (cluster : Cluster)
    (client : Client Api) (upgradeToVersion : string) : Spec (World Api) Cluster :=
  let* (cluster, err) :=
    helper.UpgradeNodeKubernetesVersion SetTimeout cluster upgradeToVersion client
      false false in
  let* _ := ExpectNil err in
  Should (mkWindow (1 * time.Minute) (3 * time.Second))
         (notCompatibleProbe client) gomega.BeTrue cluster.

(** The template [upgradeCPAndAddNgCheck] reads with [config.LoadConfig]. *)
Variable LoadSpecConfig : EKSClusterConfigSpec.

(** The update function of [upgradeCPAndAddNgCheck]: the node group list
    becomes the template's first node group under the new name. *)
Definition replaceWithNewNodeGroup (newNodeGroupName : option string)
    (cluster : Cluster) : Outcome Cluster :=
  match NodeGroups LoadSpecConfig with
  | [] => Abort IndexOutOfRange
  | first :: _ =>
      let newNodeGroup :=
        mkNodeGroup newNodeGroupName (Version first) (DesiredSize first)
                    (MaxSize first) (MinSize first) (DiskSize first)
                    (InstanceType first) in
      let updatedNodeGroupsList := [] ++ [newNodeGroup] in
      match EKSConfig cluster with
      | None => Abort NilDereference
      | Some config =>
          Pass (setEKSConfig (setNodeGroups updatedNodeGroupsList config) cluster)
      end
  end.

(** [for _, ng := range ngs { Expect(ng.NodegroupName).To(Equal(name)) }] *)
Definition expectAllNamed {W} (ngs : list NodeGroup) (name : option string)
    : Spec W unit :=
  forRange ngs (fun ng =>
    Expect (gomega.EqualPtr name (NodegroupName ng)) "nodegroup name").

(** [upgradeCPAndAddNgCheck]; the control plane is upgraded and polled
    through the admin client of the suite's context. *)
Definition upgradeCPAndAddNgCheck (adminClient : Client Api) (cluster : Cluster)
    (client : Client Api) (upgradeToVersion : string) : Spec (World Api) Cluster :=
  let* config := deref (EKSConfig cluster) in
  let originalLen := Z.of_nat (length (NodeGroups config)) in
  let newNodeGroupName := Some (AppendRandomString 0 "ng") in
  let* (cluster, err) :=
    helper.UpgradeClusterKubernetesVersion SetTimeout cluster upgradeToVersion
      adminClient true in
  let* _ := ExpectNil err in
  let* (cluster, err) :=
    helper.UpdateCluster cluster client (replaceWithNewNodeGroup newNodeGroupName) in
  let* _ := ExpectNil err in
  let* config := deref (EKSConfig cluster) in
  let* _ := Expect (gomega.BeNumericallyEq originalLen
                      (Z.of_nat (length (NodeGroups config))))
                   "nodegroup count" in
  let* _ := expectAllNamed (NodeGroups config) newNodeGroupName in
  let* err := call (WaitClusterToBeUpgraded client (ID cluster)) in
  let* _ := ExpectNil err in
  Should (mkWindow (5 * time.Minute) (15 * time.Second))
         (helper.upstreamNodeVersionsProbe adminClient upgradeToVersion)
         gomega.BeTrue cluster.

(** "Fail to create cluster with different k8s versions on control plane and
    on nodegroup": every node group gets the node group version and is
    prepended to the new list. *)
Definition setConfigVersion (v : option string) (ng : eks.NodeGroupConfig)
    : eks.NodeGroupConfig :=
  eks.mkNodeGroupConfig (eks.NodegroupName ng) v (eks.DesiredSize ng)
                        (eks.MaxSize ng) (eks.MinSize ng) (eks.InstanceType ng).

Definition setNodeGroupVersions (ngK8sVersion : string)
    (ngs : list eks.NodeGroupConfig) : list eks.NodeGroupConfig :=
  foldl (fun updatedNodeGroupsList ng =>
           setConfigVersion (Some ngK8sVersion) ng :: updatedNodeGroupsList)
        [] ngs.

Definition differentVersionsUpdateFunc (ngK8sVersion : string)
    (clusterConfig : eks.ClusterConfig) : Outcome eks.ClusterConfig :=
  runPure
    (let* ngs := deref (eks.NodeGroupsConfig clusterConfig) in
     let* updated :=
       helper.assignThrough (eks.NodeGroupsConfig clusterConfig)
                            (setNodeGroupVersions ngK8sVersion ngs) in
     ret (setNodeGroupsConfig updated clusterConfig)).

End P1.
End p1.

(** ** Behind the management API

    The validation of requests and the operator that provisions the clusters
    run behind the management API; neither is part of this repository. *)
Module management.

(** The value the generated client hands back next to an error. *)
Definition noCluster : Cluster := mkCluster "" "" None None "" "".

(** Modelled from the spec: the invalid combination "both public and private
    access disabled" of a desired configuration. *)
Definition accessDisabled (updates : Cluster) : bool :=
  match EKSConfig updates with
  | Some config =>
      match PublicAccess config, PrivateAccess config with
      | Some false, Some false => true
      | _, _ => false
      end
  | None => false
  end.

(** Modelled from the spec: the rejection of that combination, "containing
    must be enabled", in the words the checks of [p1] look for. *)
Definition accessDisabledError : error :=
  New "public access, private access, or both must be enabled".

(** Modelled from the spec: the invalid combination "security groups without
    subnets" of a creation request. *)
Definition securityGroupsWithoutSubnets (config : eks.ClusterConfig) : bool :=
  negb (length (eks.SecurityGroups config) =? 0)%nat
  && (length (eks.Subnets config) =? 0)%nat.

(** Modelled from the spec: the rejection of that combination. *)
Definition subnetsError : error :=
  New "subnets must be provided if security groups are provided".

(** Modelled from the spec: the synchronous validation of the management
    API, which is not part of this repository.  "The API may reject the
    submission synchronously (e.g., invalid combination such as both public
    and private access disabled, or security groups without subnets)": an
    update that disables both kinds of access and a creation request that
    lists security groups and no subnets are refused at once and change
    nothing; every other call is the [backend]'s. *)
Definition validating {Api} (backend : Client Api) : Client Api :=
  mkClient Api
    (fun existing updates s =>
       if accessDisabled updates then ((noCluster, Some accessDisabledError), s)
       else Cluster_Update backend existing updates s)
    (Cluster_ByID backend)
    (WaitClusterToBeUpgraded backend)
    (fun displayName cloudCredentialID config s =>
       if securityGroupsWithoutSubnets config then ((None, Some subnetsError), s)
       else eks_CreateEKSHostedCluster backend displayName cloudCredentialID config s).






End management.

(** ** Concrete clusters and clients to run the helpers on *)
Module Examples.

Definition nodeGroup (name : string) (desired max : Z) : NodeGroup :=
  mkNodeGroup (Some name) (Some "1.29") (Some desired) (Some max) (Some 1)
              (Some 20) (Some "t3.medium").

Definition config (version : string) (ngs : list NodeGroup) (public private : bool)
    : EKSClusterConfigSpec :=
  mkEKSClusterConfigSpec (Some version) ngs (Some public) (Some private).

Definition clusterOf (desired upstream : EKSClusterConfigSpec) : Cluster :=
  mkCluster "c-x7k2p" "auto-eks-hp-ci" (Some desired)
            (Some (mkEKSClusterConfigStatus (Some upstream))) "" "".

Definition cluster : Cluster :=
  let c := config "1.29" [nodeGroup "ranchernodes" 1 2] true true in
  clusterOf c c.

(** An imported cluster: its desired configuration holds no values. *)
Definition importedCluster : Cluster :=
  mkCluster "c-m9t4w" "auto-eks-hp-ci-import"
            (Some (mkEKSClusterConfigSpec None [] None None))
            (Some (mkEKSClusterConfigStatus
                     (Some (config "1.29" [nodeGroup "ranchernodes" 1 2] true true))))
            "" "".

(** The value the generated client hands back when the API refused. *)
Definition emptyCluster : Cluster := mkCluster "" "" None None "" "".

Definition accessDisabled (c : Cluster) : bool :=
  match EKSConfig c with
  | Some cfg =>
      match PublicAccess cfg, PrivateAccess cfg with
      | Some false, Some false => true
      | _, _ => false
      end
  | None => false
  end.

Definition accessError : error :=
  New "InvalidParameterException: public access, private access, or both must be enabled".

Definition subnetsError : error :=
  New "subnets must be provided if security groups are provided".

Definition createOn (observed : Cluster)
    (displayName cloudCredentialID : string) (cfg : eks.ClusterConfig) (s : unit)
    : (option Cluster * option error) * unit :=
  match eks.SecurityGroups cfg, eks.Subnets cfg with
  | _ :: _, [] => ((None, Some subnetsError), s)
  | _, _ => ((Some observed, None), s)
  end.

(** A validating API whose upstream never moves: it refuses to disable both
    kinds of access, accepts every other update by echoing it, and answers
    every lookup with [observed]. *)
Definition steadyClient (observed : Cluster) : Client unit :=
  mkClient unit
    (fun existing updates s =>
       if accessDisabled updates then ((emptyCluster, Some accessError), s)
       else ((updates, None), s))
    (fun id s => ((observed, None), s))
    (fun id s => (None, s))
    (createOn observed).

(** [tools.SetTimeout] when the suite does not scale timeouts. *)
Definition unscaled (d : time.Duration) : time.Duration := d.

Definition start : World unit := mkWorld tt 0.

(** A configuration template without subnets. *)
Definition template : eks.ClusterConfig :=
  eks.mkClusterConfig
    None
    (Some [eks.mkNodeGroupConfig (Some "ranchernodes") None (Some 1) (Some 2)
                                 (Some 1) (Some "t3.medium")])
    "" [] [] None.

Definition randomName (i : nat) (s : string) : string :=
  s +:+ (if Nat.even i then "qwert" else "asdfg").

End Examples.

(** ** A concrete host and provider CLI *)
Module CliExamples.

(** A CLI that cannot find the cluster: every invocation prints the same
    complaint and exits with status 1. *)
Definition failingRunW (cmd : string) (args : list string)
    (environment : gmap string string) (p : unit) : (string * option error) * unit :=
  (("Error: unable to describe cluster control plane" +:+ String "010"%char "",
    Some (New "exit status 1")), p).

(** A CLI whose every invocation succeeds and prints nothing. *)
Definition quietRunW (cmd : string) (args : list string)
    (environment : gmap string string) (p : unit) : (string * option error) * unit :=
  ((EmptyString, None), p).

Definition DownstreamKubeconfig (clusterName : string) : string :=
  clusterName +:+ "_KUBECONFIG".

(** Point both the cluster's own variable and KUBECONFIG at a fresh file. *)
Definition SetTempKubeConfig (clusterName : string) : Spec (Host unit) unit :=
  fun h =>
    let path := "/tmp/" +:+ clusterName in
    (Pass tt,
     os.Setenv "KUBECONFIG" path (os.Setenv (DownstreamKubeconfig clusterName) path h)).

Definition SelectorFromSet (tags : gmap string string) : string := "owner=hosted-providers-qa-ci".

Definition host : Host unit :=
  mkHost (<["KUBECONFIG" := "/home/ci/.kube/config"]> ∅) [] tt.

(** A host on which KUBECONFIG is not set. *)
Definition bareHost : Host unit := mkHost ∅ [] tt.

End CliExamples.

Module UpgradeExamples.

Definition nodeGroupAt (version : string) : NodeGroup :=
  mkNodeGroup (Some "ranchernodes") (Some version) (Some 1) (Some 2) (Some 1)
              (Some 20) (Some "t3.medium").

(** A cluster whose control plane is at [control] and whose node groups are
    at [nodes], in its desired configuration and upstream alike. *)
Definition clusterAt (control nodes : string) : Cluster :=
  let c := mkEKSClusterConfigSpec (Some control) [nodeGroupAt nodes]
                                  (Some true) (Some true) in
  Examples.clusterOf c c.

End UpgradeExamples.

(** ** [hosted/gke/k8s_chart_support/upgrade]: picking the version to upgrade to *)
Module k8s_chart_support_upgrade.

(** The loop of [commonChartSupportUpgrade] over the available versions:
  [for _, v := range versions { if strings.Contains(v, highest) { latestVersion = v } }] *)
Definition latestSupported (versions : list string)
  (highestSupportedVersionByUI : string) : string :=
foldl (fun latestVersion v =>
         if strings.Contains v highestSupportedVersionByUI then v else latestVersion)
      EmptyString versions.

End k8s_chart_support_upgrade.

(** ** More concrete clusters, clients and CLIs to run the helpers on *)
Module MoreExamples.

(** A node group template as [config.LoadConfig] reads it into the API type. *)
Definition specTemplate : EKSClusterConfigSpec :=
mkEKSClusterConfigSpec None [Examples.nodeGroup "template" 1 2] None None.

(** A cluster whose desired configuration has no node group. *)
Definition emptyCluster : Cluster :=
Examples.clusterOf (Examples.config "1.29" [] true true)
                   (Examples.config "1.29" [] true true).

(** An API that refuses every update and knows one cluster. *)
Definition refusingClient (observed : Cluster) : Client unit :=
mkClient unit
  (fun existing updates s =>
     ((Examples.emptyCluster, Some (New "403 Forbidden: cluster is read-only")), s))
  (fun id s => ((observed, None), s))
  (fun id s => (None, s))
  (Examples.createOn observed).

(** An API whose upstream moves: it echoes every update, and answers the
  first lookup with [first] and every later one with [later]. *)
Definition movingClient (first later : Cluster) : Client nat :=
mkClient nat
  (fun existing updates s => ((updates, None), s))
  (fun id s => ((if (s =? 0)%nat then first else later, None), S s))
  (fun id s => (None, s))
  (fun displayName cloudCredentialID cfg s => ((Some first, None), s)).

(** The cluster as the API reports it once the operator has refused node
  groups that are ahead of the control plane. *)
Definition incompatible : Cluster :=
mkCluster "c-x7k2p" "auto-eks-hp-ci"
  (Some (mkEKSClusterConfigSpec (Some "1.29") [UpgradeExamples.nodeGroupAt "1.30"]
           (Some true) (Some true)))
  (Some (mkEKSClusterConfigStatus
           (Some (mkEKSClusterConfigSpec (Some "1.29") [UpgradeExamples.nodeGroupAt "1.29"]
                    (Some true) (Some true)))))
  "error"
  "versions for cluster [1.29] and nodegroup [1.30] not compatible: all nodegroup kubernetes versions must be equal to or one minor version lower than the cluster kubernetes version".

(** A CLI that lists two node groups and cannot delete any. *)
Definition stuckRunW (cmd : string) (args : list string)
  (environment : gmap string string) (p : unit) : (string * option error) * unit :=
if String.eqb cmd "bash"
then (("ranchernodes" +:+ String "010"%char "gpuenabled" +:+ String "010"%char "",
       None), p)
else (("Error: timed out waiting for nodegroup deletion", Some (New "exit status 1")), p).

(** A CLI that lists two node groups and succeeds at everything. *)
Definition obligingRunW (cmd : string) (args : list string)
  (environment : gmap string string) (p : unit) : (string * option error) * unit :=
if String.eqb cmd "bash"
then (("ranchernodes" +:+ String "010"%char "gpuenabled" +:+ String "010"%char "",
       None), p)
else ((EmptyString, None), p).

(** Node group slices whose capacity is their length. *)
Definition exactCapacity (config : EKSClusterConfigSpec) : list NodeGroup := [].

(** Node group slices with [ng] in their backing array, right behind their
  length. *)
Definition roomBehind (ng : NodeGroup) (config : EKSClusterConfigSpec)
  : list NodeGroup := [ng].

(** An API without validation whose upstream never moves: it accepts every
  update and every creation request and answers every lookup with
  [observed]. *)
Definition acceptingClient (observed : Cluster) : Client unit :=
mkClient unit
  (fun existing updates s => ((updates, None), s))
  (fun id s => ((observed, None), s))
  (fun id s => (None, s))
  (fun displayName cloudCredentialID config s => ((Some observed, None), s)).

(** What [proc.RunW] reports of a subprocess: its captured output, and an
  error unless it exited with status 0. *)
Definition exited (output status : string) : string * option error :=
(output,
 if String.eqb status "0" then None else Some (New ("exit status " +:+ status))).

(** The complaint of [eksctl] on a host whose session token has expired. *)
Definition complaint : string :=
"Error: checking AWS STS access - cannot get role ARN for current session: ExpiredToken".

(** That host.  Run directly, [eksctl] prints its complaint and exits with
  status 1.  Run by [bash -c] on the left of a pipe into [jq -r], it prints
  the same complaint, [jq] reads nothing and prints nothing, and the
  pipeline, for which pipefail is not set, exits with the status of [jq],
  its last command: 0. *)
Definition expiredRunW (cmd : string) (args : list string)
  (environment : gmap string string) (p : unit) : (string * option error) * unit :=
if String.eqb cmd "eksctl" then (exited (complaint +:+ String "010"%char "") "1", p)
else if String.eqb cmd "bash" then (exited (complaint +:+ String "010"%char "") "0", p)
else (exited EmptyString "127", p).

(** A host that knows the cluster's own kubeconfig and records invocations. *)
Definition tracedHost : Host (unit * list cli.Invocation) :=
mkHost (<["auto-eks-hp-ci_KUBECONFIG" := "/tmp/auto-eks-hp-ci"]>
          (<["KUBECONFIG" := "/home/ci/.kube/config"]> ∅))
       [] (tt, []).

End MoreExamples.

(** ** Facts about substrings *)
Section SubstringFacts.

Lemma append_nil (t : string) : "" +:+ t = t.
Proof. reflexivity. Qed.

Lemma append_cons (c : ascii) (s t : string) :
  String c s +:+ t = String c (s +:+ t).
Proof. reflexivity. Qed.

Lemma append_assoc (a b c : string) : (a +:+ b) +:+ c = a +:+ (b +:+ c).
Proof.
  induction a as [|x a IH]; [reflexivity|].
  rewrite !append_cons, IH. reflexivity.
Qed.

Lemma append_nil_r (a : string) : a +:+ "" = a.
Proof.
  induction a as [|x a IH]; [reflexivity|].
  rewrite append_cons, IH. reflexivity.
Qed.

Lemma HasPrefix_spec (p s : string) :
  strings.HasPrefix s p = true <-> exists r, s = p +:+ r.
Proof.
  revert s. induction p as [|a p IH]; intros s.
  - split; [intros _; exists s; reflexivity | intros _; destruct s; reflexivity].
  - destruct s as [|b s]; simpl.
    + split; [discriminate | intros [r Hr]; discriminate].
    + rewrite andb_true_iff, IH. split.
      * intros [Hab [r ->]]. apply Ascii.eqb_eq in Hab. subst b.
        exists r. reflexivity.
      * intros [r Hr]. rewrite append_cons in Hr. injection Hr as -> ->. split.
        -- apply Ascii.eqb_refl.
        -- exists r. reflexivity.
Qed.

Lemma Contains_unfold (s sub : string) :
  strings.Contains s sub =
  strings.HasPrefix s sub ||
  match s with
  | EmptyString => false
  | String _ r => strings.Contains r sub
  end.
Proof. destruct s; reflexivity. Qed.

Lemma Contains_spec (sub s : string) :
  strings.Contains s sub = true <-> exists l r, s = l +:+ sub +:+ r.
Proof.
  induction s as [|c s IH]; rewrite Contains_unfold.
  - rewrite orb_false_r, HasPrefix_spec. split.
    + intros [r Hr]. exists EmptyString, r. exact Hr.
    + intros [l [r Hr]]. destruct l; [|discriminate].
      exists r. exact Hr.
  - rewrite orb_true_iff, HasPrefix_spec, IH. split.
    + intros [[r Hr] | [l [r Hr]]].
      * exists EmptyString, r. exact Hr.
      * exists (String c l), r. rewrite append_cons, <- Hr. reflexivity.
    + intros [l [r Hr]]. destruct l as [|d l].
      * left. exists r. exact Hr.
      * right. rewrite append_cons in Hr. injection Hr as -> ->.
        exists l, r. reflexivity.
Qed.


Lemma Contains_append_r (pre s sub : string) :
  strings.Contains s sub = true ->
  strings.Contains (pre +:+ s) sub = true.
Proof.
  rewrite !Contains_spec. intros [l [r ->]].
  exists (pre +:+ l), r. rewrite !append_assoc. reflexivity.
Qed.

Lemma Contains_refl (s : string) : strings.Contains s s = true.
Proof.
  apply Contains_spec. exists EmptyString, EmptyString.
  rewrite append_nil, append_nil_r. reflexivity.
Qed.

End SubstringFacts.

(** ** The poller: how often it samples *)
Section PollerFacts.
Context {Api L A : Type}.
Implicit Types (win : ConvergenceWindow) (probe : @Probe Api L A)
  (satisfied : A -> bool) (l : L) (w : World Api).

Lemma div_sub_interval (T e I : Z) :
  0 < I -> (T - (e + I)) / I = (T - e) / I - 1.
Proof.
  intros HI. replace (T - (e + I)) with ((T - e) + (-1) * I) by ring.
  rewrite Z.div_add by lia. ring.
Qed.

(** Started at [elapsed] with enough fuel, the loop ends by itself, having
    sampled at least once and at most once per interval left before the
    deadline, plus one. *)
Lemma pollLoop_samples fuel win probe satisfied elapsed l w :
  0 < pollInterval win ->
  elapsed <= timeout win ->
  (timeout win - elapsed) / pollInterval win < Z.of_nat fuel ->
  let res := pollLoop fuel win probe satisfied elapsed l w in
  fst (fst res) <> Stalled /\
  (sampled w < sampled (snd res))%nat /\
  Z.of_nat (sampled (snd res)) - Z.of_nat (sampled w)
    <= (timeout win - elapsed) / pollInterval win + 1.
Proof.
  intros HI. revert elapsed l w.
  induction fuel as [|fuel IH]; intros elapsed l w He Hfuel.
  - exfalso.
    assert (0 <= (timeout win - elapsed) / pollInterval win)
      by (apply Z.div_pos; lia).
    lia.
  - assert (Hq : 0 <= (timeout win - elapsed) / pollInterval win)
      by (apply Z.div_pos; lia).
    cbn [pollLoop].
    destruct (probe l (api w)) as [[[l1 v]|f] s1]; cbn zeta.
    + destruct (satisfied v).
      * cbn. repeat split; [discriminate | lia | lia].
      * destruct (Z.leb_spec (elapsed + pollInterval win) (timeout win)) as [Hle|Hgt].
        -- specialize (IH (elapsed + pollInterval win) l1
                        (mkWorld s1 (S (sampled w))) Hle).
           rewrite div_sub_interval in IH by exact HI.
           destruct IH as (Hns & Hlt & Hub); [lia|].
           cbn [sampled] in Hlt, Hub.
           repeat split; [exact Hns | lia | lia].
        -- cbn. repeat split; [discriminate | lia | lia].
    + cbn. repeat split; [discriminate | lia | lia].
Qed.

(** The fuel only has to suffice: with any two amounts that do, the loop
    runs the same, so it is the clock that ends it. *)
Lemma pollLoop_fuel_irrelevant fuel1 fuel2 win probe satisfied elapsed l w :
  0 < pollInterval win ->
  elapsed <= timeout win ->
  (timeout win - elapsed) / pollInterval win < Z.of_nat fuel1 ->
  (timeout win - elapsed) / pollInterval win < Z.of_nat fuel2 ->
  pollLoop fuel1 win probe satisfied elapsed l w
  = pollLoop fuel2 win probe satisfied elapsed l w.
Proof.
  intros HI. revert fuel2 elapsed l w.
  induction fuel1 as [|fuel1 IH]; intros fuel2 elapsed l w He H1 H2.
  - exfalso.
    assert (0 <= (timeout win - elapsed) / pollInterval win)
      by (apply Z.div_pos; lia).
    lia.
  - destruct fuel2 as [|fuel2].
    + exfalso.
      assert (0 <= (timeout win - elapsed) / pollInterval win)
        by (apply Z.div_pos; lia).
      lia.
    + cbn [pollLoop].
      destruct (probe l (api w)) as [[[l1 v]|f] s1]; [|reflexivity].
      cbn zeta. destruct (satisfied v); [reflexivity|].
      destruct (Z.leb_spec (elapsed + pollInterval win) (timeout win)) as [Hle|Hgt];
        [|reflexivity].
      apply IH; [exact Hle | |];
        rewrite div_sub_interval by exact HI; lia.
Qed.

Lemma floor_le_ceilDiv (T I : Z) : 0 < I -> T / I <= ceilDiv T I.
Proof.
  intros HI. unfold ceilDiv. apply Z.div_le_mono; lia.
Qed.

(** C1.  For every window with timeout [T] and poll interval [I],
    [0 < I <= T], the poller ends by itself (it never stalls), and by then,
    whether it converged, had its probe aborted or declared the timeout, it
    has invoked its probe at least once and at most [⌈T/I⌉ + 1] times. *)
Theorem Eventually_sample_bounds win probe satisfied l w :
  0 < pollInterval win ->
  pollInterval win <= timeout win ->
  let res := Eventually win probe satisfied l w in
  let samples := Z.of_nat (sampled (snd res)) - Z.of_nat (sampled w) in
  fst (fst res) <> Stalled /\
  1 <= samples <= ceilDiv (timeout win) (pollInterval win) + 1.
Proof.
  intros HI HT. unfold Eventually, pollFuel.
  pose proof (pollLoop_samples
                (S (Z.to_nat (timeout win / pollInterval win)))
                win probe satisfied 0 l w HI) as H.
  rewrite Z.sub_0_r in H.
  assert (0 <= timeout win / pollInterval win) by (apply Z.div_pos; lia).
  destruct H as (Hns & Hlt & Hub); [lia | lia |].
  pose proof (floor_le_ceilDiv (timeout win) (pollInterval win) HI).
  cbn zeta. repeat split; [exact Hns | lia | lia].
Qed.

(** A probe that keeps answering without ever satisfying the predicate is
    sampled exactly [T/I + 1] times and then timed out: the bound is met. *)
Lemma pollLoop_never_satisfied fuel win probe satisfied elapsed l w :
  0 < pollInterval win ->
  0 <= elapsed <= timeout win ->
  (timeout win - elapsed) / pollInterval win < Z.of_nat fuel ->
  (forall l0 s0, exists l1 v s1,
      probe l0 s0 = (Pass (l1, v), s1) /\ satisfied v = false) ->
  let res := pollLoop fuel win probe satisfied elapsed l w in
  (exists last, fst (fst res) = TimeoutExceeded last) /\
  Z.of_nat (sampled (snd res)) - Z.of_nat (sampled w)
    = (timeout win - elapsed) / pollInterval win + 1.
Proof.
  intros HI He Hfuel Hprobe. revert elapsed l w He Hfuel.
  induction fuel as [|fuel IH]; intros elapsed l w He Hfuel.
  - exfalso.
    assert (0 <= (timeout win - elapsed) / pollInterval win)
      by (apply Z.div_pos; lia).
    lia.
  - cbn [pollLoop].
    destruct (Hprobe l (api w)) as (l1 & v & s1 & -> & Hv).
    cbn zeta. rewrite Hv.
    destruct (Z.leb_spec (elapsed + pollInterval win) (timeout win)) as [Hle|Hgt].
    + specialize (IH (elapsed + pollInterval win) l1
                    (mkWorld s1 (S (sampled w)))).
      rewrite div_sub_interval in IH by exact HI.
      destruct IH as (Hto & Hn); [lia | lia |].
      cbn [sampled] in Hn. split; [exact Hto | lia].
    + cbn. split; [eexists; reflexivity|].
      rewrite Z.div_small by lia. lia.
Qed.

(** C8.  When the first sample already satisfies the predicate, the poller
    returns success with that sample and has invoked the probe exactly
    once; the captured variables and the API are as the probe left them. *)
Theorem Eventually_first_sample win probe satisfied l w l1 v s1 :
  probe l (api w) = (Pass (l1, v), s1) ->
  satisfied v = true ->
  Eventually win probe satisfied l w
    = ((Converged v, l1), mkWorld s1 (S (sampled w))).
Proof.
  intros Hprobe Hv. unfold Eventually, pollFuel. cbn [pollLoop].
  rewrite Hprobe. cbn zeta. rewrite Hv. reflexivity.
Qed.

(** The poller only reports convergence on a value that satisfies the
    predicate. *)
Lemma pollLoop_Converged_satisfied fuel win probe satisfied elapsed l w v :
  fst (fst (pollLoop fuel win probe satisfied elapsed l w)) = Converged v ->
  satisfied v = true.
Proof.
  revert elapsed l w. induction fuel as [|fuel IH]; intros elapsed l w.
  - cbn. discriminate.
  - cbn [pollLoop].
    destruct (probe l (api w)) as [[[l1 v1]|f] s1]; cbn zeta.
    + destruct (satisfied v1) eqn:Hv1.
      * cbn. intros [= <-]. exact Hv1.
      * destruct (elapsed + pollInterval win <=? timeout win).
        -- apply IH.
        -- cbn. discriminate.
    + cbn. discriminate.
Qed.

(** A converged poll hands back what some invocation of the probe returned,
    and that value satisfies the predicate. *)
Lemma pollLoop_Converged_inv fuel win probe satisfied elapsed l w v l' w' :
  pollLoop fuel win probe satisfied elapsed l w = ((Converged v, l'), w') ->
  satisfied v = true /\
  exists l0 s0, probe l0 s0 = (Pass (l', v), api w').
Proof.
  revert elapsed l w. induction fuel as [|fuel IH]; intros elapsed l w.
  - cbn. discriminate.
  - cbn [pollLoop].
    destruct (probe l (api w)) as [[[l1 v1]|f] s1] eqn:Hprobe; cbn zeta.
    + destruct (satisfied v1) eqn:Hv1.
      * intros [= <- <- <-]. split; [exact Hv1|].
        exists l, (api w). exact Hprobe.
      * destruct (elapsed + pollInterval win <=? timeout win).
        -- apply IH.
        -- discriminate.
    + discriminate.
Qed.

Lemma Should_Pass_inv win probe satisfied l w l' w' :
  Should win probe satisfied l w = (Pass l', w') ->
  exists v l0 s0,
    probe l0 s0 = (Pass (l', v), api w') /\ satisfied v = true.
Proof.
  unfold Should, Eventually.
  destruct (pollLoop (pollFuel win) win probe satisfied 0 l w)
    as [[r l1] w1] eqn:Hloop.
  destruct r; try discriminate.
  intros [= <- <-].
  apply pollLoop_Converged_inv in Hloop as (Hv & l0 & s0 & Hprobe).
  exists v, l0, s0. split; assumption.
Qed.



End PollerFacts.

(** ** Reasoning about specs *)
Section SpecFacts.
Context {W : Type}.

Lemma bind_Pass_inv {A B} (m : Spec W A) (k : A -> Spec W B) (w : W) b w' :
  bind m k w = (Pass b, w') ->
  exists a w1, m w = (Pass a, w1) /\ k a w1 = (Pass b, w').
Proof.
  unfold bind. destruct (m w) as [[a|f] w1]; [|discriminate].
  intros H. exists a, w1. split; [reflexivity | exact H].
Qed.

Lemma bind_Pass {A B} (m : Spec W A) (k : A -> Spec W B) (w : W) a w1 :
  m w = (Pass a, w1) -> bind m k w = k a w1.
Proof. unfold bind. intros ->. reflexivity. Qed.

Lemma bind_Abort {A B} (m : Spec W A) (k : A -> Spec W B) (w : W) f w1 :
  m w = (Abort f, w1) -> bind m k w = (Abort f, w1).
Proof. unfold bind. intros ->. reflexivity. Qed.

Lemma deref_Pass_inv {A} (p : option A) (w : W) a w' :
  deref p w = (Pass a, w') -> p = Some a /\ w' = w.
Proof. destruct p; cbn; [intros [= <- <-]; auto | discriminate]. Qed.

Lemma ExpectNil_Pass_inv (err : option error) (w : W) u w' :
  ExpectNil err w = (Pass u, w') -> err = None /\ w' = w.
Proof. destruct err; cbn; [discriminate | intros [= <- <-]; auto]. Qed.

Lemma Expect_Pass_inv (b : bool) d (w : W) u w' :
  Expect b d w = (Pass u, w') -> b = true /\ w' = w.
Proof. destruct b; cbn; [intros [= <- <-]; auto | discriminate]. Qed.

End SpecFacts.

(** ** The desired configurations the mutators submit *)
Section MutatorFacts.
Context {Api : Type}.
Variable SetTimeout : time.Duration -> time.Duration.
Variable behindLen : EKSClusterConfigSpec -> list NodeGroup.

Lemma scaleAt_app (nodeCount : Z) (done : list NodeGroup) ng rest :
  helper.scaleAt nodeCount (done ++ ng :: rest) (length done)
  = done ++ helper.scaled nodeCount ng :: rest.
Proof.
  unfold helper.scaleAt.
  replace (length done) with (length done + 0)%nat by lia.
  rewrite !alter_app_r. reflexivity.
Qed.

Lemma scale_loop (nodeCount : Z) (rest done : list NodeGroup) :
  foldl (helper.scaleAt nodeCount) (done ++ rest) (seq (length done) (length rest))
  = done ++ map (helper.scaled nodeCount) rest.
Proof.
  revert done. induction rest as [|ng rest IH]; intros done; [reflexivity|].
  cbn [length seq foldl map]. rewrite scaleAt_app.
  specialize (IH (done ++ [helper.scaled nodeCount ng])).
  rewrite length_app, Nat.add_1_r, <- !app_assoc in IH. exact IH.
Qed.

(** The index loop of [ScaleNodeGroup] rewrites every node group. *)
Lemma scaleNodeGroups_map (nodeCount : Z) (ngs : list NodeGroup) :
  helper.scaleNodeGroups nodeCount ngs = map (helper.scaled nodeCount) ngs.
Proof. exact (scale_loop nodeCount ngs []). Qed.

(** C9.  For every cluster with a desired configuration and every
    [nodeCount], the configuration [ScaleNodeGroup] submits has the same node
    groups in the same order, each with both its desired size and its
    maximum size set to [nodeCount] and its name, version and minimum size
    left alone; so a maximum size that differed from [nodeCount] does not
    stay as it was.  Called without waiting or checking, [ScaleNodeGroup]
    hands that configuration to the API and returns what the API answered. *)
Theorem ScaleNodeGroup_sets_desired_and_max (cluster : Cluster)
    (client : Client Api) (nodeCount : Z) (config : EKSClusterConfigSpec)
    (w : World Api) :
  EKSConfig cluster = Some config ->
  exists ngs',
    let upgraded := setEKSConfig (setNodeGroups ngs' config) cluster in
    helper.ScaleNodeGroup_desired cluster nodeCount w = (Pass upgraded, w) /\
    length ngs' = length (NodeGroups config) /\
    (forall i ng, NodeGroups config !! i = Some ng ->
       exists ng', ngs' !! i = Some ng' /\
         DesiredSize ng' = Some nodeCount /\
         MaxSize ng' = Some nodeCount /\
         NodegroupName ng' = NodegroupName ng /\
         Version ng' = Version ng /\
         MinSize ng' = MinSize ng /\
         (MaxSize ng <> Some nodeCount -> ng' <> ng)) /\
    helper.ScaleNodeGroup SetTimeout cluster client nodeCount false false w
    = (let* (answered, err) := call (Cluster_Update client upgraded upgraded) in
       let* _ := ExpectNil err in
       ret (answered, None)) w.
Proof.
  intros Hconfig.
  exists (map (helper.scaled nodeCount) (NodeGroups config)).
  assert (Hdesired :
    helper.ScaleNodeGroup_desired cluster nodeCount w
    = (Pass (setEKSConfig
               (setNodeGroups (map (helper.scaled nodeCount) (NodeGroups config)) config)
               cluster), w)).
  { unfold helper.ScaleNodeGroup_desired. rewrite Hconfig.
    cbn. rewrite scaleNodeGroups_map. reflexivity. }
  cbn zeta. split; [exact Hdesired|]. split; [apply length_map|]. split.
  - intros i ng Hi. exists (helper.scaled nodeCount ng).
    rewrite list_lookup_fmap, Hi. cbn.
    repeat split; try reflexivity.
    intros Hmax Heq. apply Hmax. rewrite <- Heq at 1. reflexivity.
  - unfold helper.ScaleNodeGroup.
    rewrite (bind_Pass _ _ _ _ _ Hdesired).
    unfold bind, helper.waitUpgraded.
    destruct (call _ w) as [[[answered err]|f] w1]; [|reflexivity].
    destruct err; reflexivity.
Qed.

(** C10.  For every cluster whose desired configuration has [n >= 1] node
    groups, [DeleteNodeGroup] submits a desired configuration whose list is
    exactly the first node group of the original list, so its length is 1;
    and when the API echoes the submitted configuration back, a run with
    [checkClusterConfig] set can only pass when [n = 2]: for any other [n]
    an accepted update fails the check that the length is [n - 1]. *)
Theorem DeleteNodeGroup_keeps_first (cluster : Cluster) (client : Client Api)
    (wait : bool) (config : EKSClusterConfigSpec) (w : World Api) :
  EKSConfig cluster = Some config ->
  (1 <= length (NodeGroups config))%nat ->
  exists first,
    let upgraded := setEKSConfig (setNodeGroups [first] config) cluster in
    head (NodeGroups config) = Some first /\
    helper.DeleteNodeGroup_desired behindLen cluster w = (Pass (upgraded, [first]), w) /\
    forall answered err s',
      Cluster_Update client upgraded upgraded (api w) = ((answered, err), s') ->
      EKSConfig answered = EKSConfig upgraded ->
      (forall r w',
          helper.DeleteNodeGroup SetTimeout behindLen cluster client wait true w = (Pass r, w') ->
          length (NodeGroups config) = 2%nat) /\
      (err = None -> length (NodeGroups config) <> 2%nat ->
       helper.DeleteNodeGroup SetTimeout behindLen cluster client wait true w
       = (Abort (AssertionFailed "desired nodegroup count"),
          mkWorld s' (sampled w))).
Proof.
  intros Hconfig Hlen.
  destruct (NodeGroups config) as [|first rest] eqn:Hngs; [cbn in Hlen; lia|].
  exists first. cbn zeta.
  assert (Hdesired :
    helper.DeleteNodeGroup_desired behindLen cluster w
    = (Pass (setEKSConfig (setNodeGroups [first] config) cluster, [first]), w)).
  { unfold helper.DeleteNodeGroup_desired. rewrite Hconfig. cbn.
    rewrite Hngs. reflexivity. }
  split; [reflexivity|]. split; [exact Hdesired|].
  intros answered err s' Hupdate Hecho.
  assert (Hrun : forall err',
    err = err' ->
    helper.DeleteNodeGroup SetTimeout behindLen cluster client wait true w
    = (let* _ := ExpectNil err' in
       let* _ :=
         (let* config' := deref (EKSConfig answered) in
          let* _ := Expect (gomega.BeNumericallyEq
                              (Z.of_nat (length (first :: rest)) - 1)
                              (Z.of_nat (length (NodeGroups config'))))
                           "desired nodegroup count" in
          helper.expectNodegroupNames 0 (NodeGroups config') [first]) in
       let* _ := helper.waitUpgraded client wait answered in
       let* cluster' :=
         Should (mkWindow (SetTimeout (15 * time.Minute)) (10 * time.Second))
                (helper.upstreamNodeGroupCountProbe client)
                (gomega.BeNumericallyEq (Z.of_nat (length (first :: rest)) - 1))
                answered in
       let* upstream := helper.upstreamSpec cluster' in
       let* _ := helper.expectNodegroupNames 0 (NodeGroups upstream) [first] in
       ret (cluster', None)) (mkWorld s' (sampled w))).
  { intros err' <-. unfold helper.DeleteNodeGroup.
    rewrite Hconfig. cbn [deref]. unfold bind at 1. cbn [ret].
    rewrite (bind_Pass _ _ _ _ _ Hdesired).
    unfold bind at 1. unfold call. rewrite Hupdate. rewrite Hngs. reflexivity. }
  assert (Hcheck : length (first :: rest) <> 2%nat ->
    gomega.BeNumericallyEq (Z.of_nat (length (first :: rest)) - 1)
      (Z.of_nat (length (NodeGroups (setNodeGroups [first] config)))) = false).
  { intros Hne. unfold gomega.BeNumericallyEq. cbn [setNodeGroups NodeGroups length].
    apply Z.eqb_neq. cbn [length] in Hne. lia. }
  split.
  - intros r w' Hpass.
    destruct (Nat.eq_dec (length (first :: rest)) 2%nat) as [Heq|Hne]; [exact Heq|].
    exfalso. rewrite (Hrun err eq_refl) in Hpass.
    apply bind_Pass_inv in Hpass as (u1 & w1 & _ & Hpass).
    apply bind_Pass_inv in Hpass as (u2 & w2 & Hchecks & _).
    rewrite Hecho in Hchecks. cbn [setEKSConfig EKSConfig] in Hchecks.
    apply bind_Pass_inv in Hchecks as (config' & w3 & Hderef & Hchecks).
    apply deref_Pass_inv in Hderef as [[= <-] ->].
    apply bind_Pass_inv in Hchecks as (u3 & w4 & Hexpect & _).
    apply Expect_Pass_inv in Hexpect as [Htrue _].
    rewrite (Hcheck Hne) in Htrue. discriminate.
  - intros -> Hne. rewrite (Hrun None eq_refl).
    cbn [ExpectNil]. unfold bind at 1. cbn [ret].
    rewrite Hecho. cbn [setEKSConfig EKSConfig deref].
    unfold bind at 2. cbn [ret]. rewrite (Hcheck Hne). reflexivity.
Qed.

End MutatorFacts.

(** ** Synchronous rejections *)
Section RejectionFacts.
Context {Api : Type}.
Variable SetTimeout : time.Duration -> time.Duration.
Variable LoadConfig : eks.ClusterConfig.
Variable GetCommonMetadataLabels : option (gmap string string).

(** The rejection the specs look for mentions what must be enabled. *)
Lemma access_message_must_be_enabled :
  strings.Contains "public access, private access, or both must be enabled"
                   "must be enabled" = true.
Proof. vm_compute. reflexivity. Qed.

(** Without the configuration check, [UpdateAccess] submits the cluster
    with both flags written and returns the API's answer as it is; no probe
    is sampled. *)
Lemma UpdateAccess_unchecked (cluster : Cluster) (client : Client Api)
    (publicAccess privateAccess : bool) (config : EKSClusterConfigSpec)
    (pub priv : bool) (w : World Api) :
  EKSConfig cluster = Some config ->
  PublicAccess config = Some pub ->
  PrivateAccess config = Some priv ->
  let upgraded :=
    setEKSConfig (setPrivateAccess (Some privateAccess)
                    (setPublicAccess (Some publicAccess) config)) cluster in
  helper.UpdateAccess SetTimeout cluster client publicAccess privateAccess false w
  = call (Cluster_Update client upgraded upgraded) w.
Proof.
  intros Hconfig Hpub Hpriv. cbn zeta.
  unfold helper.UpdateAccess, helper.UpdateAccess_desired.
  rewrite Hconfig. cbn [deref]. unfold bind at 2. cbn [ret].
  rewrite Hpub. cbn [helper.assignThrough]. unfold bind at 2. cbn [ret].
  cbn [setPublicAccess PrivateAccess]. rewrite Hpriv.
  cbn [helper.assignThrough]. unfold bind at 2. cbn [ret].
  unfold bind at 1. cbn [ret].
  unfold bind, call.
  destruct (Cluster_Update client _ _ (api w)) as [[answered err] s'].
  reflexivity.
Qed.

(** C3, as the code has it.  For every cluster whose desired configuration
    holds both access flags, [UpdateAccess] with both flags false and no
    configuration check, against the validating API, fails at once: it
    returns the API's rejection, whose message contains "must be enabled";
    the API's state is untouched and no convergence probe has been sampled,
    so the failure is not a convergence timeout; and
    [invalidAccessValuesCheck] passes on it. *)
Theorem UpdateAccess_rejection_without_check (cluster : Cluster)
    (backend : Client Api) (config : EKSClusterConfigSpec) (pub priv : bool)
    (w : World Api) :
  EKSConfig cluster = Some config ->
  PublicAccess config = Some pub ->
  PrivateAccess config = Some priv ->
  helper.UpdateAccess SetTimeout cluster (management.validating backend)
    false false false w
  = (Pass (management.noCluster, Some management.accessDisabledError), w) /\
  strings.Contains (Error management.accessDisabledError) "must be enabled" = true /\
  p1.invalidAccessValuesCheck SetTimeout cluster (management.validating backend) w
  = (Pass tt, w).
Proof.
  intros Hconfig Hpub Hpriv.
  assert (Hresult :
    helper.UpdateAccess SetTimeout cluster (management.validating backend)
      false false false w
    = (Pass (management.noCluster, Some management.accessDisabledError), w)).
  { rewrite (UpdateAccess_unchecked cluster _ false false config pub priv w
               Hconfig Hpub Hpriv).
    destruct w as [s n]. reflexivity. }
  split; [exact Hresult|]. split; [vm_compute; reflexivity|].
  unfold p1.invalidAccessValuesCheck.
  rewrite (bind_Pass _ _ _ _ _ Hresult). reflexivity.
Qed.

(** [CreateEKSHostedCluster] hands the configuration it built to the API
    and returns the API's answer as it is; no probe is sampled. *)
Lemma CreateEKSHostedCluster_calls_API (client : Client Api)
    (displayName cloudCredentialID kubernetesVersion region : string)
    (updateFunc : option (eks.ClusterConfig -> Outcome eks.ClusterConfig))
    (config : eks.ClusterConfig) (w : World Api) :
  helper.requestedConfig LoadConfig GetCommonMetadataLabels
    kubernetesVersion region updateFunc = Pass config ->
  helper.CreateEKSHostedCluster LoadConfig GetCommonMetadataLabels client
    displayName cloudCredentialID kubernetesVersion region updateFunc w
  = call (eks_CreateEKSHostedCluster client displayName cloudCredentialID config) w.
Proof.
  intros Hrequested. unfold helper.CreateEKSHostedCluster.
  rewrite Hrequested. reflexivity.
Qed.

Lemma securityGroupsWithoutSubnets_spec (config : eks.ClusterConfig) :
  management.securityGroupsWithoutSubnets config = true <->
  eks.SecurityGroups config <> [] /\ eks.Subnets config = [].
Proof.
  unfold management.securityGroupsWithoutSubnets.
  destruct (eks.SecurityGroups config), (eks.Subnets config); cbn;
    split; try discriminate; try (intros [H1 H2]; congruence);
    intros _; split; [discriminate | reflexivity].
Qed.

(** C4.  For every creation request whose configuration, as
    [CreateEKSHostedCluster] builds it from the template, its own settings
    and [updateFunc], lists security groups and no subnets: against the
    validating API the helper fails at once with no cluster and the
    rejection "subnets must be provided if security groups are provided";
    the API's state is untouched and no convergence probe has been sampled.
    So the spec "Fail to create cluster with only Security groups" passes
    whenever the template names no subnets. *)
Theorem CreateEKSHostedCluster_security_groups_without_subnets
    (backend : Client Api)
    (displayName cloudCredentialID kubernetesVersion region : string)
    (w : World Api) :
  (forall updateFunc config,
      helper.requestedConfig LoadConfig GetCommonMetadataLabels
        kubernetesVersion region updateFunc = Pass config ->
      eks.SecurityGroups config <> [] ->
      eks.Subnets config = [] ->
      helper.CreateEKSHostedCluster LoadConfig GetCommonMetadataLabels
        (management.validating backend)
        displayName cloudCredentialID kubernetesVersion region updateFunc w
      = (Pass (None, Some management.subnetsError), w)) /\
  strings.Contains (Error management.subnetsError)
    "subnets must be provided if security groups are provided" = true /\
  (forall AppendRandomString : nat -> string -> string,
      eks.Subnets LoadConfig = [] ->
      p1.failToCreateWithOnlySecurityGroups LoadConfig GetCommonMetadataLabels
        AppendRandomString (management.validating backend)
        displayName cloudCredentialID kubernetesVersion region w
      = (Pass None, w)).
Proof.
  assert (Hcreate : forall updateFunc config,
    helper.requestedConfig LoadConfig GetCommonMetadataLabels
      kubernetesVersion region updateFunc = Pass config ->
    eks.SecurityGroups config <> [] ->
    eks.Subnets config = [] ->
    helper.CreateEKSHostedCluster LoadConfig GetCommonMetadataLabels
      (management.validating backend)
      displayName cloudCredentialID kubernetesVersion region updateFunc w
    = (Pass (None, Some management.subnetsError), w)).
  { intros updateFunc config Hrequested Hgroups Hsubnets.
    rewrite (CreateEKSHostedCluster_calls_API _ _ _ _ _ _ _ _ Hrequested).
    unfold call. cbn [management.validating eks_CreateEKSHostedCluster].
    rewrite (proj2 (securityGroupsWithoutSubnets_spec config)
               (conj Hgroups Hsubnets)).
    destruct w as [s n]. reflexivity. }
  split; [exact Hcreate|]. split; [vm_compute; reflexivity|].
  intros AppendRandomString Hsubnets.
  unfold p1.failToCreateWithOnlySecurityGroups.
  rewrite (bind_Pass _ _ _ (None, Some management.subnetsError) w).
  - vm_compute. reflexivity.
  - apply (Hcreate (Some (p1.onlySecurityGroupsUpdateFunc AppendRandomString))
             (setSecurityGroups
                [AppendRandomString 0%nat "sg-"; AppendRandomString 1%nat "sg-"]
                (setConfigKubernetesVersion (Some kubernetesVersion)
                   (setTags GetCommonMetadataLabels
                      (setRegion region LoadConfig))))).
    + reflexivity.
    + discriminate.
    + exact Hsubnets.
Qed.

End RejectionFacts.

(** The rejection theorem at work on a concrete cluster and API. *)
Lemma UpdateAccess_rejection_without_check_witness :
  helper.UpdateAccess Examples.unscaled Examples.cluster
    (management.validating (MoreExamples.acceptingClient Examples.cluster))
    false false false Examples.start
  = (Pass (management.noCluster, Some management.accessDisabledError),
     Examples.start) /\
  strings.Contains (Error management.accessDisabledError) "must be enabled" = true /\
  p1.invalidAccessValuesCheck Examples.unscaled Examples.cluster
    (management.validating (MoreExamples.acceptingClient Examples.cluster))
    Examples.start
  = (Pass tt, Examples.start).
Proof.
  apply (UpdateAccess_rejection_without_check Examples.unscaled Examples.cluster
           (MoreExamples.acceptingClient Examples.cluster)
           (Examples.config "1.29" [Examples.nodeGroup "ranchernodes" 1 2] true true)
           true true Examples.start).
  - reflexivity.
  - reflexivity.
  - reflexivity.
Defined.

(** C3 as stated fails in two ways.  Once the configuration check is
    requested, the helper enters the poller although the API refused the
    update: against an upstream that stays as it was, the probe is sampled 41
    times over ten minutes and the run ends in a convergence timeout, not in
    the API's rejection.  And on an imported cluster, whose desired
    configuration holds no access flags to write through, the helper panics
    before it reaches the API. *)
Lemma UpdateAccess_checked_enters_poller :
  helper.UpdateAccess Examples.unscaled Examples.cluster
    (management.validating (MoreExamples.acceptingClient Examples.cluster))
    false false true Examples.start
  = (Abort ConvergenceTimeout, mkWorld tt 41) /\
  helper.UpdateAccess Examples.unscaled Examples.importedCluster
    (management.validating (MoreExamples.acceptingClient Examples.importedCluster))
    false false false Examples.start
  = (Abort NilDereference, Examples.start).
Proof. vm_compute. split; reflexivity. Qed.

(** The creation theorem at work on a concrete template and API. *)
Lemma CreateEKSHostedCluster_security_groups_without_subnets_witness :
  helper.CreateEKSHostedCluster Examples.template None
    (management.validating (MoreExamples.acceptingClient Examples.cluster))
    "auto-eks-hp-ci" "cattle-global-data:cc-4x2bq" "1.29" "us-west-2"
    (Some (p1.onlySecurityGroupsUpdateFunc Examples.randomName)) Examples.start
  = (Pass (None, Some management.subnetsError), Examples.start).
Proof.
  eapply (proj1 (CreateEKSHostedCluster_security_groups_without_subnets
                   Examples.template None
                   (MoreExamples.acceptingClient Examples.cluster)
                   "auto-eks-hp-ci" "cattle-global-data:cc-4x2bq" "1.29" "us-west-2"
                   Examples.start)).
  - reflexivity.
  - discriminate.
  - reflexivity.
Defined.

(** ** Duplicate node group names *)
Section DuplicateNameFacts.
Context {Api : Type}.
Variable LoadConfig : eks.ClusterConfig.
Variable GetCommonMetadataLabels : option (gmap string string).
Variable AppendRandomString : nat -> string -> string.

(** Whatever template it starts from, the update function of the spec
    leaves exactly two node groups, both named "duplicate". *)
Lemma duplicateNamesUpdateFunc_two_duplicates (clusterConfig config : eks.ClusterConfig) :
  p1.duplicateNamesUpdateFunc AppendRandomString clusterConfig = Pass config ->
  exists a b,
    eks.NodeGroupsConfig config = Some [a; b] /\
    eks.NodegroupName a = Some "duplicate" /\
    eks.NodegroupName b = Some "duplicate".
Proof.
  unfold p1.duplicateNamesUpdateFunc, runPure, helper.AddNodeGroupToConfig.
  destruct (eks.NodeGroupsConfig clusterConfig) as [[|first others]|];
    [discriminate| |discriminate].
  destruct (eks.NodegroupName first) as [name|] eqn:Hname;
    cbv [bind ret fail deref]; cbn; rewrite Hname; [|discriminate].
  intros [= <-]. cbn. eexists _, _. repeat split.
Qed.

Lemma duplicateNameRejected_spec (fetched : Cluster) :
  p1.duplicateNameRejected fetched = true <->
  Transitioning fetched = "error" /\
  (strings.Contains (TransitioningMessage fetched)
                    "is not unique within the cluster" = true \/
   strings.Contains (TransitioningMessage fetched)
                    "NodePool names must be unique" = true).
Proof.
  unfold p1.duplicateNameRejected.
  rewrite andb_true_iff, orb_true_iff, String.eqb_eq. reflexivity.
Qed.

(** A passing run of the spec has seen, at its last sample, a cluster that
    the API reported as rejected. *)
Lemma failToProvisionDuplicateNodegroupNames_Pass_inv (client : Client Api)
    (clusterName cloudCredID k8sVersion region : string)
    (w : World Api) r w' :
  p1.failToProvisionDuplicateNodegroupNames LoadConfig GetCommonMetadataLabels
    AppendRandomString client clusterName cloudCredID k8sVersion region w
  = (Pass r, w') ->
  exists id s fetched,
    Cluster_ByID client id s = ((fetched, None), api w') /\
    p1.duplicateNameRejected fetched = true.
Proof.
  unfold p1.failToProvisionDuplicateNodegroupNames. intros Hrun.
  apply bind_Pass_inv in Hrun as ([created err] & w1 & _ & Hrun).
  apply bind_Pass_inv in Hrun as (u & w2 & _ & Hrun).
  apply Should_Pass_inv in Hrun as (v & captured & s0 & Hprobe & Hv).
  unfold p1.duplicateNameProbe in Hprobe.
  apply bind_Pass_inv in Hprobe as (c & s1 & Hderef & Hprobe).
  apply deref_Pass_inv in Hderef as [_ ->].
  apply bind_Pass_inv in Hprobe as (fetched & s2 & Hfetch & Hret).
  cbv [ret] in Hret. injection Hret as _ Hobserved Hs2.
  unfold helper.refetch in Hfetch.
  destruct (Cluster_ByID client (ID c) s0) as [[fetched' err'] s3] eqn:Hbyid.
  destruct err'; [discriminate|]. injection Hfetch as Hfetched Hs3.
  exists (ID c), s0, fetched. split.
  - rewrite Hbyid. congruence.
  - rewrite Hobserved. exact Hv.
Qed.




End DuplicateNameFacts.


(** ** The provider CLI wrappers *)
Section CliFacts.
Context {P : Type}.
Variable RunW : string -> list string -> gmap string string -> P -> (string * option error) * P.
Variable SetTempKubeConfig : string -> Spec (Host P) unit.
Variable DownstreamKubeconfig : string -> string.
Variable SelectorFromSet : gmap string string -> string.

Lemma Getenv_Setenv (key value : string) (h : Host P) :
  os.Getenv key (os.Setenv key value h) = value.
Proof. unfold os.Getenv, os.Setenv. cbn [env]. rewrite lookup_insert_eq. reflexivity. Qed.

Lemma Getenv_Remove (key name : string) (h : Host P) :
  os.Getenv key (os.Remove name h) = os.Getenv key h.
Proof. reflexivity. Qed.

(** A deferred restore wins over whatever the body did, however it ended. *)
Lemma withDefer_restores {A} (key value : string) (body : Spec (Host P) A) (h : Host P) :
  os.Getenv key (snd (withDefer (os.Setenv key value) body h)) = value.
Proof.
  unfold withDefer. destruct (body h) as [r h']. cbn [snd]. apply Getenv_Setenv.
Qed.

(** C7.  [CreateEKSClusterOnAWS] and [DeleteEKSClusterOnAWS] leave
    KUBECONFIG, as [os.Getenv] reads it, as they found it: whatever the
    helper that sets the temporary kubeconfig and the subprocesses do, and
    whether the call returns nil, returns an error or is aborted. *)
Theorem KUBECONFIG_restored
    (region clusterName k8sVersion nodes : string) (tags : gmap string string)
    (extraArgs : list string) (h : Host P) :
  os.Getenv "KUBECONFIG"
    (snd (cli.CreateEKSClusterOnAWS RunW SetTempKubeConfig SelectorFromSet
            region clusterName k8sVersion nodes tags extraArgs h))
  = os.Getenv "KUBECONFIG" h /\
  os.Getenv "KUBECONFIG"
    (snd (cli.DeleteEKSClusterOnAWS RunW DownstreamKubeconfig region clusterName h))
  = os.Getenv "KUBECONFIG" h.
Proof.
  split.
  - unfold cli.CreateEKSClusterOnAWS. apply withDefer_restores.
  - unfold cli.DeleteEKSClusterOnAWS, withDefer.
    match goal with |- context [let (_, _) := ?body ?h0 in _] =>
      destruct (body h0) as [r h'] end.
    cbn [snd]. rewrite Getenv_Remove. apply Getenv_Setenv.
Qed.

(** What a wrapper makes of a failed invocation: the runner's error under
    the wrapper's message followed by the captured output. *)
Lemma wrapFailure_failed (message out : string) (err : error) :
  exists e,
    cli.wrapFailure message (out, Some err) = Some e /\
    Error e = (message +:+ out) +:+ ": " +:+ Error err /\
    strings.Contains (Error e) out = true.
Proof.
  exists (withMessage err (message +:+ out)). repeat split.
  apply Contains_spec. exists message, (": " +:+ Error err).
  cbn [Error]. rewrite append_assoc. reflexivity.
Qed.

Lemma run_result (cmd : string) (args : list string) (h : Host P) r p' :
  RunW cmd args (env h) (proc h) = (r, p') ->
  cli.run RunW cmd args h = (Pass r, mkHost (env h) (removed h) p').
Proof. unfold cli.run. intros ->. reflexivity. Qed.

(** One invocation, wrapped. *)
Lemma wrapped_run_failed (cmd message : string) (args : list string)
    (h : Host P) out err p' :
  RunW cmd args (env h) (proc h) = ((out, Some err), p') ->
  exists e,
    fst ((let* r := cli.run RunW cmd args in ret (cli.wrapFailure message r)) h)
    = Pass (Some e) /\
    strings.Contains (Error e) out = true.
Proof.
  intros Hrun. destruct (wrapFailure_failed message out err) as (e & He & _ & Hout).
  exists e. split; [|exact Hout].
  rewrite (bind_Pass _ _ _ _ _ (run_result _ _ _ _ _ Hrun)).
  cbn [ret fst]. rewrite He. reflexivity.
Qed.

(** When every deletion succeeds, the loop over the node groups returns nil
    and has touched nothing but the provider. *)
Lemma deleteNodegroups_succeed (region clusterName : string)
    (ngNames : list string) (h : Host P) :
  (forall ngName p,
      snd (fst (RunW "eksctl"
                  (cli.modifyNodegroupArgs region clusterName ngName "delete"
                     ["--wait"])
                  (env h) p)) = None) ->
  exists p',
    cli.deleteNodegroups RunW region clusterName ngNames h
    = (Pass None, mkHost (env h) (removed h) p').
Proof.
  intros Hok. revert h Hok.
  induction ngNames as [|ngName rest IH]; intros h Hok.
  - exists (proc h). destruct h. reflexivity.
  - cbn [cli.deleteNodegroups]. unfold cli.ModifyEKSNodegroupOnAWS.
    destruct (RunW "eksctl"
                (cli.modifyNodegroupArgs region clusterName ngName "delete"
                   ["--wait"])
                (env h) (proc h)) as [[out0 err0] p1] eqn:Hrun.
    pose proof (Hok ngName (proc h)) as Hnone. rewrite Hrun in Hnone.
    cbn [fst snd] in Hnone. subst err0.
    destruct (IH (mkHost (env h) (removed h) p1) Hok) as (p' & Hrest).
    exists p'.
    rewrite (bind_Pass _ _ _ None (mkHost (env h) (removed h) p1)).
    + exact Hrest.
    + rewrite (bind_Pass _ _ _ _ _ (run_result _ _ _ _ _ Hrun)). reflexivity.
Qed.

(** What the wrappers make of an invocation for which [proc.RunW] reports an
    error: each of the five wrappers that return only an error returns an
    error whose message includes the captured output, and so does
    [DeleteEKSClusterOnAWS] when its own deletion of the cluster fails,
    whatever was listed and deleted before; [GetFromEKS] returns the error
    of its shell invocation as it is, unannotated, next to the trimmed
    output. *)
Lemma cli_failures_reported (h : Host P) (out : string) (err : error) (p' : P) :
  (forall region clusterName k8sVersion nodes tags extraArgs h1,
      SetTempKubeConfig clusterName h = (Pass tt, h1) ->
      RunW "eksctl"
           (cli.createClusterArgs SelectorFromSet region clusterName k8sVersion
              nodes tags extraArgs)
           (env h1) (proc h1) = ((out, Some err), p') ->
      exists e,
        fst (cli.CreateEKSClusterOnAWS RunW SetTempKubeConfig SelectorFromSet
               region clusterName k8sVersion nodes tags extraArgs h)
        = Pass (Some e) /\
        strings.Contains (Error e) out = true) /\
  (forall region clusterName upgradeToVersion,
      RunW "eksctl" (cli.upgradeClusterArgs region clusterName upgradeToVersion)
           (env h) (proc h) = ((out, Some err), p') ->
      exists e,
        fst (cli.UpgradeEKSClusterOnAWS RunW region clusterName upgradeToVersion h)
        = Pass (Some e) /\
        strings.Contains (Error e) out = true) /\
  (forall nodeName clusterName region extraArgs,
      RunW "eksctl" (cli.addNodeGroupArgs nodeName clusterName region extraArgs)
           (env h) (proc h) = ((out, Some err), p') ->
      exists e,
        fst (cli.AddNodeGroupOnAWS RunW nodeName clusterName region extraArgs h)
        = Pass (Some e) /\
        strings.Contains (Error e) out = true) /\
  (forall region clusterName ngName upgradeToVersion,
      RunW "eksctl"
           (cli.upgradeNodegroupArgs region clusterName ngName upgradeToVersion)
           (env h) (proc h) = ((out, Some err), p') ->
      exists e,
        fst (cli.UpgradeEKSNodegroupOnAWS RunW region clusterName ngName
               upgradeToVersion h)
        = Pass (Some e) /\
        strings.Contains (Error e) out = true) /\
  (forall region clusterName ngName operation extraArgs,
      RunW "eksctl"
           (cli.modifyNodegroupArgs region clusterName ngName operation extraArgs)
           (env h) (proc h) = ((out, Some err), p') ->
      exists e,
        fst (cli.ModifyEKSNodegroupOnAWS RunW region clusterName ngName operation
               extraArgs h)
        = Pass (Some e) /\
        strings.Contains (Error e) out = true) /\
  (forall region clusterName listing p1,
      let h1 := os.Setenv "KUBECONFIG"
                  (os.Getenv (DownstreamKubeconfig clusterName) h) h in
      RunW "bash"
           ["-c"; cli.getFromEKSCommand region clusterName "nodegroup" ".[].Name" []]
           (env h1) (proc h1) = ((listing, None), p1) ->
      (forall ngName p,
          snd (fst (RunW "eksctl"
                      (cli.modifyNodegroupArgs region clusterName ngName "delete"
                         ["--wait"])
                      (env h1) p)) = None) ->
      (forall p,
          fst (RunW "eksctl" (cli.deleteClusterArgs region clusterName) (env h1) p)
          = (out, Some err)) ->
      exists e,
        fst (cli.DeleteEKSClusterOnAWS RunW DownstreamKubeconfig region clusterName h)
        = Pass (Some e) /\
        strings.Contains (Error e) out = true) /\
  (forall region clusterName cmd query extraArgs,
      RunW "bash"
           ["-c"; cli.getFromEKSCommand region clusterName cmd query extraArgs]
           (env h) (proc h) = ((out, Some err), p') ->
      fst (cli.GetFromEKS RunW region clusterName cmd query extraArgs h)
      = Pass (strings.TrimSpace out, Some err)).
Proof.
  split; [|split; [|split; [|split; [|split; [|split]]]]].
  - intros region clusterName k8sVersion nodes tags extraArgs h1 Htemp Hrun.
    unfold cli.CreateEKSClusterOnAWS, withDefer.
    rewrite (bind_Pass _ _ _ _ _ Htemp).
    destruct (wrapped_run_failed "eksctl" "Failed to create cluster: " _ h1
                out err p' Hrun) as (e & He & Hout).
    exists e. split; [|exact Hout].
    destruct (bind _ _ h1) as [r h2]. exact He.
  - intros. eapply wrapped_run_failed; eassumption.
  - intros. eapply wrapped_run_failed; eassumption.
  - intros. eapply wrapped_run_failed; eassumption.
  - intros. eapply wrapped_run_failed; eassumption.
  - intros region clusterName listing p1 h1 Hlist Hdeleted Hfails.
    unfold cli.DeleteEKSClusterOnAWS, withDefer. fold h1.
    assert (Hlisted :
      cli.GetFromEKS RunW region clusterName "nodegroup" ".[].Name" [] h1
      = (Pass (strings.TrimSpace listing, None),
         mkHost (env h1) (removed h1) p1)).
    { unfold cli.GetFromEKS.
      rewrite (bind_Pass _ _ _ _ _ (run_result _ _ _ _ _ Hlist)). reflexivity. }
    rewrite (bind_Pass _ _ _ _ _ Hlisted). cbn beta iota.
    assert (Hloop : exists p2,
      (if negb (String.eqb (strings.TrimSpace listing) "")
       then cli.deleteNodegroups RunW region clusterName
              (strings.SplitLines (strings.TrimSpace listing))
       else ret None) (mkHost (env h1) (removed h1) p1)
      = (Pass None, mkHost (env h1) (removed h1) p2)).
    { destruct (negb (String.eqb (strings.TrimSpace listing) "")).
      - apply (deleteNodegroups_succeed region clusterName _
                 (mkHost (env h1) (removed h1) p1) Hdeleted).
      - exists p1. reflexivity. }
    destruct Hloop as (p2 & Hloop).
    rewrite (bind_Pass _ _ _ _ _ Hloop). cbn beta iota.
    destruct (RunW "eksctl" (cli.deleteClusterArgs region clusterName)
                (env h1) p2) as [r p3] eqn:Hrun.
    pose proof (Hfails p2) as Hr. rewrite Hrun in Hr. cbn [fst] in Hr. subst r.
    destruct (wrapped_run_failed "eksctl" "Failed to delete cluster: "
                (cli.deleteClusterArgs region clusterName)
                (mkHost (env h1) (removed h1) p2) out err p3 Hrun)
      as (e & He & Hout).
    exists e. split; [|exact Hout].
    destruct (bind _ _ (mkHost (env h1) (removed h1) p2)) as [r h2]. exact He.
  - intros region clusterName cmd query extraArgs Hrun.
    unfold cli.GetFromEKS.
    rewrite (bind_Pass _ _ _ _ _ (run_result _ _ _ _ _ Hrun)). reflexivity.
Qed.

End CliFacts.

(** C7 on a host where KUBECONFIG was not set: it reads as empty before and
    after, although the restore has by then set it to the empty string. *)
Example KUBECONFIG_unset_reads_empty :
  let h' := snd (cli.CreateEKSClusterOnAWS CliExamples.quietRunW
                   CliExamples.SetTempKubeConfig CliExamples.SelectorFromSet
                   "us-west-2" "auto-eks-hp-ci" "1.29" "1" ∅ []
                   CliExamples.bareHost) in
  os.Getenv "KUBECONFIG" CliExamples.bareHost = "" /\
  os.Getenv "KUBECONFIG" h' = "" /\
  env CliExamples.bareHost !! "KUBECONFIG" = None /\
  env h' !! "KUBECONFIG" = Some "".
Proof. vm_compute. repeat split; reflexivity. Qed.

(** The wrappers at work on a CLI that fails. *)
Lemma cli_failures_reported_on_failingRunW :
  exists e,
    fst (cli.UpgradeEKSClusterOnAWS CliExamples.failingRunW
           "us-west-2" "auto-eks-hp-ci" "1.30" CliExamples.host)
    = Pass (Some e) /\
    strings.Contains (Error e)
      ("Error: unable to describe cluster control plane" +:+ String "010"%char "")
    = true.
Proof.
  apply (proj1 (proj2 (cli_failures_reported CliExamples.failingRunW
                         CliExamples.SetTempKubeConfig CliExamples.DownstreamKubeconfig
                         CliExamples.SelectorFromSet
                         CliExamples.host _ (New "exit status 1") tt))
           "us-west-2" "auto-eks-hp-ci" "1.30").
  reflexivity.
Qed.

(** When the shell invocation itself fails, [GetFromEKS] returns the bare
    error, whose message does not include the captured output; and
    [DeleteEKSClusterOnAWS], which lists the node groups through it, then
    returns that error under a fixed message only. *)
Lemma GetFromEKS_error_not_annotated :
  exists out e e',
    fst (cli.GetFromEKS CliExamples.failingRunW
           "us-west-2" "auto-eks-hp-ci" "nodegroup" ".[].Name" [] CliExamples.host)
    = Pass (out, Some e) /\
    out = "Error: unable to describe cluster control plane" /\
    Error e = "exit status 1" /\
    strings.Contains (Error e) out = false /\
    fst (cli.DeleteEKSClusterOnAWS CliExamples.failingRunW
           CliExamples.DownstreamKubeconfig "us-west-2" "auto-eks-hp-ci"
           CliExamples.host)
    = Pass (Some e') /\
    Error e' = "Failed to list nodegroup for deletion: exit status 1" /\
    strings.Contains (Error e') out = false.
Proof.
  eexists _, _, _. vm_compute. repeat split; reflexivity.
Qed.

(** C6.  The code at the failing input: a host on which the provider CLI
    exits with status 1.  [ModifyEKSNodegroupOnAWS], which runs [eksctl]
    directly, returns an error annotated with the captured output, as the
    claim says.  [GetFromEKS], which runs it by [bash -c] on the left of a
    pipe, returns the complaint as if it were the answer to the query,
    together with a nil error: the failure is swallowed.
    [DeleteEKSClusterOnAWS] then takes the complaint for the name of a node
    group and asks for its deletion. *)
Theorem GetFromEKS_swallows_provider_failure :
  let printed := MoreExamples.complaint +:+ String "010"%char "" in
  (exists e,
      fst (cli.ModifyEKSNodegroupOnAWS MoreExamples.expiredRunW
             "us-west-2" "auto-eks-hp-ci" "ranchernodes" "delete" ["--wait"]
             CliExamples.host)
      = Pass (Some e) /\
      Error e = "Failed to modify nodegroup: " +:+ printed +:+ ": exit status 1" /\
      strings.Contains (Error e) printed = true) /\
  fst (cli.GetFromEKS MoreExamples.expiredRunW
         "us-west-2" "auto-eks-hp-ci" "nodegroup" ".[].Name" [] CliExamples.host)
  = Pass (MoreExamples.complaint, None) /\
  (exists e h',
      cli.DeleteEKSClusterOnAWS (cli.traced MoreExamples.expiredRunW)
        CliExamples.DownstreamKubeconfig "us-west-2" "auto-eks-hp-ci"
        MoreExamples.tracedHost
      = (Pass (Some e), h') /\
      snd (proc h')
      = [cli.listingInvocation "us-west-2" "auto-eks-hp-ci" "/tmp/auto-eks-hp-ci";
         cli.deletionInvocation "us-west-2" "auto-eks-hp-ci" "/tmp/auto-eks-hp-ci"
           MoreExamples.complaint]).
Proof.
  cbn zeta. split; [|split].
  - eexists. vm_compute. repeat split; reflexivity.
  - vm_compute. reflexivity.
  - eexists _, _. vm_compute. split; reflexivity.
Qed.

(** ** Waiting for a version upgrade *)
Section VersionFacts.
Context {Api : Type}.
Variable SetTimeout : time.Duration -> time.Duration.

Lemma Equal_spec (expected actual : string) :
  gomega.Equal expected actual = true <-> actual = expected.
Proof. unfold gomega.Equal. apply String.eqb_eq. Qed.

(** What the probe of the upstream version hands back is the upstream
    version of the cluster it has just fetched. *)
Lemma upstreamVersionProbe_Pass_inv (client : Client Api) l0 s0 fetched version s1 :
  helper.upstreamVersionProbe client l0 s0 = (Pass (fetched, version), s1) ->
  exists status upstream,
    EKSStatus fetched = Some status /\
    UpstreamSpec status = Some upstream /\
    KubernetesVersion upstream = Some version.
Proof.
  unfold helper.upstreamVersionProbe, helper.upstreamSpec. intros Hprobe.
  apply bind_Pass_inv in Hprobe as (c & s2 & _ & Hprobe).
  apply bind_Pass_inv in Hprobe as (upstream & s3 & Hupstream & Hprobe).
  apply bind_Pass_inv in Hupstream as (status & s4 & Hstatus & Hupstream).
  apply deref_Pass_inv in Hstatus as [Hstatus _].
  apply deref_Pass_inv in Hupstream as [Hupstream _].
  apply bind_Pass_inv in Hprobe as (v & s5 & Hversion & Hret).
  apply deref_Pass_inv in Hversion as [Hversion _].
  cbv [ret] in Hret. injection Hret as Hc Hv _. subst c v.
  exists status, upstream. repeat split; assumption.
Qed.

Lemma upstreamVersion_poll_Pass_inv (win : ConvergenceWindow) (client : Client Api)
    (upgradeToVersion : string) (cluster fetched : Cluster) (w w' : World Api) :
  Should win (helper.upstreamVersionProbe client) (gomega.Equal upgradeToVersion)
         cluster w = (Pass fetched, w') ->
  exists status upstream,
    EKSStatus fetched = Some status /\
    UpstreamSpec status = Some upstream /\
    KubernetesVersion upstream = Some upgradeToVersion.
Proof.
  intros Hpoll.
  apply Should_Pass_inv in Hpoll as (version & l0 & s0 & Hprobe & Hequal).
  apply Equal_spec in Hequal. subst version.
  exact (upstreamVersionProbe_Pass_inv _ _ _ _ _ _ Hprobe).
Qed.

(** C2, as the code has it.  The polls that wait for a cluster version
    upgrade to appear in the upstream spec are satisfied by exact string
    equality: their matcher holds exactly when the observed string is the
    desired string, and a passing run of [UpgradeClusterKubernetesVersion]
    with the configuration check, or of the control-plane poll of
    [syncK8sVersionUpgradeCheck], ends on a cluster whose upstream version
    is the very string asked for. *)
Theorem upgrade_polls_compare_by_string_equality :
  (forall desired observed,
      gomega.Equal desired observed = true <-> observed = desired) /\
  (forall cluster upgradeToVersion (client : Client Api) w upgraded err w',
      helper.UpgradeClusterKubernetesVersion SetTimeout cluster upgradeToVersion
        client true w = (Pass (upgraded, err), w') ->
      exists status upstream,
        EKSStatus upgraded = Some status /\
        UpstreamSpec status = Some upstream /\
        KubernetesVersion upstream = Some upgradeToVersion) /\
  (forall cluster (client : Client Api) upgradeToVersion w upgraded w',
      p1.syncK8sVersionUpgradeCheck_poll SetTimeout cluster client
        upgradeToVersion w = (Pass upgraded, w') ->
      exists status upstream,
        EKSStatus upgraded = Some status /\
        UpstreamSpec status = Some upstream /\
        KubernetesVersion upstream = Some upgradeToVersion).
Proof.
  split; [exact Equal_spec | split].
  - intros cluster upgradeToVersion client w upgraded err w' Hrun.
    unfold helper.UpgradeClusterKubernetesVersion in Hrun.
    apply bind_Pass_inv in Hrun as (config & w1 & _ & Hrun).
    apply bind_Pass_inv in Hrun as (currentVersion & w2 & _ & Hrun).
    apply bind_Pass_inv in Hrun as ([answered err'] & w3 & _ & Hrun).
    apply bind_Pass_inv in Hrun as (u1 & w4 & _ & Hrun).
    apply bind_Pass_inv in Hrun as (config' & w5 & _ & Hrun).
    apply bind_Pass_inv in Hrun as (version & w6 & _ & Hrun).
    apply bind_Pass_inv in Hrun as (u2 & w7 & _ & Hrun).
    apply bind_Pass_inv in Hrun as (u3 & w8 & _ & Hrun).
    apply bind_Pass_inv in Hrun as (fetched & w9 & Hpoll & Hrun).
    apply bind_Pass_inv in Hrun as (upstream' & w10 & _ & Hrun).
    apply bind_Pass_inv in Hrun as (u4 & w11 & _ & Hret).
    cbv [ret] in Hret. injection Hret as Hfetched _ _. subst fetched.
    exact (upstreamVersion_poll_Pass_inv _ _ _ _ _ _ _ Hpoll).
  - intros cluster client upgradeToVersion w upgraded w' Hrun.
    exact (upstreamVersion_poll_Pass_inv _ _ _ _ _ _ _ Hrun).
Qed.

End VersionFacts.

(** The same theorem at work: a cluster at 1.29 whose upstream has reached
    1.30 passes the upgrade to "1.30" on the first sample. *)
Lemma upgrade_polls_compare_by_string_equality_witness :
  exists status upstream,
    EKSStatus (UpgradeExamples.clusterAt "1.30" "1.29") = Some status /\
    UpstreamSpec status = Some upstream /\
    KubernetesVersion upstream = Some "1.30".
Proof.
  apply (proj1 (proj2 (upgrade_polls_compare_by_string_equality Examples.unscaled))
           (UpgradeExamples.clusterAt "1.29" "1.29") "1.30"
           (Examples.steadyClient (UpgradeExamples.clusterAt "1.30" "1.29"))
           Examples.start (UpgradeExamples.clusterAt "1.30" "1.29") None
           (mkWorld tt 1)).
  vm_compute. reflexivity.
Defined.

(** C2 as stated fails: with "1.29" desired and "1.30" observed upstream, the
    numeric ordering is satisfied, yet the matcher of the poll is not, and
    [UpgradeClusterKubernetesVersion] samples the upstream 31 times over
    fifteen minutes and ends in a convergence timeout. *)
Lemma upgrade_poll_is_not_numeric_ordering :
  helpers.upgradeSatisfied "1.29" "1.30" = true /\
  gomega.Equal "1.29" "1.30" = false /\
  helper.UpgradeClusterKubernetesVersion Examples.unscaled
    (UpgradeExamples.clusterAt "1.28" "1.28") "1.29"
    (Examples.steadyClient (UpgradeExamples.clusterAt "1.30" "1.28"))
    true Examples.start
  = (Abort ConvergenceTimeout, mkWorld tt 31).
Proof. vm_compute. repeat split; reflexivity. Qed.

(** ** The poller and the mutators on concrete runs *)

(** The poll of [ScaleNodeGroup] against an upstream that stays at one node
    while two are asked for: 15 minutes at 10 seconds. *)
Lemma Eventually_sample_bounds_witness :
  let win := mkWindow (15 * time.Minute) (10 * time.Second) in
  let res := Eventually win
               (helper.upstreamDesiredSizeProbe (Examples.steadyClient Examples.cluster) 2)
               gomega.BeTrue Examples.cluster Examples.start in
  let samples := Z.of_nat (sampled (snd res)) - Z.of_nat (sampled Examples.start) in
  fst (fst res) <> Stalled /\
  1 <= samples <= ceilDiv (timeout win) (pollInterval win) + 1.
Proof.
  apply (Eventually_sample_bounds
           (mkWindow (15 * time.Minute) (10 * time.Second))
           (helper.upstreamDesiredSizeProbe (Examples.steadyClient Examples.cluster) 2)
           gomega.BeTrue Examples.cluster Examples.start).
  - reflexivity.
  - discriminate.
Defined.

(** That poll takes its full 91 samples before it gives up. *)
Example ScaleNodeGroup_poll_times_out :
  let win := mkWindow (15 * time.Minute) (10 * time.Second) in
  let res := Eventually win
               (helper.upstreamDesiredSizeProbe (Examples.steadyClient Examples.cluster) 2)
               gomega.BeTrue Examples.cluster Examples.start in
  fst (fst res) = TimeoutExceeded false /\
  sampled (snd res) = 91%nat /\
  ceilDiv (timeout win) (pollInterval win) + 1 = 91.
Proof. vm_compute. repeat split; reflexivity. Qed.

(** The poll of [ScaleNodeGroup] on a cluster that already has the node count
    asked for. *)
Lemma Eventually_first_sample_witness :
  Eventually (mkWindow (15 * time.Minute) (10 * time.Second))
    (helper.upstreamDesiredSizeProbe (Examples.steadyClient Examples.cluster) 1)
    gomega.BeTrue Examples.cluster Examples.start
  = ((Converged true, Examples.cluster), mkWorld tt 1).
Proof.
  apply (Eventually_first_sample
           (mkWindow (15 * time.Minute) (10 * time.Second))
           (helper.upstreamDesiredSizeProbe (Examples.steadyClient Examples.cluster) 1)
           gomega.BeTrue Examples.cluster Examples.start Examples.cluster true tt).
  - reflexivity.
  - reflexivity.
Defined.

Lemma ScaleNodeGroup_sets_desired_and_max_witness :
  exists ngs',
    let upgraded :=
      setEKSConfig
        (setNodeGroups ngs'
           (Examples.config "1.29" [Examples.nodeGroup "ranchernodes" 1 2] true true))
        Examples.cluster in
    helper.ScaleNodeGroup_desired Examples.cluster 3 Examples.start
    = (Pass upgraded, Examples.start) /\
    length ngs' = 1%nat /\
    (forall i ng,
        [Examples.nodeGroup "ranchernodes" 1 2] !! i = Some ng ->
        exists ng', ngs' !! i = Some ng' /\
          DesiredSize ng' = Some 3 /\
          MaxSize ng' = Some 3 /\
          NodegroupName ng' = NodegroupName ng /\
          Version ng' = Version ng /\
          MinSize ng' = MinSize ng /\
          (MaxSize ng <> Some 3 -> ng' <> ng)) /\
    helper.ScaleNodeGroup Examples.unscaled Examples.cluster
      (Examples.steadyClient Examples.cluster) 3 false false Examples.start
    = (let* (answered, err) :=
         call (Cluster_Update (Examples.steadyClient Examples.cluster) upgraded upgraded) in
       let* _ := ExpectNil err in
       ret (answered, None)) Examples.start.
Proof.
  apply (ScaleNodeGroup_sets_desired_and_max Examples.unscaled Examples.cluster
           (Examples.steadyClient Examples.cluster) 3
           (Examples.config "1.29" [Examples.nodeGroup "ranchernodes" 1 2] true true)
           Examples.start).
  reflexivity.
Defined.

Lemma DeleteNodeGroup_keeps_first_witness :
  let config :=
    Examples.config "1.29" [Examples.nodeGroup "ranchernodes" 1 2] true true in
  exists first,
    let upgraded := setEKSConfig (setNodeGroups [first] config) Examples.cluster in
    head (NodeGroups config) = Some first /\
    helper.DeleteNodeGroup_desired MoreExamples.exactCapacity Examples.cluster Examples.start
    = (Pass (upgraded, [first]), Examples.start) /\
    forall answered err s',
      Cluster_Update (Examples.steadyClient Examples.cluster) upgraded upgraded
        (api Examples.start) = ((answered, err), s') ->
      EKSConfig answered = EKSConfig upgraded ->
      (forall r w',
          helper.DeleteNodeGroup Examples.unscaled MoreExamples.exactCapacity Examples.cluster
            (Examples.steadyClient Examples.cluster) true true Examples.start
          = (Pass r, w') ->
          length (NodeGroups config) = 2%nat) /\
      (err = None -> length (NodeGroups config) <> 2%nat ->
       helper.DeleteNodeGroup Examples.unscaled MoreExamples.exactCapacity Examples.cluster
         (Examples.steadyClient Examples.cluster) true true Examples.start
       = (Abort (AssertionFailed "desired nodegroup count"),
          mkWorld s' (sampled Examples.start))).
Proof.
  apply (DeleteNodeGroup_keeps_first Examples.unscaled MoreExamples.exactCapacity Examples.cluster
           (Examples.steadyClient Examples.cluster) true
           (Examples.config "1.29" [Examples.nodeGroup "ranchernodes" 1 2] true true)
           Examples.start).
  - reflexivity.
  - cbn. lia.
Defined.

(** [DeleteNodeGroup] on three node groups keeps the first and then fails its
    own length check; on two it passes. *)
Example DeleteNodeGroup_on_three_and_two :
  let ng := Examples.nodeGroup in
  let three := Examples.config "1.29" [ng "a" 1 2; ng "b" 1 2; ng "c" 1 2] true true in
  let two := Examples.config "1.29" [ng "a" 1 2; ng "b" 1 2] true true in
  let one := Examples.config "1.29" [ng "a" 1 2] true true in
  fst (helper.DeleteNodeGroup Examples.unscaled MoreExamples.exactCapacity (Examples.clusterOf three three)
         (Examples.steadyClient (Examples.clusterOf one one)) true true Examples.start)
  = Abort (AssertionFailed "desired nodegroup count") /\
  fst (helper.DeleteNodeGroup Examples.unscaled MoreExamples.exactCapacity (Examples.clusterOf two two)
         (Examples.steadyClient (Examples.clusterOf one one)) true true Examples.start)
  = Pass (Examples.clusterOf one one, None).
Proof. vm_compute. split; reflexivity. Qed.

(** ** More of the helpers: the lists they build *)
Section ListFacts.
Variable AppendRandomString : nat -> string -> string.

(** What one iteration of [AddNodeGroupToConfig] makes of the template. *)
Lemma addNodeGroups_spec (template : eks.NodeGroupConfig) (name : string)
    (i n : nat) (acc : list eks.NodeGroupConfig) :
  helper.addNodeGroups AppendRandomString template name i n acc
  = rev (map (fun k => setConfigNodegroupName (Some (AppendRandomString k name)) template)
             (seq i n)) ++ acc.
Proof.
  revert i acc. induction n as [|n IH]; intros i acc; [reflexivity|].
  cbn [helper.addNodeGroups seq map rev]. rewrite IH, <- app_assoc. reflexivity.
Qed.

(** X1.  [AddNodeGroupToConfig] does not add to the node groups of the
    configuration: for [ngCount >= 1] it replaces them by [ngCount] copies of
    the first one, which differ from it in their drawn names only; the other
    node groups of the configuration are dropped and no other field of the
    configuration changes. *)
Theorem AddNodeGroupToConfig_replaces_by_copies {W : Type}
    (eksClusterConfig : eks.ClusterConfig) (ngCount : Z)
    (first : eks.NodeGroupConfig) (others : list eks.NodeGroupConfig)
    (name : string) (w : W) :
  eks.NodeGroupsConfig eksClusterConfig = Some (first :: others) ->
  eks.NodegroupName first = Some name ->
  1 <= ngCount ->
  exists ngs,
    helper.AddNodeGroupToConfig AppendRandomString eksClusterConfig ngCount w
    = (Pass (setNodeGroupsConfig (Some ngs) eksClusterConfig, None), w) /\
    Z.of_nat (length ngs) = ngCount /\
    forall ng, In ng ngs ->
      exists k, (1 <= k)%nat /\ Z.of_nat k <= ngCount /\
        ng = setConfigNodegroupName (Some (AppendRandomString k name)) first.
Proof.
  intros Hngs Hname Hcount.
  exists (helper.addNodeGroups AppendRandomString first name 1 (Z.to_nat ngCount) []).
  split; [|split].
  - unfold helper.AddNodeGroupToConfig. rewrite Hngs.
    cbv [deref bind ret]. destruct (Z.ltb_spec ngCount 1) as [Hlt|_]; [lia|].
    rewrite Hname. reflexivity.
  - rewrite addNodeGroups_spec, app_nil_r, length_rev, length_map, length_seq. lia.
  - intros ng Hin. rewrite addNodeGroups_spec, app_nil_r in Hin.
    apply in_rev in Hin. apply in_map_iff in Hin as (k & <- & Hk).
    apply in_seq in Hk. exists k. repeat split; lia.
Qed.

(** X2.  The edges of [AddNodeGroupToConfig]: a count below one leaves an
    empty (but present) list whatever the template holds; a configuration
    without a node group list aborts on the nil dereference whatever the
    count; with a count of at least one, an empty template aborts on the
    index and a first node group without a name on the nil dereference. *)
Theorem AddNodeGroupToConfig_edges {W : Type} (eksClusterConfig : eks.ClusterConfig)
    (ngCount : Z) (w : W) :
  (forall template,
      eks.NodeGroupsConfig eksClusterConfig = Some template -> ngCount < 1 ->
      helper.AddNodeGroupToConfig AppendRandomString eksClusterConfig ngCount w
      = (Pass (setNodeGroupsConfig (Some []) eksClusterConfig, None), w)) /\
  (eks.NodeGroupsConfig eksClusterConfig = None ->
   helper.AddNodeGroupToConfig AppendRandomString eksClusterConfig ngCount w
   = (Abort NilDereference, w)) /\
  (eks.NodeGroupsConfig eksClusterConfig = Some [] -> 1 <= ngCount ->
   helper.AddNodeGroupToConfig AppendRandomString eksClusterConfig ngCount w
   = (Abort IndexOutOfRange, w)) /\
  (forall first others,
      eks.NodeGroupsConfig eksClusterConfig = Some (first :: others) ->
      eks.NodegroupName first = None -> 1 <= ngCount ->
      helper.AddNodeGroupToConfig AppendRandomString eksClusterConfig ngCount w
      = (Abort NilDereference, w)).
Proof.
  unfold helper.AddNodeGroupToConfig. repeat split.
  - intros template -> Hlt. cbv [deref bind ret].
    destruct (Z.ltb_spec ngCount 1); [reflexivity | lia].
  - intros ->. reflexivity.
  - intros -> Hge. cbv [deref bind ret fail].
    destruct (Z.ltb_spec ngCount 1); [lia | reflexivity].
  - intros first others -> Hname Hge. cbv [deref bind ret fail].
    destruct (Z.ltb_spec ngCount 1); [lia|]. rewrite Hname. reflexivity.
Qed.

(** The loop of [AddNodeGroup] puts the new node groups, last drawn first,
    in front of the list it started from. *)
Lemma prependNodeGroups_spec (ngTemplate : NodeGroup) (i n : nat)
    (ngs : list NodeGroup) :
  helper.prependNodeGroups AppendRandomString ngTemplate i n ngs
  = rev (map (fun k =>
                mkNodeGroup (Some (AppendRandomString k "ng")) None
                  (DesiredSize ngTemplate) (MaxSize ngTemplate)
                  (MinSize ngTemplate) (DiskSize ngTemplate)
                  (InstanceType ngTemplate))
             (seq i n)) ++ ngs.
Proof.
  revert i ngs. induction n as [|n IH]; intros i ngs; [reflexivity|].
  cbn [helper.prependNodeGroups seq map rev]. rewrite IH, <- app_assoc. reflexivity.
Qed.

(** X3.  [AddNodeGroup] submits the original node groups, in their order,
    behind the new ones: as many new node groups as [increaseBy] asks for
    (none when it is zero or negative), each with the template's sizes, disk
    size and instance type, a drawn name and no version. *)
Theorem AddNodeGroup_prepends {W : Type} (LoadSpecConfig : EKSClusterConfigSpec)
    (cluster : Cluster) (increaseBy : Z) (config : EKSClusterConfigSpec)
    (ngTemplate : NodeGroup) (rest : list NodeGroup) (w : W) :
  EKSConfig cluster = Some config ->
  NodeGroups LoadSpecConfig = ngTemplate :: rest ->
  exists added,
    let updateNodeGroupsList := added ++ NodeGroups config in
    helper.AddNodeGroup_desired AppendRandomString LoadSpecConfig cluster increaseBy w
    = (Pass (setEKSConfig (setNodeGroups updateNodeGroupsList config) cluster,
             updateNodeGroupsList), w) /\
    length added = Z.to_nat increaseBy /\
    forall ng, In ng added ->
      Version ng = None /\
      DesiredSize ng = DesiredSize ngTemplate /\
      MaxSize ng = MaxSize ngTemplate /\
      MinSize ng = MinSize ngTemplate /\
      DiskSize ng = DiskSize ngTemplate /\
      InstanceType ng = InstanceType ngTemplate /\
      exists k, NodegroupName ng = Some (AppendRandomString k "ng").
Proof.
  intros Hconfig Htemplate.
  eexists (rev (map _ (seq 1 (Z.to_nat increaseBy)))).
  cbn zeta. split; [|split].
  - unfold helper.AddNodeGroup_desired. rewrite Hconfig, Htemplate.
    cbv [deref bind ret]. rewrite prependNodeGroups_spec. reflexivity.
  - rewrite length_rev, length_map, length_seq. reflexivity.
  - intros ng Hin. apply in_rev in Hin. apply in_map_iff in Hin as (k & <- & _).
    cbn. repeat split. exists k. reflexivity.
Qed.

End ListFacts.

Section LoopFacts.

Lemma alter_at_app {A} (f : A -> A) (done : list A) (x : A) (rest : list A) :
  alter f (length done) (done ++ x :: rest) = done ++ f x :: rest.
Proof.
  replace (length done) with (length done + 0)%nat by lia.
  rewrite alter_app_r. reflexivity.
Qed.

Lemma upgrade_loop (v : string) (rest done : list NodeGroup) :
  foldl (fun ngs i => alter (helper.setVersion (Some v)) i ngs)
        (done ++ rest) (seq (length done) (length rest))
  = done ++ map (helper.setVersion (Some v)) rest.
Proof.
  revert done. induction rest as [|ng rest IH]; intros done; [reflexivity|].
  cbn [length seq foldl map]. rewrite alter_at_app.
  specialize (IH (done ++ [helper.setVersion (Some v) ng])).
  rewrite length_app, Nat.add_1_r, <- !app_assoc in IH. exact IH.
Qed.

Lemma upgradeNodeGroups_map (v : string) (ngs : list NodeGroup) :
  helper.upgradeNodeGroups v ngs = map (helper.setVersion (Some v)) ngs.
Proof. exact (upgrade_loop v ngs []). Qed.

(** X4.  Scaling composes by "last one wins": the configuration
    [ScaleNodeGroup] submits for a cluster it has already scaled is the one
    it submits for the original cluster; in particular scaling twice to the
    same count changes nothing more. *)
Theorem ScaleNodeGroup_desired_last_wins {W : Type} (cluster scaledOnce : Cluster)
    (n m : Z) (w w' : W) :
  helper.ScaleNodeGroup_desired cluster n w = (Pass scaledOnce, w') ->
  helper.ScaleNodeGroup_desired scaledOnce m w'
  = helper.ScaleNodeGroup_desired cluster m w'.
Proof.
  unfold helper.ScaleNodeGroup_desired.
  destruct (EKSConfig cluster) as [config|]; [|discriminate].
  cbv [deref bind ret]. intros [= <- <-].
  cbn [EKSConfig setEKSConfig NodeGroups setNodeGroups].
  rewrite !scaleNodeGroups_map, map_map.
  rewrite (map_ext _ (helper.scaled m)) by reflexivity.
  reflexivity.
Qed.

(** X5.  [UpgradeNodeKubernetesVersion] submits the same node groups in the
    same order with every version set to the target; the sizes and names of
    the node groups and the version of the control plane stay as they were. *)
Theorem UpgradeNodeKubernetesVersion_sets_every_version {W : Type}
    (cluster : Cluster) (upgradeToVersion : string)
    (config : EKSClusterConfigSpec) (w : W) :
  EKSConfig cluster = Some config ->
  exists ngs' upgraded,
    helper.UpgradeNodeKubernetesVersion_desired cluster upgradeToVersion w
    = (Pass upgraded, w) /\
    EKSConfig upgraded = Some (setNodeGroups ngs' config) /\
    KubernetesVersion (setNodeGroups ngs' config) = KubernetesVersion config /\
    length ngs' = length (NodeGroups config) /\
    forall i ng, NodeGroups config !! i = Some ng ->
      exists ng', ngs' !! i = Some ng' /\
        Version ng' = Some upgradeToVersion /\
        NodegroupName ng' = NodegroupName ng /\
        DesiredSize ng' = DesiredSize ng /\
        MaxSize ng' = MaxSize ng /\
        MinSize ng' = MinSize ng.
Proof.
  intros Hconfig.
  exists (map (helper.setVersion (Some upgradeToVersion)) (NodeGroups config)).
  eexists. split; [|split; [|split; [|split]]].
  - unfold helper.UpgradeNodeKubernetesVersion_desired. rewrite Hconfig.
    cbv [deref bind ret]. rewrite upgradeNodeGroups_map. reflexivity.
  - reflexivity.
  - reflexivity.
  - apply length_map.
  - intros i ng Hi. exists (helper.setVersion (Some upgradeToVersion) ng).
    rewrite list_lookup_fmap, Hi. repeat split.
Qed.

End LoopFacts.

(** ** More of the helpers: what their probes and checks establish *)
Section ProbeFacts.
Context {Api : Type}.
Variable SetTimeout : time.Duration -> time.Duration.

Lemma forRange_Pass_inv {W A} (xs : list A) (body : A -> Spec W unit) (w w' : W) u :
  forRange xs body w = (Pass u, w') ->
  forall x, In x xs -> exists w1 w2, body x w1 = (Pass tt, w2).
Proof.
  revert w. induction xs as [|x xs IH]; intros w Hrun y Hin; [destruct Hin|].
  cbn [forRange] in Hrun.
  apply bind_Pass_inv in Hrun as ([] & w1 & Hbody & Hrest).
  destruct Hin as [<-|Hin]; [exists w, w1; exact Hbody | exact (IH _ Hrest _ Hin)].
Qed.

Lemma expectNodeGroupVersions_Pass_inv {W} (ngs : list NodeGroup) (version : string)
    (w w' : W) u :
  helper.expectNodeGroupVersions ngs version w = (Pass u, w') ->
  forall ng, In ng ngs -> Version ng = Some version.
Proof.
  intros Hrun ng Hin.
  destruct (forRange_Pass_inv _ _ _ _ _ Hrun ng Hin) as (w1 & w2 & Hbody).
  apply bind_Pass_inv in Hbody as (v & w3 & Hderef & Hexpect).
  apply deref_Pass_inv in Hderef as [-> _].
  apply Expect_Pass_inv in Hexpect as [Hequal _].
  apply String.eqb_eq in Hequal. congruence.
Qed.

Lemma allDesiredSize_true_iff {W : Type} (nodeCount : Z) (ngs : list NodeGroup)
    (w : W) :
  helper.allDesiredSize nodeCount ngs w = (Pass true, w) <->
  Forall (fun ng => DesiredSize ng = Some nodeCount) ngs.
Proof.
  induction ngs as [|ng ngs IH]; [split; [constructor | reflexivity]|].
  cbn [helper.allDesiredSize]. cbv [deref bind ret fail].
  destruct (DesiredSize ng) as [size|] eqn:Hsize.
  - destruct (Z.eqb_spec size nodeCount) as [->|Hne]; cbn [negb].
    + rewrite IH. split; [intros H; constructor; [exact Hsize | exact H]|].
      intros H. inversion H. assumption.
    + split; [discriminate|]. intros H. inversion H. congruence.
  - split; [discriminate|]. intros H. inversion H. congruence.
Qed.

(** X6.  The loop inside the probe of [ScaleNodeGroup] answers true exactly
    when every node group has the desired size asked for, so also for an
    upstream without node groups; it answers false at the first node group
    of another size without looking at the ones behind it; and it aborts,
    on a nil dereference only, when it meets a node group without a desired
    size before that. *)
Theorem allDesiredSize_spec {W : Type} (nodeCount : Z) (ngs : list NodeGroup) (w : W) :
  (helper.allDesiredSize nodeCount ngs w = (Pass true, w) <->
   Forall (fun ng => DesiredSize ng = Some nodeCount) ngs) /\
  (forall before ng behind size,
      ngs = before ++ ng :: behind ->
      Forall (fun ng => DesiredSize ng = Some nodeCount) before ->
      DesiredSize ng = Some size -> size <> nodeCount ->
      helper.allDesiredSize nodeCount ngs w = (Pass false, w)) /\
  (forall f w', helper.allDesiredSize nodeCount ngs w = (Abort f, w') ->
      f = NilDereference /\ exists ng, In ng ngs /\ DesiredSize ng = None).
Proof.
  split; [|split].
  - apply allDesiredSize_true_iff.
  - intros before ng behind size -> Hbefore Hsize Hne.
    induction Hbefore as [|b before Hb _ IH]; cbn [app helper.allDesiredSize].
    + cbv [deref bind ret]. rewrite Hsize.
      destruct (Z.eqb_spec size nodeCount); [contradiction | reflexivity].
    + cbv [deref bind ret]. rewrite Hb, Z.eqb_refl. exact IH.
  - induction ngs as [|ng ngs IH]; intros f w'; [discriminate|].
    cbn [helper.allDesiredSize]. cbv [deref bind ret fail].
    destruct (DesiredSize ng) as [size|] eqn:Hsize.
    + destruct (negb (size =? nodeCount)); [discriminate|].
      intros Habort. destruct (IH _ _ Habort) as (Hf & ng' & Hin & Hnone).
      split; [exact Hf|]. exists ng'. split; [right; exact Hin | exact Hnone].
    + intros [= <- <-]. split; [reflexivity|]. exists ng. split; [left; reflexivity | exact Hsize].
Qed.

(** The loop of the node-group version probes never aborts: a node group
    without a version counts as not upgraded. *)
Lemma allVersions_spec (upgradeToVersion : string) (ngs : list NodeGroup) :
  helper.allVersions upgradeToVersion ngs = true <->
  Forall (fun ng => Version ng = Some upgradeToVersion) ngs.
Proof.
  induction ngs as [|ng ngs IH]; [split; [constructor | reflexivity]|].
  cbn [helper.allVersions].
  destruct (Version ng) as [v|] eqn:Hv.
  - destruct (String.eqb_spec v upgradeToVersion) as [->|Hne]; cbn [negb].
    + rewrite IH. split; [intros H; constructor; [exact Hv | exact H]|].
      intros H. inversion H. assumption.
    + split; [discriminate|]. intros H. inversion H. congruence.
  - split; [discriminate|]. intros H. inversion H. congruence.
Qed.

Lemma refetch_Pass_inv (client : Client Api) (cluster fetched : Cluster) (s s' : Api) :
  helper.refetch client cluster s = (Pass fetched, s') ->
  Cluster_ByID client (ID cluster) s = ((fetched, None), s').
Proof.
  unfold helper.refetch.
  destruct (Cluster_ByID client (ID cluster) s) as [[fetched' err] s1].
  destruct err; [discriminate|]. intros [= <- <-]. reflexivity.
Qed.

Lemma upstreamSpec_Pass_inv {W} (cluster : Cluster) (upstream : EKSClusterConfigSpec)
    (w w' : W) :
  helper.upstreamSpec cluster w = (Pass upstream, w') ->
  w' = w /\
  exists status, EKSStatus cluster = Some status /\ UpstreamSpec status = Some upstream.
Proof.
  unfold helper.upstreamSpec. intros Hrun.
  apply bind_Pass_inv in Hrun as (status & w1 & Hstatus & Hupstream).
  apply deref_Pass_inv in Hstatus as [Hstatus ->].
  apply deref_Pass_inv in Hupstream as [Hupstream ->].
  split; [reflexivity|]. exists status. split; assumption.
Qed.

(** X7.  A run of [ScaleNodeGroup] with the configuration check passes only
    on a cluster, fetched from the API at the last sample, whose every
    upstream node group has the desired size asked for; the error it
    returns is nil. *)
Theorem ScaleNodeGroup_checked_pass (cluster : Cluster) (client : Client Api)
    (nodeCount : Z) (wait : bool) (w w' : World Api) (scaledCluster : Cluster)
    (err : option error) :
  helper.ScaleNodeGroup SetTimeout cluster client nodeCount wait true w
  = (Pass (scaledCluster, err), w') ->
  err = None /\
  exists status upstream,
    EKSStatus scaledCluster = Some status /\
    UpstreamSpec status = Some upstream /\
    Forall (fun ng => DesiredSize ng = Some nodeCount) (NodeGroups upstream).
Proof.
  unfold helper.ScaleNodeGroup. intros Hrun.
  apply bind_Pass_inv in Hrun as (upgraded & w1 & _ & Hrun).
  apply bind_Pass_inv in Hrun as ([answered err'] & w2 & _ & Hrun).
  apply bind_Pass_inv in Hrun as (u1 & w3 & _ & Hrun).
  apply bind_Pass_inv in Hrun as (u2 & w4 & _ & Hrun).
  apply bind_Pass_inv in Hrun as (u3 & w5 & _ & Hrun).
  apply bind_Pass_inv in Hrun as (fetched & w6 & Hpoll & Hret).
  cbv [ret] in Hret. injection Hret as Hfetched Herr _. subst fetched err.
  split; [reflexivity|].
  apply Should_Pass_inv in Hpoll as (v & l0 & s0 & Hprobe & Hv).
  unfold helper.upstreamDesiredSizeProbe in Hprobe.
  apply bind_Pass_inv in Hprobe as (c & s1 & _ & Hprobe).
  apply bind_Pass_inv in Hprobe as (upstream & s2 & Hupstream & Hprobe).
  apply upstreamSpec_Pass_inv in Hupstream as (-> & status & Hstatus & Hup).
  apply bind_Pass_inv in Hprobe as (ok & s3 & Hall & Hret).
  cbv [ret] in Hret. injection Hret as Hc Hok _. subst c ok.
  unfold gomega.BeTrue in Hv. subst v.
  exists status, upstream. repeat split; [exact Hstatus | exact Hup |].
  assert (Hs : s3 = s1).
  { clear -Hall. revert Hall. generalize (NodeGroups upstream).
    intros ngs. induction ngs as [|ng ngs IH]; cbn [helper.allDesiredSize].
    - intros [= <-]. reflexivity.
    - cbv [deref bind ret fail]. destruct (DesiredSize ng); [|discriminate].
      destruct (negb (z =? nodeCount)); [discriminate | exact IH]. }
  subst s3. apply (proj1 (allDesiredSize_true_iff nodeCount (NodeGroups upstream) s1)).
  exact Hall.
Qed.

(** X8.  A run of [UpgradeClusterKubernetesVersion] with the configuration
    check passes only if the upgrade of the control plane left the node
    groups alone: in the cluster it returns, every upstream node group is
    still at the version the control plane had before the upgrade. *)
Theorem UpgradeClusterKubernetesVersion_checked_pass_keeps_nodegroups
    (cluster : Cluster) (upgradeToVersion currentVersion : string)
    (client : Client Api) (config : EKSClusterConfigSpec)
    (w w' : World Api) (upgraded : Cluster) (err : option error) :
  EKSConfig cluster = Some config ->
  KubernetesVersion config = Some currentVersion ->
  helper.UpgradeClusterKubernetesVersion SetTimeout cluster upgradeToVersion
    client true w = (Pass (upgraded, err), w') ->
  err = None /\
  exists status upstream,
    EKSStatus upgraded = Some status /\
    UpstreamSpec status = Some upstream /\
    Forall (fun ng => Version ng = Some currentVersion) (NodeGroups upstream).
Proof.
  intros Hconfig Hcurrent Hrun.
  unfold helper.UpgradeClusterKubernetesVersion in Hrun.
  rewrite Hconfig in Hrun. cbn [deref] in Hrun.
  apply bind_Pass_inv in Hrun as (config0 & w1 & Hc0 & Hrun).
  cbv [ret] in Hc0. injection Hc0 as <- <-.
  rewrite Hcurrent in Hrun. cbn [deref] in Hrun.
  apply bind_Pass_inv in Hrun as (current0 & w1 & Hc1 & Hrun).
  cbv [ret] in Hc1. injection Hc1 as <- <-.
  apply bind_Pass_inv in Hrun as ([answered err'] & w3 & _ & Hrun).
  apply bind_Pass_inv in Hrun as (u1 & w4 & _ & Hrun).
  apply bind_Pass_inv in Hrun as (config' & w5 & _ & Hrun).
  apply bind_Pass_inv in Hrun as (version & w6 & _ & Hrun).
  apply bind_Pass_inv in Hrun as (u2 & w7 & _ & Hrun).
  apply bind_Pass_inv in Hrun as (u3 & w8 & _ & Hrun).
  apply bind_Pass_inv in Hrun as (fetched & w9 & _ & Hrun).
  apply bind_Pass_inv in Hrun as (upstream & w10 & Hupstream & Hrun).
  apply bind_Pass_inv in Hrun as (u4 & w11 & Hversions & Hret).
  cbv [ret] in Hret. injection Hret as Hfetched Herr _. subst fetched err.
  apply upstreamSpec_Pass_inv in Hupstream as (_ & status & Hstatus & Hup).
  split; [reflexivity|]. exists status, upstream.
  repeat split; [exact Hstatus | exact Hup |].
  apply Forall_forall. intros ng Hin. apply list_elem_of_In in Hin.
  exact (expectNodeGroupVersions_Pass_inv _ _ _ _ _ Hversions ng Hin).
Qed.

(** X9.  Every passing run of [UpgradeNodeKubernetesVersion] has seen the
    API answer the update with all desired node groups at the target
    version; with the configuration check, the cluster it returns was
    fetched at the last sample and has every upstream node group at the
    target version. *)
Theorem UpgradeNodeKubernetesVersion_pass (cluster : Cluster)
    (upgradeToVersion : string) (client : Client Api)
    (wait checkClusterConfig : bool) (w w' : World Api)
    (upgraded : Cluster) (err : option error) :
  helper.UpgradeNodeKubernetesVersion SetTimeout cluster upgradeToVersion client
    wait checkClusterConfig w = (Pass (upgraded, err), w') ->
  err = None /\
  (exists submitted answered answeredConfig s',
      Cluster_Update client submitted submitted (api w) = ((answered, None), s') /\
      EKSConfig answered = Some answeredConfig /\
      Forall (fun ng => Version ng = Some upgradeToVersion)
             (NodeGroups answeredConfig) /\
      (checkClusterConfig = false -> upgraded = answered)) /\
  (checkClusterConfig = true ->
   exists status upstream,
     EKSStatus upgraded = Some status /\
     UpstreamSpec status = Some upstream /\
     Forall (fun ng => Version ng = Some upgradeToVersion) (NodeGroups upstream)).
Proof.
  unfold helper.UpgradeNodeKubernetesVersion. intros Hrun.
  apply bind_Pass_inv in Hrun as (submitted & w1 & Hdesired & Hrun).
  assert (w1 = w) as ->.
  { unfold helper.UpgradeNodeKubernetesVersion_desired in Hdesired.
    destruct (EKSConfig cluster); [|discriminate].
    cbv [deref bind ret] in Hdesired. congruence. }
  apply bind_Pass_inv in Hrun as ([answered err'] & w2 & Hcall & Hrun).
  apply bind_Pass_inv in Hrun as (u1 & w3 & Hnil & Hrun).
  apply ExpectNil_Pass_inv in Hnil as [-> ->].
  apply bind_Pass_inv in Hrun as (answeredConfig & w4 & Hderef & Hrun).
  apply deref_Pass_inv in Hderef as [Hanswered ->].
  apply bind_Pass_inv in Hrun as (u2 & w5 & Hversions & Hrun).
  apply bind_Pass_inv in Hrun as (u3 & w6 & _ & Hrun).
  unfold call in Hcall.
  destruct (Cluster_Update client submitted submitted (api w))
    as [[answered' err''] s'] eqn:Hupdate.
  injection Hcall as Ha He _. subst answered' err''.
  assert (Hdesiredversions :
    Forall (fun ng => Version ng = Some upgradeToVersion) (NodeGroups answeredConfig)).
  { apply Forall_forall. intros ng Hin. apply list_elem_of_In in Hin.
    exact (expectNodeGroupVersions_Pass_inv _ _ _ _ _ Hversions ng Hin). }
  destruct checkClusterConfig.
  - apply bind_Pass_inv in Hrun as (fetched & w7 & Hpoll & Hret).
    cbv [ret] in Hret. injection Hret as Hfetched Herr _. subst fetched err.
    split; [reflexivity|]. split.
    + exists submitted, answered, answeredConfig, s'.
      split; [exact Hupdate|]. split; [exact Hanswered|].
      split; [exact Hdesiredversions | discriminate].
    + intros _.
      apply Should_Pass_inv in Hpoll as (v & l0 & s0 & Hprobe & Hv).
      unfold helper.upstreamNodeVersionsProbe in Hprobe.
      apply bind_Pass_inv in Hprobe as (c & s1 & _ & Hprobe).
      apply bind_Pass_inv in Hprobe as (upstream & s2 & Hupstream & Hret).
      apply upstreamSpec_Pass_inv in Hupstream as (_ & status & Hstatus & Hup).
      cbv [ret] in Hret. injection Hret as Hc Hok _. subst c v.
      exists status, upstream. repeat split; [exact Hstatus | exact Hup |].
      apply allVersions_spec. exact Hv.
  - cbv [ret] in Hrun. injection Hrun as Hupgraded Herr _. subst upgraded err.
    split; [reflexivity|]. split; [|discriminate].
    exists submitted, answered, answeredConfig, s'.
    split; [exact Hupdate|]. split; [exact Hanswered|].
    split; [exact Hdesiredversions | reflexivity].
Qed.

(** X10.  With the configuration check, [UpdateAccess] never returns an
    error: whatever the API answered to the update, a run that returns has
    overwritten that answer's error with the nil error of its last lookup. *)
Theorem UpdateAccess_checked_returns_no_error (cluster : Cluster)
    (client : Client Api) (publicAccess privateAccess : bool)
    (w w' : World Api) (updated : Cluster) (err : option error) :
  helper.UpdateAccess SetTimeout cluster client publicAccess privateAccess true w
  = (Pass (updated, err), w') ->
  err = None.
Proof.
  unfold helper.UpdateAccess. intros Hrun.
  apply bind_Pass_inv in Hrun as (upgraded & w1 & _ & Hrun).
  apply bind_Pass_inv in Hrun as ([answered err'] & w2 & _ & Hpoll).
  apply Should_Pass_inv in Hpoll as (v & [c0 e0] & s0 & Hprobe & _).
  unfold helper.upstreamAccessProbe in Hprobe.
  apply bind_Pass_inv in Hprobe as (config & s1 & _ & Hprobe).
  apply bind_Pass_inv in Hprobe as (pub & s2 & _ & Hprobe).
  apply bind_Pass_inv in Hprobe as (u1 & s3 & _ & Hprobe).
  apply bind_Pass_inv in Hprobe as (priv & s4 & _ & Hprobe).
  apply bind_Pass_inv in Hprobe as (u2 & s5 & _ & Hprobe).
  apply bind_Pass_inv in Hprobe as (fetched & s6 & _ & Hprobe).
  apply bind_Pass_inv in Hprobe as (upstream & s7 & _ & Hprobe).
  apply bind_Pass_inv in Hprobe as (upPub & s8 & _ & Hprobe).
  destruct (Bool.eqb upPub publicAccess).
  - apply bind_Pass_inv in Hprobe as (upPriv & s9 & _ & Hret).
    cbv [ret] in Hret. congruence.
  - cbv [ret] in Hprobe. congruence.
Qed.

End ProbeFacts.

(** ** More of the helpers: refused updates, indices, and the checks of [p1] *)
Section UpdateFacts.
Context {Api : Type}.
Variable SetTimeout : time.Duration -> time.Duration.
Variable AppendRandomString : nat -> string -> string.
Variable LoadSpecConfig : EKSClusterConfigSpec.
Variable behindLen : EKSClusterConfigSpec -> list NodeGroup.

(** X11.  The mutators that assert on the update fail fast: when the API
    answers the update with an error, [ScaleNodeGroup], [DeleteNodeGroup],
    [AddNodeGroup], [UpgradeNodeKubernetesVersion] and
    [UpgradeClusterKubernetesVersion] abort with that error's message; the
    API is left as the update left it, nothing is waited for and no probe is
    sampled, whatever [wait] and [checkClusterConfig] say. *)
Theorem refused_update_aborts (cluster : Cluster) (client : Client Api)
    (wait checkClusterConfig : bool) (w : World Api)
    (upgraded answered : Cluster) (e : error) (s' : Api) :
  Cluster_Update client upgraded upgraded (api w) = ((answered, Some e), s') ->
  let aborted := (Abort (AssertionFailed (Error e)), mkWorld s' (sampled w)) in
  (forall nodeCount,
      helper.ScaleNodeGroup_desired cluster nodeCount w = (Pass upgraded, w) ->
      helper.ScaleNodeGroup SetTimeout cluster client nodeCount wait
        checkClusterConfig w = aborted) /\
  (forall kept,
      helper.DeleteNodeGroup_desired behindLen cluster w = (Pass (upgraded, kept), w) ->
      helper.DeleteNodeGroup SetTimeout behindLen cluster client wait checkClusterConfig w
      = aborted) /\
  (forall increaseBy submitted,
      helper.AddNodeGroup_desired AppendRandomString LoadSpecConfig cluster
        increaseBy w = (Pass (upgraded, submitted), w) ->
      helper.AddNodeGroup SetTimeout AppendRandomString LoadSpecConfig cluster
        increaseBy client wait checkClusterConfig w = aborted) /\
  (forall upgradeToVersion,
      helper.UpgradeNodeKubernetesVersion_desired cluster upgradeToVersion w
      = (Pass upgraded, w) ->
      helper.UpgradeNodeKubernetesVersion SetTimeout cluster upgradeToVersion
        client wait checkClusterConfig w = aborted) /\
  (forall upgradeToVersion config currentVersion,
      EKSConfig cluster = Some config ->
      KubernetesVersion config = Some currentVersion ->
      upgraded = setEKSConfig (setKubernetesVersion (Some upgradeToVersion) config)
                              cluster ->
      helper.UpgradeClusterKubernetesVersion SetTimeout cluster upgradeToVersion
        client checkClusterConfig w = aborted).
Proof.
  intros Hupdate aborted.
  assert (Hcall :
    call (Cluster_Update client upgraded upgraded) w
    = (Pass (answered, Some e), mkWorld s' (sampled w))).
  { unfold call. rewrite Hupdate. reflexivity. }
  split; [|split; [|split; [|split]]].
  - intros nodeCount Hdesired. unfold helper.ScaleNodeGroup.
    rewrite (bind_Pass _ _ _ _ _ Hdesired), (bind_Pass _ _ _ _ _ Hcall).
    reflexivity.
  - intros kept Hdesired. unfold helper.DeleteNodeGroup.
    destruct (EKSConfig cluster) as [config|] eqn:Hconfig.
    + cbn [deref]. unfold bind at 1. cbn [ret].
      rewrite (bind_Pass _ _ _ _ _ Hdesired), (bind_Pass _ _ _ _ _ Hcall).
      reflexivity.
    + unfold helper.DeleteNodeGroup_desired in Hdesired.
      rewrite Hconfig in Hdesired. discriminate.
  - intros increaseBy submitted Hdesired. unfold helper.AddNodeGroup.
    destruct (EKSConfig cluster) as [config|] eqn:Hconfig.
    + cbn [deref]. unfold bind at 1. cbn [ret].
      rewrite (bind_Pass _ _ _ _ _ Hdesired), (bind_Pass _ _ _ _ _ Hcall).
      reflexivity.
    + unfold helper.AddNodeGroup_desired in Hdesired.
      rewrite Hconfig in Hdesired. discriminate.
  - intros upgradeToVersion Hdesired. unfold helper.UpgradeNodeKubernetesVersion.
    rewrite (bind_Pass _ _ _ _ _ Hdesired), (bind_Pass _ _ _ _ _ Hcall).
    reflexivity.
  - intros upgradeToVersion config currentVersion Hconfig Hcurrent ->.
    unfold helper.UpgradeClusterKubernetesVersion.
    rewrite Hconfig. cbn [deref]. unfold bind at 1. cbn [ret].
    rewrite Hcurrent. cbn [deref]. unfold bind at 1. cbn [ret].
    rewrite (bind_Pass _ _ _ _ _ Hcall). reflexivity.
Qed.

(** X12.  Two helpers can panic before they reach the API.
    [DeleteNodeGroup] reslices the desired node groups to [[:1]]: on an empty
    list whose slice has capacity zero that panics and the world is left as
    it was; with room behind the length it does not panic, and the element
    of the backing array behind the length is what gets submitted as the
    only node group.  [AddNodeGroup] indexes the template's node groups at
    0, which panics on an empty template whatever its capacity, even when
    it is asked to add none. *)
Theorem index_aborts_before_update (cluster : Cluster) (client : Client Api)
    (wait checkClusterConfig : bool) (config : EKSClusterConfigSpec)
    (w : World Api) :
  EKSConfig cluster = Some config ->
  (NodeGroups config = [] -> behindLen config = [] ->
   helper.DeleteNodeGroup SetTimeout behindLen cluster client wait checkClusterConfig w
   = (Abort IndexOutOfRange, w)) /\
  (forall hidden others,
      NodeGroups config = [] -> behindLen config = hidden :: others ->
      helper.DeleteNodeGroup_desired behindLen cluster w
      = (Pass (setEKSConfig (setNodeGroups [hidden] config) cluster, [hidden]), w)) /\
  (NodeGroups LoadSpecConfig = [] ->
   forall increaseBy,
     helper.AddNodeGroup SetTimeout AppendRandomString LoadSpecConfig cluster
       increaseBy client wait checkClusterConfig w
     = (Abort IndexOutOfRange, w)).
Proof.
  intros Hconfig. split; [|split].
  - intros Hempty Hcapacity. unfold helper.DeleteNodeGroup.
    rewrite Hconfig. cbn [deref]. unfold bind at 1. cbn [ret].
    apply bind_Abort. unfold helper.DeleteNodeGroup_desired.
    rewrite Hconfig. cbn [deref]. unfold bind at 1. cbn [ret].
    rewrite Hempty, Hcapacity. reflexivity.
  - intros hidden others Hempty Hcapacity. unfold helper.DeleteNodeGroup_desired.
    rewrite Hconfig. cbn [deref]. unfold bind at 1. cbn [ret].
    rewrite Hempty, Hcapacity. reflexivity.
  - intros Hempty increaseBy. unfold helper.AddNodeGroup.
    rewrite Hconfig. cbn [deref]. unfold bind at 1. cbn [ret].
    apply bind_Abort. unfold helper.AddNodeGroup_desired.
    rewrite Hconfig. cbn [deref]. unfold bind at 1. cbn [ret].
    rewrite Hempty. reflexivity.
Qed.

Lemma setEKSConfig_same (cluster : Cluster) (config : EKSClusterConfigSpec) :
  EKSConfig cluster = Some config ->
  setEKSConfig (setNodeGroups (NodeGroups config) config) cluster = cluster.
Proof. destruct cluster, config. cbn. intros ->. reflexivity. Qed.

(** X13.  A negative [increaseBy] cannot pass the configuration check of
    [AddNodeGroup]: no node group is added, the cluster is submitted as it
    was, and when the API accepts the update and echoes the configuration,
    the check that the count grew by [increaseBy] fails. *)
Theorem AddNodeGroup_negative_increase (cluster : Cluster) (client : Client Api)
    (wait : bool) (increaseBy : Z) (config : EKSClusterConfigSpec)
    (ngTemplate : NodeGroup) (rest : list NodeGroup)
    (answered : Cluster) (s' : Api) (w : World Api) :
  EKSConfig cluster = Some config ->
  NodeGroups LoadSpecConfig = ngTemplate :: rest ->
  increaseBy < 0 ->
  Cluster_Update client cluster cluster (api w) = ((answered, None), s') ->
  EKSConfig answered = EKSConfig cluster ->
  helper.AddNodeGroup_desired AppendRandomString LoadSpecConfig cluster increaseBy w
  = (Pass (cluster, NodeGroups config), w) /\
  helper.AddNodeGroup SetTimeout AppendRandomString LoadSpecConfig cluster
    increaseBy client wait true w
  = (Abort (AssertionFailed "desired nodegroup count"), mkWorld s' (sampled w)).
Proof.
  intros Hconfig Htemplate Hneg Hupdate Hecho.
  assert (Hdesired :
    helper.AddNodeGroup_desired AppendRandomString LoadSpecConfig cluster increaseBy w
    = (Pass (cluster, NodeGroups config), w)).
  { unfold helper.AddNodeGroup_desired. rewrite Hconfig, Htemplate.
    cbv [deref bind ret]. replace (Z.to_nat increaseBy) with 0%nat by lia.
    cbn [helper.prependNodeGroups]. rewrite (setEKSConfig_same _ _ Hconfig).
    reflexivity. }
  split; [exact Hdesired|].
  unfold helper.AddNodeGroup. rewrite Hconfig. cbn [deref].
  unfold bind at 1. cbn [ret].
  rewrite (bind_Pass _ _ _ _ _ Hdesired).
  rewrite (bind_Pass _ _ _ (answered, None) (mkWorld s' (sampled w)))
    by (unfold call; rewrite Hupdate; reflexivity).
  cbn [ExpectNil]. unfold bind at 1. cbn [ret].
  rewrite Hecho, Hconfig. cbn [deref].
  unfold bind at 2. cbn [ret].
  unfold gomega.BeNumericallyEq.
  destruct (Z.eqb_spec (Z.of_nat (length (NodeGroups config)))
              (Z.of_nat (length (NodeGroups config)) + increaseBy)); [lia|].
  reflexivity.
Qed.

End UpdateFacts.

(** ** More of [p1]: the upgrade checks *)
Section UpgradeCheckFacts.
Context {Api : Type}.
Variable SetTimeout : time.Duration -> time.Duration.
Variable AppendRandomString : nat -> string -> string.
Variable LoadSpecConfig : EKSClusterConfigSpec.

Lemma replaceWithNewNodeGroup_Pass_inv (name : option string)
    (cluster replaced : Cluster) :
  p1.replaceWithNewNodeGroup LoadSpecConfig name cluster = Pass replaced ->
  exists config ng,
    EKSConfig replaced = Some (setNodeGroups [ng] config) /\
    NodegroupName ng = name.
Proof.
  unfold p1.replaceWithNewNodeGroup.
  destruct (NodeGroups LoadSpecConfig) as [|first rest]; [discriminate|].
  destruct (EKSConfig cluster) as [config|]; [|discriminate].
  intros [= <-]. eexists config, _. split; reflexivity.
Qed.

(** X14.  [upgradeCPAndAddNgCheck] does not add a node group: its update
    replaces the node groups by a single new one.  So against an API that
    echoes the desired configuration of an update, the check passes only
    for a cluster that had exactly one node group to begin with; the
    cluster it then returns was fetched at the last sample and has every
    upstream node group at the target version. *)
Theorem upgradeCPAndAddNgCheck_pass (adminClient client : Client Api)
    (cluster : Cluster) (upgradeToVersion : string)
    (config : EKSClusterConfigSpec) (w w' : World Api) (checked : Cluster) :
  (forall existing updates s,
      EKSConfig (fst (fst (Cluster_Update client existing updates s)))
      = EKSConfig updates) ->
  EKSConfig cluster = Some config ->
  p1.upgradeCPAndAddNgCheck SetTimeout AppendRandomString LoadSpecConfig
    adminClient cluster client upgradeToVersion w = (Pass checked, w') ->
  length (NodeGroups config) = 1%nat /\
  exists status upstream,
    EKSStatus checked = Some status /\
    UpstreamSpec status = Some upstream /\
    Forall (fun ng => Version ng = Some upgradeToVersion) (NodeGroups upstream).
Proof.
  intros Hecho Hconfig Hrun. unfold p1.upgradeCPAndAddNgCheck in Hrun.
  rewrite Hconfig in Hrun. cbn [deref] in Hrun.
  apply bind_Pass_inv in Hrun as (config0 & w0 & Hc0 & Hrun).
  cbv [ret] in Hc0. injection Hc0 as <- <-.
  apply bind_Pass_inv in Hrun as ([upgraded err1] & w1 & _ & Hrun).
  apply bind_Pass_inv in Hrun as (u1 & w2 & _ & Hrun).
  apply bind_Pass_inv in Hrun as ([updated err2] & w3 & Hupdate & Hrun).
  apply bind_Pass_inv in Hrun as (u2 & w4 & _ & Hrun).
  apply bind_Pass_inv in Hrun as (config2 & w5 & Hderef & Hrun).
  apply deref_Pass_inv in Hderef as [Hconfig2 _].
  apply bind_Pass_inv in Hrun as (u3 & w6 & Hcount & Hrun).
  apply Expect_Pass_inv in Hcount as [Hcount _].
  apply bind_Pass_inv in Hrun as (u4 & w7 & _ & Hrun).
  apply bind_Pass_inv in Hrun as (err3 & w8 & _ & Hrun).
  apply bind_Pass_inv in Hrun as (u5 & w9 & _ & Hpoll).
  split.
  - unfold helper.UpdateCluster in Hupdate.
    apply bind_Pass_inv in Hupdate as (replaced & w10 & Hreplaced & Hcall).
    unfold liftOutcome in Hreplaced. injection Hreplaced as Hreplaced _.
    apply replaceWithNewNodeGroup_Pass_inv in Hreplaced
      as (config1 & ng & Hreplaced & _).
    unfold call in Hcall.
    pose proof (Hecho replaced replaced (api w10)) as Hechoed.
    destruct (Cluster_Update client replaced replaced (api w10))
      as [[answered err] s1].
    injection Hcall as Ha _ _. subst answered. cbn [fst] in Hechoed.
    rewrite Hechoed, Hreplaced in Hconfig2. injection Hconfig2 as <-.
    unfold gomega.BeNumericallyEq in Hcount. cbn [setNodeGroups NodeGroups length] in Hcount.
    apply Z.eqb_eq in Hcount. lia.
  - apply Should_Pass_inv in Hpoll as (v & l0 & s0 & Hprobe & Hv).
    unfold helper.upstreamNodeVersionsProbe in Hprobe.
    apply bind_Pass_inv in Hprobe as (c & s1 & _ & Hprobe).
    apply bind_Pass_inv in Hprobe as (upstream & s2 & Hupstream & Hret).
    apply upstreamSpec_Pass_inv in Hupstream as (_ & status & Hstatus & Hup).
    cbv [ret] in Hret. injection Hret as Hc Hok _. subst c v.
    exists status, upstream. repeat split; [exact Hstatus | exact Hup |].
    apply allVersions_spec. exact Hv.
Qed.

(** X15.  [upgradeNodeKubernetesVersionGTCPCheck] passes only on a refusal:
    the cluster it returns was fetched from the API at the last sample, is
    in the transitioning state "error" and carries a message that contains
    "not compatible". *)
Theorem upgradeNodeKubernetesVersionGTCPCheck_pass (cluster : Cluster)
    (client : Client Api) (upgradeToVersion : string)
    (w w' : World Api) (refused : Cluster) :
  p1.upgradeNodeKubernetesVersionGTCPCheck SetTimeout cluster client
    upgradeToVersion w = (Pass refused, w') ->
  Transitioning refused = "error" /\
  strings.Contains (TransitioningMessage refused) "not compatible" = true /\
  exists id s, Cluster_ByID client id s = ((refused, None), api w').
Proof.
  unfold p1.upgradeNodeKubernetesVersionGTCPCheck. intros Hrun.
  apply bind_Pass_inv in Hrun as ([upgraded err] & w1 & _ & Hrun).
  apply bind_Pass_inv in Hrun as (u1 & w2 & _ & Hpoll).
  apply Should_Pass_inv in Hpoll as (v & l0 & s0 & Hprobe & Hv).
  unfold p1.notCompatibleProbe in Hprobe.
  apply bind_Pass_inv in Hprobe as (fetched & s1 & Hfetch & Hret).
  cbv [ret] in Hret. injection Hret as Hfetched Hreported Hs. subst fetched v s1.
  apply refetch_Pass_inv in Hfetch.
  unfold gomega.BeTrue, p1.notCompatibleReported in Hv.
  apply andb_true_iff in Hv as [Herror Hmessage].
  apply String.eqb_eq in Herror.
  split; [exact Herror|]. split; [exact Hmessage|].
  exists (ID l0), s0. exact Hfetch.
Qed.

End UpgradeCheckFacts.

Section PrependFacts.

Lemma prepend_loop {A B} (f : A -> B) (xs : list A) (acc : list B) :
  foldl (fun acc x => f x :: acc) acc xs = rev (map f xs) ++ acc.
Proof.
  revert acc. induction xs as [|x xs IH]; intros acc; [reflexivity|].
  cbn [foldl map rev]. rewrite IH, <- app_assoc. reflexivity.
Qed.

(** X16.  The update function of the spec that mixes versions keeps every
    node group of the configuration, in reverse order, and changes nothing
    but its version: the [i]-th node group from the end of the new list is
    the [i]-th of the old one at the node group version.  A configuration
    without a node group list aborts it. *)
Theorem differentVersionsUpdateFunc_spec (ngK8sVersion : string)
    (clusterConfig : eks.ClusterConfig) :
  (forall ngs,
      eks.NodeGroupsConfig clusterConfig = Some ngs ->
      p1.differentVersionsUpdateFunc ngK8sVersion clusterConfig
      = Pass (setNodeGroupsConfig
                (Some (rev (map (p1.setConfigVersion (Some ngK8sVersion)) ngs)))
                clusterConfig)) /\
  (eks.NodeGroupsConfig clusterConfig = None ->
   p1.differentVersionsUpdateFunc ngK8sVersion clusterConfig = Abort NilDereference).
Proof.
  unfold p1.differentVersionsUpdateFunc, runPure, p1.setNodeGroupVersions. split.
  - intros ngs ->. cbv [deref bind ret helper.assignThrough fst].
    rewrite prepend_loop, app_nil_r. reflexivity.
  - intros ->. reflexivity.
Qed.

(** X17.  The loop that picks the version to upgrade to in the chart-support
    suite keeps the last available version that contains the highest
    supported minor version, and the empty string when none does. *)
Theorem latestSupported_spec (versions : list string) (highest : string) :
  (Forall (fun v => strings.Contains v highest = false) versions ->
   k8s_chart_support_upgrade.latestSupported versions highest = "") /\
  (forall before v behind,
      versions = before ++ v :: behind ->
      strings.Contains v highest = true ->
      Forall (fun u => strings.Contains u highest = false) behind ->
      k8s_chart_support_upgrade.latestSupported versions highest = v).
Proof.
  unfold k8s_chart_support_upgrade.latestSupported.
  assert (Hskip : forall behind latest,
    Forall (fun u => strings.Contains u highest = false) behind ->
    foldl (fun latestVersion v =>
             if strings.Contains v highest then v else latestVersion)
          latest behind = latest).
  { intros behind latest Hnone. revert latest.
    induction Hnone as [|u behind Hu _ IH]; intros latest; [reflexivity|].
    cbn [foldl]. rewrite Hu. apply IH. }
  split.
  - apply Hskip.
  - intros before v behind -> Hv Hbehind.
    rewrite foldl_app. cbn [foldl]. rewrite Hv. apply Hskip. exact Hbehind.
Qed.

End PrependFacts.

(** ** More of the CLI wrappers: what they touch and what they run *)
Section HostFacts.
Context {P : Type}.
Variable RunW : string -> list string -> gmap string string -> P -> (string * option error) * P.
Variable DownstreamKubeconfig : string -> string.

Lemma quiet_ret {A} (a : A) : @cli.quiet P A (ret a).
Proof. intros h. split; reflexivity. Qed.

Lemma quiet_bind {A B} (m : Spec (Host P) A) (k : A -> Spec (Host P) B) :
  cli.quiet m -> (forall a, cli.quiet (k a)) -> cli.quiet (bind m k).
Proof.
  intros Hm Hk h. unfold bind. specialize (Hm h).
  destruct (m h) as [[a|f] h1]; cbn [snd] in *; [|exact Hm].
  destruct (Hk a h1) as [He Hr]. destruct Hm as [He1 Hr1].
  split; congruence.
Qed.

Lemma quiet_run (cmd : string) (args : list string) : cli.quiet (cli.run RunW cmd args).
Proof.
  intros h. unfold cli.run.
  destruct (RunW cmd args (env h) (proc h)) as [r p']. split; reflexivity.
Qed.

Lemma quiet_GetFromEKS region clusterName cmd query extraArgs :
  cli.quiet (cli.GetFromEKS RunW region clusterName cmd query extraArgs).
Proof.
  unfold cli.GetFromEKS. apply quiet_bind; [apply quiet_run|].
  intros [out err]. apply quiet_ret.
Qed.

Lemma quiet_ModifyEKSNodegroupOnAWS region clusterName ngName operation extraArgs :
  cli.quiet (cli.ModifyEKSNodegroupOnAWS RunW region clusterName ngName operation extraArgs).
Proof.
  unfold cli.ModifyEKSNodegroupOnAWS. apply quiet_bind; [apply quiet_run|].
  intros r. apply quiet_ret.
Qed.

Lemma quiet_deleteNodegroups region clusterName ngNames :
  cli.quiet (cli.deleteNodegroups RunW region clusterName ngNames).
Proof.
  induction ngNames as [|ngName rest IH]; cbn [cli.deleteNodegroups].
  - apply quiet_ret.
  - apply quiet_bind; [apply quiet_ModifyEKSNodegroupOnAWS|].
    intros [e|]; [apply quiet_ret | exact IH].
Qed.

(** X18.  Apart from restoring KUBECONFIG, [DeleteEKSClusterOnAWS] leaves the
    environment as it found it, and on every exit, failed or not, it has
    removed exactly one more path: the one the cluster's own kubeconfig
    variable named on entry (the empty path when that variable was not
    set).  The wrappers that run one command leave the environment and
    the removed paths untouched. *)
Theorem DeleteEKSClusterOnAWS_frame (region clusterName : string) (h : Host P) :
  let h' := snd (cli.DeleteEKSClusterOnAWS RunW DownstreamKubeconfig
                   region clusterName h) in
  env h' = <["KUBECONFIG" := os.Getenv "KUBECONFIG" h]> (env h) /\
  (forall key, key <> "KUBECONFIG" -> os.Getenv key h' = os.Getenv key h) /\
  removed h' = os.Getenv (DownstreamKubeconfig clusterName) h :: removed h /\
  (forall cmd query extraArgs,
      let g := snd (cli.GetFromEKS RunW region clusterName cmd query extraArgs h) in
      env g = env h /\ removed g = removed h) /\
  (forall ngName operation extraArgs,
      let g := snd (cli.ModifyEKSNodegroupOnAWS RunW region clusterName ngName
                      operation extraArgs h) in
      env g = env h /\ removed g = removed h).
Proof.
  cbn zeta.
  assert (Hbody : forall h0 : Host P,
    let body :=
      (let* (ngNames, err) :=
         cli.GetFromEKS RunW region clusterName "nodegroup" ".[].Name" [] in
       match err with
       | Some _ => ret (Wrap err "Failed to list nodegroup for deletion")
       | None =>
           let* err :=
             if negb (String.eqb ngNames "")
             then cli.deleteNodegroups RunW region clusterName
                    (strings.SplitLines ngNames)
             else ret None in
           match err with
           | Some _ => ret err
           | None =>
               let* r := cli.run RunW "eksctl"
                                 (cli.deleteClusterArgs region clusterName) in
               ret (cli.wrapFailure "Failed to delete cluster: " r)
           end
       end) in
    env (snd (body h0)) = env h0 /\ removed (snd (body h0)) = removed h0).
  { intros h0. cbn zeta. revert h0.
    apply quiet_bind; [apply quiet_GetFromEKS|].
    intros [ngNames [e|]]; [apply quiet_ret|].
    apply quiet_bind.
    - destruct (negb (String.eqb ngNames "")); [apply quiet_deleteNodegroups | apply quiet_ret].
    - intros [e|]; [apply quiet_ret|].
      apply quiet_bind; [apply quiet_run | intros r; apply quiet_ret]. }
  assert (Henv :
    env (snd (cli.DeleteEKSClusterOnAWS RunW DownstreamKubeconfig region clusterName h))
    = <["KUBECONFIG" := os.Getenv "KUBECONFIG" h]> (env h) /\
    removed (snd (cli.DeleteEKSClusterOnAWS RunW DownstreamKubeconfig region clusterName h))
    = os.Getenv (DownstreamKubeconfig clusterName) h :: removed h).
  { unfold cli.DeleteEKSClusterOnAWS, withDefer.
    specialize (Hbody (os.Setenv "KUBECONFIG"
                         (os.Getenv (DownstreamKubeconfig clusterName) h) h)).
    cbn zeta in Hbody.
    match goal with |- context [let (_, _) := ?b in _] => destruct b as [r h1] end.
    cbn [snd] in *. destruct Hbody as [He Hr].
    unfold os.Remove, os.Setenv. cbn [env removed]. rewrite He, Hr.
    unfold os.Setenv. cbn [env removed]. rewrite insert_insert_eq. split; reflexivity. }
  destruct Henv as [Henv Hremoved].
  split; [exact Henv|]. split; [|split; [exact Hremoved|split]].
  - intros key Hkey. unfold os.Getenv. rewrite Henv.
    rewrite lookup_insert_ne by congruence. reflexivity.
  - intros cmd query extraArgs. apply quiet_GetFromEKS.
  - intros ngName operation extraArgs. apply quiet_ModifyEKSNodegroupOnAWS.
Qed.

End HostFacts.

Section TraceFacts.
Context {P : Type}.
Variable RunW : string -> list string -> gmap string string -> P -> (string * option error) * P.
Variable DownstreamKubeconfig : string -> string.

Lemma traced_run (cmd : string) (args : list string) (h : Host (P * list cli.Invocation))
    r p' :
  RunW cmd args (env h) (fst (proc h)) = (r, p') ->
  cli.run (cli.traced RunW) cmd args h
  = (Pass r, mkHost (env h) (removed h)
               (p', snd (proc h) ++ [(cmd, args, os.Getenv "KUBECONFIG" h)])).
Proof. unfold cli.run, cli.traced. intros ->. reflexivity. Qed.

Lemma modifyNodegroupArgs_delete (region clusterName ngName : string) :
  cli.modifyNodegroupArgs region clusterName ngName "delete" ["--wait"]
  = ["delete"; "nodegroup"; "--region=" +:+ region; "--name=" +:+ ngName;
     "--cluster=" +:+ clusterName; "--disable-eviction"; "--wait"].
Proof. reflexivity. Qed.

Lemma GetFromEKS_traced (region clusterName cmd query : string)
    (extraArgs : list string) (h : Host (P * list cli.Invocation)) out err p' :
  RunW "bash" ["-c"; cli.getFromEKSCommand region clusterName cmd query extraArgs]
       (env h) (fst (proc h)) = ((out, err), p') ->
  cli.GetFromEKS (cli.traced RunW) region clusterName cmd query extraArgs h
  = (Pass (strings.TrimSpace out, err),
     mkHost (env h) (removed h)
       (p', snd (proc h)
            ++ [("bash",
                 ["-c"; cli.getFromEKSCommand region clusterName cmd query extraArgs],
                 os.Getenv "KUBECONFIG" h)])).
Proof.
  intros Hrun. unfold cli.GetFromEKS.
  rewrite (bind_Pass _ _ _ _ _ (traced_run _ _ _ _ _ Hrun)). reflexivity.
Qed.

Lemma deletion_traced (region clusterName ngName : string)
    (h : Host (P * list cli.Invocation)) out err p' :
  RunW "eksctl" (cli.modifyNodegroupArgs region clusterName ngName "delete" ["--wait"])
       (env h) (fst (proc h)) = ((out, err), p') ->
  cli.ModifyEKSNodegroupOnAWS (cli.traced RunW) region clusterName ngName
    "delete" ["--wait"] h
  = (Pass (cli.wrapFailure "Failed to modify nodegroup: " (out, err)),
     mkHost (env h) (removed h)
       (p', snd (proc h)
            ++ [cli.deletionInvocation region clusterName (os.Getenv "KUBECONFIG" h) ngName])).
Proof.
  intros Hrun. unfold cli.ModifyEKSNodegroupOnAWS.
  rewrite (bind_Pass _ _ _ _ _ (traced_run _ _ _ _ _ Hrun)). reflexivity.
Qed.

(** When no invocation fails, the loop over the node group names runs one
    deletion per name, in order. *)
Lemma deleteNodegroups_trace (region clusterName : string) (ngNames : list string)
    (h : Host (P * list cli.Invocation)) :
  (forall cmd args environment p, snd (fst (RunW cmd args environment p)) = None) ->
  exists p',
    cli.deleteNodegroups (cli.traced RunW) region clusterName ngNames h
    = (Pass None,
       mkHost (env h) (removed h)
         (p', snd (proc h)
              ++ map (cli.deletionInvocation region clusterName (os.Getenv "KUBECONFIG" h))
                     ngNames)).
Proof.
  intros Hnever. revert h.
  induction ngNames as [|ngName rest IH]; intros h.
  - exists (fst (proc h)). cbn [cli.deleteNodegroups map]. rewrite app_nil_r.
    destruct h as [e r [p l]]. reflexivity.
  - cbn [cli.deleteNodegroups map].
    destruct (RunW "eksctl"
                (cli.modifyNodegroupArgs region clusterName ngName "delete" ["--wait"])
                (env h) (fst (proc h))) as [[out err] p1] eqn:Hrun.
    pose proof (Hnever "eksctl"
                  (cli.modifyNodegroupArgs region clusterName ngName "delete" ["--wait"])
                  (env h) (fst (proc h))) as Hnone.
    rewrite Hrun in Hnone. cbn [fst snd] in Hnone. subst err.
    rewrite (bind_Pass _ _ _ _ _ (deletion_traced _ _ _ _ _ _ _ Hrun)).
    cbn [cli.wrapFailure snd].
    match goal with |- context [cli.deleteNodegroups _ _ _ rest ?h1] =>
      destruct (IH h1) as (p' & Hrest) end.
    exists p'. rewrite Hrest. cbn [env removed proc snd].
    rewrite <- app_assoc. reflexivity.
Qed.

(** X19.  When [proc.RunW] reports an error for the shell invocation that
    lists the node groups, [DeleteEKSClusterOnAWS] runs nothing else: the
    listing, run under the cluster's own kubeconfig, is the only invocation,
    no deletion is issued, and the error returned is the runner's under the
    message "Failed to list nodegroup for deletion".  This is about the
    status of the shell invocation, which is that of [jq], the last command
    of the pipeline; a failure of [eksctl] inside the pipeline does not
    make it fail. *)
Theorem DeleteEKSClusterOnAWS_listing_fails (region clusterName : string)
    (h : Host (P * list cli.Invocation)) (out : string) (err : error) (p' : P) :
  let kubeconfig := os.Getenv (DownstreamKubeconfig clusterName) h in
  RunW "bash"
       ["-c"; cli.getFromEKSCommand region clusterName "nodegroup" ".[].Name" []]
       (<["KUBECONFIG" := kubeconfig]> (env h)) (fst (proc h))
  = ((out, Some err), p') ->
  exists h',
    cli.DeleteEKSClusterOnAWS (cli.traced RunW) DownstreamKubeconfig
      region clusterName h
    = (Pass (Some (withMessage err "Failed to list nodegroup for deletion")), h') /\
    proc h' = (p', snd (proc h) ++ [cli.listingInvocation region clusterName kubeconfig]).
Proof.
  intros kubeconfig Hrun. eexists. split.
  - unfold cli.DeleteEKSClusterOnAWS, withDefer. fold kubeconfig.
    rewrite (bind_Pass _ _ _ _ _
               (GetFromEKS_traced _ _ _ _ _
                  (os.Setenv "KUBECONFIG" kubeconfig h) _ _ _ Hrun)).
    cbn [ret Wrap]. reflexivity.
  - cbn [proc os.Remove os.Setenv]. unfold cli.listingInvocation.
    rewrite Getenv_Setenv. reflexivity.
Qed.

(** X20.  When the first node group cannot be deleted,
    [DeleteEKSClusterOnAWS] stops there: it has run the listing and that one
    deletion (with eviction disabled and waiting for completion), it deletes
    neither the other node groups nor the cluster, and the error it returns
    includes the captured output of the failed deletion. *)
Theorem DeleteEKSClusterOnAWS_first_deletion_fails (region clusterName : string)
    (h : Host (P * list cli.Invocation)) (listing ngName : string)
    (others : list string) (out : string) (err : error) (p1 p2 : P) :
  let kubeconfig := os.Getenv (DownstreamKubeconfig clusterName) h in
  let environment := <["KUBECONFIG" := kubeconfig]> (env h) in
  RunW "bash"
       ["-c"; cli.getFromEKSCommand region clusterName "nodegroup" ".[].Name" []]
       environment (fst (proc h))
  = ((listing, None), p1) ->
  strings.TrimSpace listing <> "" ->
  strings.SplitLines (strings.TrimSpace listing) = ngName :: others ->
  RunW "eksctl"
       (cli.modifyNodegroupArgs region clusterName ngName "delete" ["--wait"])
       environment p1
  = ((out, Some err), p2) ->
  exists e h',
    cli.DeleteEKSClusterOnAWS (cli.traced RunW) DownstreamKubeconfig
      region clusterName h
    = (Pass (Some e), h') /\
    Error e = "Failed to delete nodegroup: Failed to modify nodegroup: "
              +:+ out +:+ ": " +:+ Error err /\
    strings.Contains (Error e) out = true /\
    proc h' = (p2, snd (proc h)
                   ++ [cli.listingInvocation region clusterName kubeconfig;
                       cli.deletionInvocation region clusterName kubeconfig ngName]).
Proof.
  intros kubeconfig environment Hlist Hnonempty Hsplit Hrun.
  eexists (withMessage (withMessage err ("Failed to modify nodegroup: " +:+ out))
                       "Failed to delete nodegroup"), _.
  split; [|split; [|split]].
  - unfold cli.DeleteEKSClusterOnAWS, withDefer. fold kubeconfig.
    rewrite (bind_Pass _ _ _ _ _
               (GetFromEKS_traced _ _ _ _ _
                  (os.Setenv "KUBECONFIG" kubeconfig h) _ _ _ Hlist)).
    apply String.eqb_neq in Hnonempty. rewrite Hnonempty. cbn [negb].
    rewrite Hsplit. cbn [cli.deleteNodegroups].
    match goal with |- context [cli.ModifyEKSNodegroupOnAWS _ _ _ _ _ _] =>
      idtac end.
    set (h1 := mkHost (env (os.Setenv "KUBECONFIG" kubeconfig h)) _ _).
    assert (Hrun1 :
      RunW "eksctl"
           (cli.modifyNodegroupArgs region clusterName ngName "delete" ["--wait"])
           (env h1) (fst (proc h1)) = ((out, Some err), p2)) by exact Hrun.
    unfold bind at 1.
    rewrite (bind_Pass _ _ _ _ _ (deletion_traced _ _ _ h1 _ _ _ Hrun1)).
    cbn [ret cli.wrapFailure snd fst Wrap]. reflexivity.
  - cbn [Error]. rewrite !append_assoc. reflexivity.
  - apply Contains_spec.
    exists "Failed to delete nodegroup: Failed to modify nodegroup: ",
           (": " +:+ Error err).
    cbn [Error]. rewrite !append_assoc. reflexivity.
  - cbn [proc os.Remove os.Setenv snd fst env].
    unfold cli.listingInvocation, os.Getenv, os.Setenv. cbn [env].
    rewrite !lookup_insert_eq, <- app_assoc. reflexivity.
Qed.

(** X21.  When no invocation fails, [DeleteEKSClusterOnAWS] returns nil after
    it has run, under the cluster's own kubeconfig and in this order: the
    listing, one deletion for every line of the trimmed listing (none when
    it is empty), and the deletion of the cluster. *)
Theorem DeleteEKSClusterOnAWS_all_succeed (region clusterName : string)
    (h : Host (P * list cli.Invocation)) :
  (forall cmd args environment p, snd (fst (RunW cmd args environment p)) = None) ->
  let kubeconfig := os.Getenv (DownstreamKubeconfig clusterName) h in
  let listing :=
    strings.TrimSpace
      (fst (fst (RunW "bash"
                   ["-c"; cli.getFromEKSCommand region clusterName
                            "nodegroup" ".[].Name" []]
                   (<["KUBECONFIG" := kubeconfig]> (env h)) (fst (proc h))))) in
  let ngNames := if String.eqb listing "" then [] else strings.SplitLines listing in
  exists h',
    cli.DeleteEKSClusterOnAWS (cli.traced RunW) DownstreamKubeconfig
      region clusterName h
    = (Pass None, h') /\
    snd (proc h')
    = snd (proc h)
      ++ [cli.listingInvocation region clusterName kubeconfig]
      ++ map (cli.deletionInvocation region clusterName kubeconfig) ngNames
      ++ [cli.clusterDeletionInvocation region clusterName kubeconfig].
Proof.
  intros Hnever kubeconfig listing ngNames.
  unfold cli.DeleteEKSClusterOnAWS, withDefer. fold kubeconfig.
  set (h0 := os.Setenv "KUBECONFIG" kubeconfig h).
  assert (Hkube0 : os.Getenv "KUBECONFIG" h0 = kubeconfig) by apply Getenv_Setenv.
  destruct (RunW "bash"
              ["-c"; cli.getFromEKSCommand region clusterName "nodegroup" ".[].Name" []]
              (env h0) (fst (proc h0)))
    as [[out err] p1] eqn:Hlist.
  pose proof (Hnever "bash"
                ["-c"; cli.getFromEKSCommand region clusterName "nodegroup" ".[].Name" []]
                (env h0) (fst (proc h0))) as Hnone.
  rewrite Hlist in Hnone. cbn [fst snd] in Hnone. subst err.
  assert (Hlisting : listing = strings.TrimSpace out).
  { unfold listing. change (<["KUBECONFIG":=kubeconfig]> (env h)) with (env h0).
    change (fst (proc h)) with (fst (proc h0)). rewrite Hlist. reflexivity. }
  rewrite (bind_Pass _ _ _ _ _ (GetFromEKS_traced _ _ _ _ _ h0 _ _ _ Hlist)).
  rewrite <- Hlisting, Hkube0.
  set (h1 := mkHost (env h0) (removed h0) _).
  assert (Hkube : os.Getenv "KUBECONFIG" h1 = kubeconfig) by exact Hkube0.
  assert (Hloop : exists p2,
    (if negb (String.eqb listing "")
     then cli.deleteNodegroups (cli.traced RunW) region clusterName
            (strings.SplitLines listing)
     else ret None) h1
    = (Pass None,
       mkHost (env h1) (removed h1)
         (p2, snd (proc h1)
              ++ map (cli.deletionInvocation region clusterName kubeconfig) ngNames))).
  { unfold ngNames. destruct (String.eqb listing ""); cbn [negb].
    - exists (fst (proc h1)). cbn [map]. rewrite app_nil_r. reflexivity.
    - destruct (deleteNodegroups_trace region clusterName
                  (strings.SplitLines listing) h1 Hnever) as (p2 & Hrun).
      exists p2. rewrite Hrun, Hkube. reflexivity. }
  destruct Hloop as (p2 & Hloop).
  rewrite (bind_Pass _ _ _ _ _ Hloop).
  set (h2 := mkHost (env h1) (removed h1) _).
  destruct (RunW "eksctl" (cli.deleteClusterArgs region clusterName)
              (env h2) (fst (proc h2))) as [[out2 err2] p3] eqn:Hdelete.
  pose proof (Hnever "eksctl" (cli.deleteClusterArgs region clusterName)
                (env h2) (fst (proc h2))) as Hnone2.
  rewrite Hdelete in Hnone2. cbn [fst snd] in Hnone2. subst err2.
  rewrite (bind_Pass _ _ _ _ _ (traced_run _ _ h2 _ _ Hdelete)).
  cbn [ret cli.wrapFailure snd fst].
  eexists. split; [reflexivity|].
  cbn [proc os.Remove os.Setenv snd fst].
  change (os.Getenv "KUBECONFIG" h2) with (os.Getenv "KUBECONFIG" h0).
  rewrite Hkube0. unfold h2, h1. cbn [proc snd].
  unfold cli.clusterDeletionInvocation, cli.listingInvocation.
  rewrite <- !app_assoc. reflexivity.
Qed.

End TraceFacts.

(** ** More of the CLI wrappers: the text they hand back and split *)
Section TrimFacts.

Lemma stripPrefix_spec (s prefix r : string) :
  strings.stripPrefix s prefix = Some r <-> s = prefix +:+ r.
Proof.
  revert s. induction prefix as [|a p IH]; intros s.
  - destruct s; cbn [strings.stripPrefix]; rewrite append_nil;
      split; congruence.
  - destruct s as [|b s]; cbn [strings.stripPrefix]; rewrite append_cons.
    + split; discriminate.
    + destruct (Ascii.eqb_spec a b) as [->|Hne].
      * rewrite IH. split; [intros ->; reflexivity | intros [= ->]; reflexivity].
      * split; [discriminate | intros [= -> _]; contradiction].
Qed.

Lemma stripAny_Some (s r : string) (prefixes : list string) :
  strings.stripAny s prefixes = Some r ->
  exists p, In p prefixes /\ s = p +:+ r.
Proof.
  induction prefixes as [|p ps IH]; cbn [strings.stripAny]; [discriminate|].
  destruct (strings.stripPrefix s p) as [r'|] eqn:Hp.
  - intros [= ->]. exists p. split; [left; reflexivity|].
    apply stripPrefix_spec. exact Hp.
  - intros Hps. destruct (IH Hps) as (q & Hq & Hs).
    exists q. split; [right; exact Hq | exact Hs].
Qed.

Lemma stripAny_None (s : string) (prefixes : list string) :
  strings.stripAny s prefixes = None <->
  forall p r, In p prefixes -> s <> p +:+ r.
Proof.
  induction prefixes as [|p ps IH]; cbn [strings.stripAny].
  - split; [intros _ p r [] | reflexivity].
  - destruct (strings.stripPrefix s p) as [r'|] eqn:Hp.
    + split; [discriminate|]. intros Hnone. exfalso.
      apply (Hnone p r' (or_introl eq_refl)). apply stripPrefix_spec. exact Hp.
    + rewrite IH. split.
      * intros Hps q r [<-|Hq] Hs; [|exact (Hps q r Hq Hs)].
        apply stripPrefix_spec in Hs. congruence.
      * intros Hall q r Hq. apply Hall. right. exact Hq.
Qed.

Lemma length_append (a b : string) :
  String.length (a +:+ b) = (String.length a + String.length b)%nat.
Proof.
  induction a as [|c a IH]; [rewrite append_nil; reflexivity|].
  rewrite append_cons. cbn [String.length]. rewrite IH. reflexivity.
Qed.

(** With the length of the string as fuel, trimming runs to its end: what is
    left begins with none of the prefixes. *)
Lemma trimPrefixes_done (prefixes : list string) (fuel : nat) (s : string) :
  (forall p, In p prefixes -> p <> EmptyString) ->
  (String.length s <= fuel)%nat ->
  strings.stripAny (strings.trimPrefixes fuel prefixes s) prefixes = None.
Proof.
  intros Hnonempty. revert s. induction fuel as [|fuel IH]; intros s Hlen.
  - destruct s; [|cbn in Hlen; lia]. cbn [strings.trimPrefixes].
    apply stripAny_None. intros p r Hp Hs.
    destruct p; [exact (Hnonempty _ Hp eq_refl)|].
    rewrite append_cons in Hs. discriminate.
  - cbn [strings.trimPrefixes].
    destruct (strings.stripAny s prefixes) as [r|] eqn:Hstrip; [|exact Hstrip].
    apply IH. apply stripAny_Some in Hstrip as (p & Hp & ->).
    rewrite length_append in Hlen.
    destruct p; [exfalso; exact (Hnonempty _ Hp eq_refl)|].
    cbn [String.length] in Hlen. lia.
Qed.

Lemma trimPrefixes_fixed (prefixes : list string) (fuel : nat) (s : string) :
  strings.stripAny s prefixes = None ->
  strings.trimPrefixes fuel prefixes s = s.
Proof.
  intros Hnone. destruct fuel; cbn [strings.trimPrefixes]; [reflexivity|].
  rewrite Hnone. reflexivity.
Qed.

(** Trimming only takes from the front. *)
Lemma trimPrefixes_suffix (prefixes : list string) (fuel : nat) (s : string) :
  exists taken, s = taken +:+ strings.trimPrefixes fuel prefixes s.
Proof.
  revert s. induction fuel as [|fuel IH]; intros s; cbn [strings.trimPrefixes].
  - exists EmptyString. rewrite append_nil. reflexivity.
  - destruct (strings.stripAny s prefixes) as [r|] eqn:Hstrip.
    + apply stripAny_Some in Hstrip as (p & _ & ->).
      destruct (IH r) as (taken & Hr).
      exists (p +:+ taken). rewrite append_assoc, <- Hr. reflexivity.
    + exists EmptyString. rewrite append_nil. reflexivity.
Qed.

Lemma reverseOnto_spec (s acc : string) :
  strings.reverseOnto s acc = strings.reverse s +:+ acc.
Proof.
  unfold strings.reverse. revert acc.
  induction s as [|c s IH]; intros acc; cbn [strings.reverseOnto].
  - rewrite append_nil. reflexivity.
  - rewrite (IH (String c acc)), (IH (String c EmptyString)).
    rewrite append_assoc, append_cons, append_nil. reflexivity.
Qed.

Lemma reverse_cons (c : ascii) (s : string) :
  strings.reverse (String c s) = strings.reverse s +:+ String c EmptyString.
Proof. unfold strings.reverse at 1. cbn [strings.reverseOnto]. apply reverseOnto_spec. Qed.

Lemma reverse_append (a b : string) :
  strings.reverse (a +:+ b) = strings.reverse b +:+ strings.reverse a.
Proof.
  induction a as [|c a IH].
  - rewrite append_nil. change (strings.reverse EmptyString) with EmptyString.
    rewrite append_nil_r. reflexivity.
  - rewrite append_cons, !reverse_cons, IH, append_assoc. reflexivity.
Qed.

Lemma reverse_involutive (s : string) : strings.reverse (strings.reverse s) = s.
Proof.
  induction s as [|c s IH]; [reflexivity|].
  rewrite reverse_cons, reverse_append, IH. reflexivity.
Qed.

Lemma whiteSpace_nonempty (p : string) :
  In p strings.whiteSpace \/ In p (map strings.reverse strings.whiteSpace) ->
  p <> EmptyString.
Proof.
  intros Hp ->. revert Hp. vm_compute. intuition discriminate.
Qed.

(** The shape of a trimmed string: it begins with no white-space rune, it
    ends with none, and trimming it again changes nothing. *)
Lemma TrimSpace_shape (s : string) :
  strings.TrimSpace (strings.TrimSpace s) = strings.TrimSpace s /\
  (forall space rest, In space strings.whiteSpace ->
     strings.TrimSpace s <> space +:+ rest) /\
  (forall before space, In space strings.whiteSpace ->
     strings.TrimSpace s <> before +:+ space).
Proof.
  set (left := strings.TrimLeft s).
  assert (Hleft : strings.stripAny left strings.whiteSpace = None).
  { apply trimPrefixes_done; [|reflexivity].
    intros p Hp. apply whiteSpace_nonempty. left. exact Hp. }
  assert (Hright : strings.stripAny (strings.reverse (strings.TrimRight left))
                     (map strings.reverse strings.whiteSpace) = None).
  { unfold strings.TrimRight. rewrite reverse_involutive.
    apply trimPrefixes_done; [|reflexivity].
    intros p Hp. apply whiteSpace_nonempty. right. exact Hp. }
  assert (Hprefix : exists dropped, left = strings.TrimRight left +:+ dropped).
  { unfold strings.TrimRight, strings.trimAll.
    destruct (trimPrefixes_suffix (map strings.reverse strings.whiteSpace)
                (String.length (strings.reverse left)) (strings.reverse left))
      as (taken & Htaken).
    exists (strings.reverse taken).
    rewrite <- reverse_append, <- Htaken, reverse_involutive. reflexivity. }
  assert (Hhead : forall space rest, In space strings.whiteSpace ->
            strings.TrimRight left <> space +:+ rest).
  { intros space rest Hspace Heq. destruct Hprefix as (dropped & Hdropped).
    rewrite Heq, append_assoc in Hdropped.
    exact (proj1 (stripAny_None _ _) Hleft space _ Hspace Hdropped). }
  assert (Hlast : forall before space, In space strings.whiteSpace ->
            strings.TrimRight left <> before +:+ space).
  { intros before space Hspace Heq.
    apply (proj1 (stripAny_None _ _) Hright (strings.reverse space)
             (strings.reverse before)).
    - apply in_map. exact Hspace.
    - rewrite Heq. apply reverse_append. }
  unfold strings.TrimSpace. fold left.
  split; [|split; [exact Hhead | exact Hlast]].
  assert (Hfixed : strings.TrimLeft (strings.TrimRight left) = strings.TrimRight left).
  { apply trimPrefixes_fixed. apply stripAny_None. exact Hhead. }
  rewrite Hfixed. unfold strings.TrimRight at 1, strings.trimAll.
  rewrite (trimPrefixes_fixed _ _ _ Hright). apply reverse_involutive.
Qed.

(** X22.  What [GetFromEKS] hands back is trimmed, whatever the subprocess
    printed and whether it failed or not: the text neither begins nor ends
    with a white-space rune, in the sense of [unicode.IsSpace] on UTF-8, and
    trimming it again changes nothing, so a value such as a version can be
    compared as it is. *)
Theorem GetFromEKS_output_is_trimmed {P : Type}
    (RunW : string -> list string -> gmap string string -> P -> (string * option error) * P)
    (region clusterName cmd query : string) (extraArgs : list string) (h : Host P) :
  exists out err h',
    cli.GetFromEKS RunW region clusterName cmd query extraArgs h
    = (Pass (out, err), h') /\
    strings.TrimSpace out = out /\
    (forall space rest, In space strings.whiteSpace -> out <> space +:+ rest) /\
    (forall before space, In space strings.whiteSpace -> out <> before +:+ space).
Proof.
  unfold cli.GetFromEKS, cli.run, bind.
  destruct (RunW "bash"
              ["-c"; cli.getFromEKSCommand region clusterName cmd query extraArgs]
              (env h) (proc h)) as [[printed err] p'].
  eexists _, _, _. split; [reflexivity|]. apply TrimSpace_shape.
Qed.

Lemma Join_cons_char (c : ascii) (l : string) (ls : list string) (sep : string) :
  strings.Join (String c l :: ls) sep = String c (strings.Join (l :: ls) sep).
Proof. destruct ls; reflexivity. Qed.

Lemma Join_cons_more (e l : string) (ls : list string) (sep : string) :
  strings.Join (e :: l :: ls) sep = e +:+ sep +:+ strings.Join (l :: ls) sep.
Proof. reflexivity. Qed.

Lemma SplitLines_nonempty (s : string) : strings.SplitLines s <> [].
Proof.
  induction s as [|c s IH]; cbn [strings.SplitLines]; [discriminate|].
  destruct (Ascii.eqb c "010"%char); [discriminate|].
  destruct (strings.SplitLines s); discriminate.
Qed.

(** The names [DeleteEKSClusterOnAWS] iterates over are the lines of the
    listing: there is at least one, none of them contains a newline, and
    joined by newlines they give the listing back. *)
Lemma SplitLines_are_the_lines (s : string) :
  strings.SplitLines s <> [] /\
  Forall (fun line => strings.Contains line (String "010"%char EmptyString) = false)
         (strings.SplitLines s) /\
  strings.Join (strings.SplitLines s) (String "010"%char EmptyString) = s.
Proof.
  split; [apply SplitLines_nonempty|].
  induction s as [|c s [IHlines IHjoin]]; cbn [strings.SplitLines].
  - split; [repeat constructor | reflexivity].
  - destruct (Ascii.eqb c "010"%char) eqn:Hc.
    + apply Ascii.eqb_eq in Hc. subst c. split.
      * constructor; [reflexivity | exact IHlines].
      * pose proof (SplitLines_nonempty s) as Hne.
        destruct (strings.SplitLines s) as [|l ls]; [contradiction|].
        rewrite Join_cons_more, append_nil, append_cons, append_nil, IHjoin.
        reflexivity.
    + pose proof (SplitLines_nonempty s) as Hne.
      destruct (strings.SplitLines s) as [|l ls]; [contradiction|].
      split.
      * inversion IHlines as [|? ? Hl Hls]. subst.
        constructor; [|exact Hls].
        rewrite Contains_unfold. cbn [strings.HasPrefix].
        rewrite Ascii.eqb_sym, Hc. cbn [andb orb]. exact Hl.
      * rewrite Join_cons_char, IHjoin. reflexivity.
Qed.

End TrimFacts.

(** ** The further properties on concrete runs *)

Lemma AddNodeGroupToConfig_replaces_by_copies_witness :
  exists ngs,
    helper.AddNodeGroupToConfig Examples.randomName Examples.template 2 tt
    = (Pass (setNodeGroupsConfig (Some ngs) Examples.template, None), tt) /\
    Z.of_nat (length ngs) = 2 /\
    forall ng, In ng ngs ->
      exists k, (1 <= k)%nat /\ Z.of_nat k <= 2 /\
        ng = setConfigNodegroupName (Some (Examples.randomName k "ranchernodes"))
               (eks.mkNodeGroupConfig (Some "ranchernodes") None (Some 1) (Some 2)
                  (Some 1) (Some "t3.medium")).
Proof.
  apply (AddNodeGroupToConfig_replaces_by_copies Examples.randomName
           Examples.template 2 _ [] "ranchernodes" tt).
  - reflexivity.
  - reflexivity.
  - lia.
Defined.

Lemma AddNodeGroupToConfig_edges_witness :
  helper.AddNodeGroupToConfig Examples.randomName Examples.template 0 tt
  = (Pass (setNodeGroupsConfig (Some []) Examples.template, None), tt).
Proof.
  apply (proj1 (AddNodeGroupToConfig_edges Examples.randomName Examples.template 0 tt)
           [eks.mkNodeGroupConfig (Some "ranchernodes") None (Some 1) (Some 2)
              (Some 1) (Some "t3.medium")]).
  - reflexivity.
  - lia.
Defined.

Lemma AddNodeGroup_prepends_witness :
  exists added,
    let updateNodeGroupsList :=
      added ++ [Examples.nodeGroup "ranchernodes" 1 2] in
    helper.AddNodeGroup_desired Examples.randomName MoreExamples.specTemplate
      Examples.cluster 2 tt
    = (Pass (setEKSConfig
               (setNodeGroups updateNodeGroupsList
                  (Examples.config "1.29" [Examples.nodeGroup "ranchernodes" 1 2] true true))
               Examples.cluster,
             updateNodeGroupsList), tt) /\
    length added = 2%nat /\
    forall ng, In ng added ->
      Version ng = None /\
      DesiredSize ng = Some 1 /\
      MaxSize ng = Some 2 /\
      MinSize ng = Some 1 /\
      DiskSize ng = Some 20 /\
      InstanceType ng = Some "t3.medium" /\
      exists k, NodegroupName ng = Some (Examples.randomName k "ng").
Proof.
  apply (AddNodeGroup_prepends Examples.randomName MoreExamples.specTemplate
           Examples.cluster 2
           (Examples.config "1.29" [Examples.nodeGroup "ranchernodes" 1 2] true true)
           (Examples.nodeGroup "template" 1 2) [] tt).
  - reflexivity.
  - reflexivity.
Defined.

Lemma ScaleNodeGroup_desired_last_wins_witness :
  helper.ScaleNodeGroup_desired
    (setEKSConfig
       (setNodeGroups [helper.scaled 3 (Examples.nodeGroup "ranchernodes" 1 2)]
          (Examples.config "1.29" [Examples.nodeGroup "ranchernodes" 1 2] true true))
       Examples.cluster) 5 tt
  = helper.ScaleNodeGroup_desired Examples.cluster 5 tt.
Proof.
  apply (ScaleNodeGroup_desired_last_wins Examples.cluster _ 3 5 tt tt).
  reflexivity.
Defined.

Lemma UpgradeNodeKubernetesVersion_sets_every_version_witness :
  let config := Examples.config "1.29" [Examples.nodeGroup "ranchernodes" 1 2] true true in
  exists ngs' upgraded,
    helper.UpgradeNodeKubernetesVersion_desired Examples.cluster "1.30" tt
    = (Pass upgraded, tt) /\
    EKSConfig upgraded = Some (setNodeGroups ngs' config) /\
    KubernetesVersion (setNodeGroups ngs' config) = KubernetesVersion config /\
    length ngs' = length (NodeGroups config) /\
    forall i ng, NodeGroups config !! i = Some ng ->
      exists ng', ngs' !! i = Some ng' /\
        Version ng' = Some "1.30" /\
        NodegroupName ng' = NodegroupName ng /\
        DesiredSize ng' = DesiredSize ng /\
        MaxSize ng' = MaxSize ng /\
        MinSize ng' = MinSize ng.
Proof.
  apply (UpgradeNodeKubernetesVersion_sets_every_version Examples.cluster "1.30"
           (Examples.config "1.29" [Examples.nodeGroup "ranchernodes" 1 2] true true) tt).
  reflexivity.
Defined.

Lemma allDesiredSize_spec_witness :
  helper.allDesiredSize 2
    [Examples.nodeGroup "a" 2 2; Examples.nodeGroup "b" 1 2;
     mkNodeGroup (Some "c") None None None None None None] tt
  = (Pass false, tt).
Proof.
  apply (proj1 (proj2 (allDesiredSize_spec 2 _ tt))
           [Examples.nodeGroup "a" 2 2] (Examples.nodeGroup "b" 1 2)
           [mkNodeGroup (Some "c") None None None None None None] 1).
  - reflexivity.
  - repeat constructor.
  - reflexivity.
  - lia.
Defined.

Lemma ScaleNodeGroup_checked_pass_witness :
  @None error = None /\
  exists status upstream,
    EKSStatus Examples.cluster = Some status /\
    UpstreamSpec status = Some upstream /\
    Forall (fun ng => DesiredSize ng = Some 1) (NodeGroups upstream).
Proof.
  apply (ScaleNodeGroup_checked_pass Examples.unscaled Examples.cluster
           (Examples.steadyClient Examples.cluster) 1 true
           Examples.start (mkWorld tt 1) Examples.cluster None).
  vm_compute. reflexivity.
Defined.

Lemma UpgradeClusterKubernetesVersion_checked_pass_keeps_nodegroups_witness :
  @None error = None /\
  exists status upstream,
    EKSStatus (UpgradeExamples.clusterAt "1.30" "1.29") = Some status /\
    UpstreamSpec status = Some upstream /\
    Forall (fun ng => Version ng = Some "1.29") (NodeGroups upstream).
Proof.
  apply (UpgradeClusterKubernetesVersion_checked_pass_keeps_nodegroups
           Examples.unscaled (UpgradeExamples.clusterAt "1.29" "1.29") "1.30" "1.29"
           (Examples.steadyClient (UpgradeExamples.clusterAt "1.30" "1.29"))
           (mkEKSClusterConfigSpec (Some "1.29") [UpgradeExamples.nodeGroupAt "1.29"]
              (Some true) (Some true))
           Examples.start (mkWorld tt 1)
           (UpgradeExamples.clusterAt "1.30" "1.29") None).
  - reflexivity.
  - reflexivity.
  - vm_compute. reflexivity.
Defined.

Lemma UpgradeNodeKubernetesVersion_pass_witness :
  exists status upstream,
    EKSStatus (UpgradeExamples.clusterAt "1.30" "1.30") = Some status /\
    UpstreamSpec status = Some upstream /\
    Forall (fun ng => Version ng = Some "1.30") (NodeGroups upstream).
Proof.
  apply (proj2 (proj2 (UpgradeNodeKubernetesVersion_pass
                         Examples.unscaled (UpgradeExamples.clusterAt "1.30" "1.29")
                         "1.30"
                         (Examples.steadyClient (UpgradeExamples.clusterAt "1.30" "1.30"))
                         true true Examples.start (mkWorld tt 1)
                         (UpgradeExamples.clusterAt "1.30" "1.30") None
                         ltac:(vm_compute; reflexivity)))).
  reflexivity.
Defined.

Lemma UpdateAccess_checked_returns_no_error_witness :
  @None error = None.
Proof.
  apply (UpdateAccess_checked_returns_no_error Examples.unscaled Examples.cluster
           (Examples.steadyClient Examples.cluster) true true
           Examples.start (mkWorld tt 1) Examples.cluster None).
  vm_compute. reflexivity.
Defined.

Lemma refused_update_aborts_witness :
  helper.ScaleNodeGroup Examples.unscaled Examples.cluster
    (MoreExamples.refusingClient Examples.cluster) 3 true true Examples.start
  = (Abort (AssertionFailed "403 Forbidden: cluster is read-only"), mkWorld tt 0).
Proof.
  apply (proj1 (refused_update_aborts Examples.unscaled Examples.randomName
                  MoreExamples.specTemplate MoreExamples.exactCapacity Examples.cluster
                  (MoreExamples.refusingClient Examples.cluster) true true
                  Examples.start
                  (setEKSConfig
                     (setNodeGroups
                        [helper.scaled 3 (Examples.nodeGroup "ranchernodes" 1 2)]
                        (Examples.config "1.29"
                           [Examples.nodeGroup "ranchernodes" 1 2] true true))
                     Examples.cluster)
                  Examples.emptyCluster
                  (New "403 Forbidden: cluster is read-only") tt eq_refl) 3).
  reflexivity.
Defined.

Lemma index_aborts_before_update_witness :
  helper.DeleteNodeGroup Examples.unscaled MoreExamples.exactCapacity
    MoreExamples.emptyCluster
    (Examples.steadyClient MoreExamples.emptyCluster) true true Examples.start
  = (Abort IndexOutOfRange, Examples.start) /\
  helper.DeleteNodeGroup_desired
    (MoreExamples.roomBehind (Examples.nodeGroup "left-behind" 1 2))
    MoreExamples.emptyCluster Examples.start
  = (Pass (setEKSConfig
             (setNodeGroups [Examples.nodeGroup "left-behind" 1 2]
                (Examples.config "1.29" [] true true))
             MoreExamples.emptyCluster,
           [Examples.nodeGroup "left-behind" 1 2]), Examples.start).
Proof.
  split.
  - apply (proj1 (index_aborts_before_update Examples.unscaled Examples.randomName
                    MoreExamples.specTemplate MoreExamples.exactCapacity
                    MoreExamples.emptyCluster
                    (Examples.steadyClient MoreExamples.emptyCluster) true true
                    (Examples.config "1.29" [] true true) Examples.start eq_refl)).
    + reflexivity.
    + reflexivity.
  - apply (proj1 (proj2 (index_aborts_before_update Examples.unscaled
                           Examples.randomName MoreExamples.specTemplate
                           (MoreExamples.roomBehind
                              (Examples.nodeGroup "left-behind" 1 2))
                           MoreExamples.emptyCluster
                           (Examples.steadyClient MoreExamples.emptyCluster) true true
                           (Examples.config "1.29" [] true true) Examples.start
                           eq_refl))
             (Examples.nodeGroup "left-behind" 1 2) []).
    + reflexivity.
    + reflexivity.
Defined.

Lemma AddNodeGroup_negative_increase_witness :
  helper.AddNodeGroup_desired Examples.randomName MoreExamples.specTemplate
    Examples.cluster (-1) Examples.start
  = (Pass (Examples.cluster, [Examples.nodeGroup "ranchernodes" 1 2]), Examples.start) /\
  helper.AddNodeGroup Examples.unscaled Examples.randomName MoreExamples.specTemplate
    Examples.cluster (-1) (Examples.steadyClient Examples.cluster) true true
    Examples.start
  = (Abort (AssertionFailed "desired nodegroup count"), mkWorld tt 0).
Proof.
  apply (AddNodeGroup_negative_increase Examples.unscaled Examples.randomName
           MoreExamples.specTemplate Examples.cluster
           (Examples.steadyClient Examples.cluster) true (-1)
           (Examples.config "1.29" [Examples.nodeGroup "ranchernodes" 1 2] true true)
           (Examples.nodeGroup "template" 1 2) [] Examples.cluster tt Examples.start).
  - reflexivity.
  - reflexivity.
  - lia.
  - reflexivity.
  - reflexivity.
Defined.

Lemma upgradeCPAndAddNgCheck_pass_witness :
  length [UpgradeExamples.nodeGroupAt "1.29"] = 1%nat /\
  exists status upstream,
    EKSStatus (UpgradeExamples.clusterAt "1.30" "1.30") = Some status /\
    UpstreamSpec status = Some upstream /\
    Forall (fun ng => Version ng = Some "1.30") (NodeGroups upstream).
Proof.
  apply (upgradeCPAndAddNgCheck_pass Examples.unscaled Examples.randomName
           MoreExamples.specTemplate
           (MoreExamples.movingClient (UpgradeExamples.clusterAt "1.30" "1.29")
              (UpgradeExamples.clusterAt "1.30" "1.30"))
           (MoreExamples.movingClient (UpgradeExamples.clusterAt "1.30" "1.29")
              (UpgradeExamples.clusterAt "1.30" "1.30"))
           (UpgradeExamples.clusterAt "1.29" "1.29") "1.30"
           (mkEKSClusterConfigSpec (Some "1.29") [UpgradeExamples.nodeGroupAt "1.29"]
              (Some true) (Some true))
           (mkWorld 0%nat 0%nat) (mkWorld 2%nat 2%nat)
           (UpgradeExamples.clusterAt "1.30" "1.30")).
  - intros existing updates s. reflexivity.
  - reflexivity.
  - vm_compute. reflexivity.
Defined.

Lemma upgradeNodeKubernetesVersionGTCPCheck_pass_witness :
  Transitioning MoreExamples.incompatible = "error" /\
  strings.Contains (TransitioningMessage MoreExamples.incompatible) "not compatible" = true /\
  exists id s,
    Cluster_ByID (Examples.steadyClient MoreExamples.incompatible) id s
    = ((MoreExamples.incompatible, None), tt).
Proof.
  apply (upgradeNodeKubernetesVersionGTCPCheck_pass Examples.unscaled
           (UpgradeExamples.clusterAt "1.29" "1.29")
           (Examples.steadyClient MoreExamples.incompatible) "1.30"
           Examples.start (mkWorld tt 1) MoreExamples.incompatible).
  vm_compute. reflexivity.
Defined.

Lemma differentVersionsUpdateFunc_spec_witness :
  p1.differentVersionsUpdateFunc "1.28" Examples.template
  = Pass (setNodeGroupsConfig
            (Some (rev (map (p1.setConfigVersion (Some "1.28"))
                          [eks.mkNodeGroupConfig (Some "ranchernodes") None (Some 1)
                             (Some 2) (Some 1) (Some "t3.medium")])))
            Examples.template).
Proof.
  apply (proj1 (differentVersionsUpdateFunc_spec "1.28" Examples.template)).
  reflexivity.
Defined.

Lemma latestSupported_spec_witness :
  k8s_chart_support_upgrade.latestSupported
    ["1.29.8-gke.1031000"; "1.30.3-gke.1969001"; "1.30.5-gke.1014001";
     "1.31.1-gke.1146000"] "1.30"
  = "1.30.5-gke.1014001".
Proof.
  apply (proj2 (latestSupported_spec _ "1.30")
           ["1.29.8-gke.1031000"; "1.30.3-gke.1969001"] "1.30.5-gke.1014001"
           ["1.31.1-gke.1146000"]).
  - reflexivity.
  - vm_compute. reflexivity.
  - repeat constructor.
Defined.

Lemma DeleteEKSClusterOnAWS_frame_witness :
  os.Getenv "auto-eks-hp-ci_KUBECONFIG"
    (snd (cli.DeleteEKSClusterOnAWS (cli.traced MoreExamples.stuckRunW)
            CliExamples.DownstreamKubeconfig "us-west-2" "auto-eks-hp-ci"
            MoreExamples.tracedHost))
  = os.Getenv "auto-eks-hp-ci_KUBECONFIG" MoreExamples.tracedHost.
Proof.
  apply (proj1 (proj2 (DeleteEKSClusterOnAWS_frame (cli.traced MoreExamples.stuckRunW)
                         CliExamples.DownstreamKubeconfig "us-west-2" "auto-eks-hp-ci"
                         MoreExamples.tracedHost))).
  discriminate.
Defined.

Lemma DeleteEKSClusterOnAWS_listing_fails_witness :
  exists h',
    cli.DeleteEKSClusterOnAWS (cli.traced CliExamples.failingRunW)
      CliExamples.DownstreamKubeconfig "us-west-2" "auto-eks-hp-ci"
      MoreExamples.tracedHost
    = (Pass (Some (withMessage (New "exit status 1")
                     "Failed to list nodegroup for deletion")), h') /\
    proc h' = (tt, [] ++ [cli.listingInvocation "us-west-2" "auto-eks-hp-ci"
                            "/tmp/auto-eks-hp-ci"]).
Proof.
  apply (DeleteEKSClusterOnAWS_listing_fails CliExamples.failingRunW
           CliExamples.DownstreamKubeconfig "us-west-2" "auto-eks-hp-ci"
           MoreExamples.tracedHost
           ("Error: unable to describe cluster control plane" +:+ String "010"%char "")
           (New "exit status 1") tt).
  reflexivity.
Defined.

Lemma DeleteEKSClusterOnAWS_first_deletion_fails_witness :
  exists e h',
    cli.DeleteEKSClusterOnAWS (cli.traced MoreExamples.stuckRunW)
      CliExamples.DownstreamKubeconfig "us-west-2" "auto-eks-hp-ci"
      MoreExamples.tracedHost
    = (Pass (Some e), h') /\
    Error e = "Failed to delete nodegroup: Failed to modify nodegroup: "
              +:+ "Error: timed out waiting for nodegroup deletion"
              +:+ ": " +:+ "exit status 1" /\
    strings.Contains (Error e) "Error: timed out waiting for nodegroup deletion" = true /\
    proc h' = (tt, [] ++ [cli.listingInvocation "us-west-2" "auto-eks-hp-ci"
                            "/tmp/auto-eks-hp-ci";
                          cli.deletionInvocation "us-west-2" "auto-eks-hp-ci"
                            "/tmp/auto-eks-hp-ci" "ranchernodes"]).
Proof.
  apply (DeleteEKSClusterOnAWS_first_deletion_fails MoreExamples.stuckRunW
           CliExamples.DownstreamKubeconfig "us-west-2" "auto-eks-hp-ci"
           MoreExamples.tracedHost
           ("ranchernodes" +:+ String "010"%char "gpuenabled" +:+ String "010"%char "")
           "ranchernodes" ["gpuenabled"]
           "Error: timed out waiting for nodegroup deletion"
           (New "exit status 1") tt tt).
  - reflexivity.
  - vm_compute. discriminate.
  - vm_compute. reflexivity.
  - reflexivity.
Defined.

Lemma DeleteEKSClusterOnAWS_all_succeed_witness :
  exists h',
    cli.DeleteEKSClusterOnAWS (cli.traced MoreExamples.obligingRunW)
      CliExamples.DownstreamKubeconfig "us-west-2" "auto-eks-hp-ci"
      MoreExamples.tracedHost
    = (Pass None, h') /\
    snd (proc h')
    = [cli.listingInvocation "us-west-2" "auto-eks-hp-ci" "/tmp/auto-eks-hp-ci";
       cli.deletionInvocation "us-west-2" "auto-eks-hp-ci" "/tmp/auto-eks-hp-ci"
         "ranchernodes";
       cli.deletionInvocation "us-west-2" "auto-eks-hp-ci" "/tmp/auto-eks-hp-ci"
         "gpuenabled";
       cli.clusterDeletionInvocation "us-west-2" "auto-eks-hp-ci" "/tmp/auto-eks-hp-ci"].
Proof.
  apply (DeleteEKSClusterOnAWS_all_succeed MoreExamples.obligingRunW
           CliExamples.DownstreamKubeconfig "us-west-2" "auto-eks-hp-ci"
           MoreExamples.tracedHost).
  intros cmd args environment p. unfold MoreExamples.obligingRunW.
  destruct (String.eqb cmd "bash"); reflexivity.
Defined.
